(** * NumPy-compatible reductions of [jax/_src/numpy/reductions.py]

    A shallow embedding of the reduction protocol: the dtype policy, the
    generic reduction core [_reduction] and its presets, the NaN-lifting
    combinator, the derived statistics, the cumulative reductions and the
    order-statistics engine.

    The array runtime is an external collaborator of the module.  Booleans and
    integers are modelled concretely (integers as [Z] with the wrap-around of
    their width written out); the inexact (floating and complex) arithmetic is
    a parameter [FloatOps], about which only a few laws are assumed, each
    stated where it is used. *)

From Stdlib Require Import ZArith List String Ascii Bool Lia Arith PeanoNat.
From Stdlib Require Import DecimalString QArith Qround Qabs Permutation.
Import ListNotations.
Close Scope Q_scope.

(* ------------------------------------------------------------------------- *)
(** ** Exceptions and the error monad *)

Inductive exn : Type :=
| ValueError (msg : string)
| TypeError (msg : string)
| IndexError (msg : string)
| NotImplementedError (msg : string).

Inductive result (A : Type) : Type :=
| Ok (a : A)
| Raise (e : exn).

Arguments Ok {A} a.
Arguments Raise {A} e.

Definition bind {A B : Type} (r : result A) (k : A -> result B) : result B :=
  match r with
  | Ok a => k a
  | Raise e => Raise e
  end.

Notation "x <- c ;; k" := (bind c (fun x => k))
  (at level 61, c at next level, right associativity).
Notation "' p <- c ;; k" := (bind c (fun x => let 'p := x in k))
  (at level 61, p pattern, c at next level, right associativity).

Definition is_ok {A : Type} (r : result A) : bool :=
  match r with Ok _ => true | Raise _ => false end.

Fixpoint mapM {A B : Type} (f : A -> result B) (l : list A) : result (list B) :=
  match l with
  | [] => Ok []
  | x :: r => y <- f x ;; ys <- mapM f r ;; Ok (y :: ys)
  end.

(* ------------------------------------------------------------------------- *)
(** ** Dtypes *)

Inductive DType : Type :=
| bool_
| int8 | int16 | int32 | int64
| uint8 | uint16 | uint32 | uint64
| float8_e4m3fn | bfloat16 | float16 | float32 | float64
| complex64 | complex128.

Definition dtype_eq_dec (a b : DType) : {a = b} + {a <> b}.
Proof. decide equality. Defined.

Definition dtype_eqb (a b : DType) : bool :=
  if dtype_eq_dec a b then true else false.

(** [dtypes.issubdtype d np.bool_], [np.unsignedinteger], [np.signedinteger],
    [np.integer], [np.floating], [np.complexfloating], [np.inexact]. *)
Definition is_bool (d : DType) : bool :=
  match d with bool_ => true | _ => false end.

Definition is_unsignedinteger (d : DType) : bool :=
  match d with uint8 | uint16 | uint32 | uint64 => true | _ => false end.

Definition is_signedinteger (d : DType) : bool :=
  match d with int8 | int16 | int32 | int64 => true | _ => false end.

Definition is_integer (d : DType) : bool :=
  is_unsignedinteger d || is_signedinteger d.

Definition is_floating (d : DType) : bool :=
  match d with
  | float8_e4m3fn | bfloat16 | float16 | float32 | float64 => true
  | _ => false
  end.

Definition is_complexfloating (d : DType) : bool :=
  match d with complex64 | complex128 => true | _ => false end.

Definition is_inexact (d : DType) : bool :=
  is_floating d || is_complexfloating d.

(** [np.iinfo(d).bits] of an integer dtype (0 elsewhere). *)
Definition iinfo_bits (d : DType) : Z :=
  match d with
  | int8 | uint8 => 8
  | int16 | uint16 => 16
  | int32 | uint32 => 32
  | int64 | uint64 => 64
  | _ => 0
  end%Z.

Definition iinfo_min (d : DType) : Z :=
  if is_signedinteger d then (- 2 ^ (iinfo_bits d - 1))%Z else 0%Z.

Definition iinfo_max (d : DType) : Z :=
  if is_signedinteger d then (2 ^ (iinfo_bits d - 1) - 1)%Z
  else (2 ^ iinfo_bits d - 1)%Z.

(** [dtypes.supports_inf]: the only modelled floating dtype without
    infinities is [float8_e4m3fn]. *)
Definition supports_inf (d : DType) : bool :=
  match d with float8_e4m3fn => false | _ => is_inexact d end.

(** The configuration the dtype library reads: the [jax_enable_x64] flag and
    whether the default dtypes are the 32-bit ones. *)
Record Config : Type := {
  enable_x64 : bool;
  default_dtype_bits_32 : bool
}.

(** The dtype lattice of two strongly typed operands ([jnp.promote_types]) is
    part of the dtype library and is taken as it comes. *)
Class DtypeLib : Type := {
  config : Config;
  promote_types : DType -> DType -> DType
}.

(* ------------------------------------------------------------------------- *)
(** ** Python constants *)

(** The literals the module hands to the runtime: [True]/[False], integers,
    [np.inf]/[-np.inf], [np.nan] and [0.5]. *)
Inductive pyval : Type :=
| PyBool (b : bool)
| PyInt (z : Z)
| PyInf (neg : bool)
| PyNaN
| PyHalf.

(** [v > 0] *)
Definition py_gt0 (v : pyval) : bool :=
  match v with
  | PyBool b => b
  | PyInt z => (0 <? z)%Z
  | PyInf neg => negb neg
  | PyNaN => false
  | PyHalf => true
  end.

Definition py_isinf (v : pyval) : bool :=
  match v with PyInf _ => true | _ => false end.

Definition py_isneginf (v : pyval) : bool :=
  match v with PyInf neg => neg | _ => false end.

(** [np.sign v < 0] *)
Definition py_sign_neg (v : pyval) : bool :=
  match v with
  | PyInt z => (z <? 0)%Z
  | PyInf neg => neg
  | _ => false
  end.

(* ------------------------------------------------------------------------- *)
(** ** The inexact arithmetic of the runtime *)

(** Values of the floating and complex dtypes and the elementwise operations
    of the runtime on them.  Operations that round take the dtype they are
    performed in. *)
Class FloatOps : Type := {
  fl : Type;
  fnan : fl;
  finf : bool -> fl;                   (* [finf true] is minus infinity *)
  f_of_Z : DType -> Z -> fl;
  fhalf : DType -> fl;
  finfo_min : DType -> fl;
  finfo_max : DType -> fl;
  fisnan : fl -> bool;
  fnonzero : fl -> bool;
  f_to_Z : fl -> Z;
  fcvt : DType -> DType -> fl -> fl;
  fadd : DType -> fl -> fl -> fl;
  fsub : DType -> fl -> fl -> fl;
  fmul : DType -> fl -> fl -> fl;
  fdiv : DType -> fl -> fl -> fl;
  fmax : DType -> fl -> fl -> fl;
  fmin : DType -> fl -> fl -> fl;
  fle : fl -> fl -> bool;
  flt : fl -> fl -> bool;
  ffloor : fl -> fl;
  fceil : fl -> fl;
  fconj : fl -> fl;
  freal : fl -> fl;
  fsort_le : fl -> fl -> bool;         (* the total order [lax.sort] uses *)
  fvalid : DType -> fl -> bool         (* the value belongs to the dtype *)
}.

(** *** A reference runtime: exact arithmetic on the extended rationals *)

Inductive xfloat : Type :=
| XNaN
| XInf (neg : bool)
| XFin (q : Q).

Definition q_eqb (a b : Q) : bool :=
  (Qnum a =? Qnum b)%Z && (Qden a =? Qden b)%positive.

Definition q_neg (q : Q) : bool := (Qnum q <? 0)%Z.
Definition q_zero (q : Q) : bool := (Qnum q =? 0)%Z.

(** Rounding into a dtype: exact, except that [float8_e4m3fn] has no value
    beyond 448 in magnitude. *)
Definition xround (d : DType) (q : Q) : xfloat :=
  let q' := Qred q in
  match d with
  | float8_e4m3fn => if Qle_bool (Qabs q') 448%Q then XFin q' else XNaN
  | _ => XFin q'
  end.

Definition xneg (x : xfloat) : xfloat :=
  match x with
  | XNaN => XNaN
  | XInf n => XInf (negb n)
  | XFin q => XFin (Qred (- q)%Q)
  end.

Definition xadd (d : DType) (x y : xfloat) : xfloat :=
  match x, y with
  | XNaN, _ | _, XNaN => XNaN
  | XInf a, XInf b => if Bool.eqb a b then XInf a else XNaN
  | XInf a, XFin _ | XFin _, XInf a => XInf a
  | XFin a, XFin b => xround d (a + b)%Q
  end.

Definition xsub (d : DType) (x y : xfloat) : xfloat := xadd d x (xneg y).

Definition xmul (d : DType) (x y : xfloat) : xfloat :=
  match x, y with
  | XNaN, _ | _, XNaN => XNaN
  | XInf a, XInf b => XInf (xorb a b)
  | XInf a, XFin q | XFin q, XInf a =>
      if q_zero q then XNaN else XInf (xorb a (q_neg q))
  | XFin a, XFin b => xround d (a * b)%Q
  end.

Definition xdiv (d : DType) (x y : xfloat) : xfloat :=
  match x, y with
  | XNaN, _ | _, XNaN => XNaN
  | XInf _, XInf _ => XNaN
  | XInf a, XFin q => XInf (xorb a (q_neg q))
  | XFin _, XInf _ => XFin 0%Q
  | XFin a, XFin b =>
      if q_zero b then (if q_zero a then XNaN else XInf (q_neg a))
      else xround d (a / b)%Q
  end.

(** [x <= y] on the extended rationals; false when either side is NaN. *)
Definition xle (x y : xfloat) : bool :=
  match x, y with
  | XNaN, _ | _, XNaN => false
  | XInf true, _ => true
  | _, XInf false => true
  | XInf false, _ => false
  | _, XInf true => false
  | XFin a, XFin b => Qle_bool a b
  end.

Definition xlt (x y : xfloat) : bool :=
  match x, y with
  | XNaN, _ | _, XNaN => false
  | _, _ => negb (xle y x)
  end.

Definition xisnan (x : xfloat) : bool :=
  match x with XNaN => true | _ => false end.

Definition xmax (d : DType) (x y : xfloat) : xfloat :=
  if xisnan x then x else if xisnan y then y else if xle x y then y else x.

Definition xmin (d : DType) (x y : xfloat) : xfloat :=
  if xisnan x then x else if xisnan y then y else if xle x y then x else y.

Definition xsort_le (x y : xfloat) : bool :=
  match x, y with
  | _, XNaN => true
  | XNaN, _ => false
  | _, _ => xle x y
  end.

Definition xvalid (d : DType) (x : xfloat) : bool :=
  match x with
  | XNaN => true
  | XInf _ => supports_inf d
  | XFin q =>
      q_eqb (Qred q) q &&
      match d with float8_e4m3fn => Qle_bool (Qabs q) 448%Q | _ => true end
  end.

Definition xcvt (d1 d2 : DType) (x : xfloat) : xfloat :=
  match x with
  | XNaN => XNaN
  | XInf n => if supports_inf d2 then XInf n else XNaN
  | XFin q => xround d2 q
  end.

Definition exact_floats : FloatOps := {|
  fl := xfloat;
  fnan := XNaN;
  finf := XInf;
  f_of_Z := fun d z => xround d (inject_Z z);
  fhalf := fun _ => XFin (1 # 2)%Q;
  finfo_min := fun d =>
    match d with float8_e4m3fn => XFin (- 448)%Q | _ => XFin (inject_Z (- 2 ^ 1024)) end;
  finfo_max := fun d =>
    match d with float8_e4m3fn => XFin 448%Q | _ => XFin (inject_Z (2 ^ 1024)) end;
  fisnan := xisnan;
  fnonzero := fun x => match x with XFin q => negb (q_zero q) | _ => true end;
  f_to_Z := fun x => match x with XFin q => Z.quot (Qnum q) (Zpos (Qden q)) | _ => 0%Z end;
  fcvt := xcvt;
  fadd := xadd;
  fsub := xsub;
  fmul := xmul;
  fdiv := xdiv;
  fmax := xmax;
  fmin := xmin;
  fle := xle;
  flt := xlt;
  ffloor := fun x => match x with XFin q => XFin (inject_Z (Qfloor q)) | _ => x end;
  fceil := fun x => match x with XFin q => XFin (inject_Z (Qceiling q)) | _ => x end;
  fconj := fun x => x;
  freal := fun x => x;
  fsort_le := xsort_le;
  fvalid := xvalid
|}.

Definition default_config : Config :=
  {| enable_x64 := false; default_dtype_bits_32 := false |}.

(** A reference dtype library: x64 disabled; promotion of two distinct
    strongly typed dtypes is not exercised by the module and goes to the
    left operand here. *)
Definition default_lib : DtypeLib :=
  {| config := default_config; promote_types := fun a _ => a |}.

(* ------------------------------------------------------------------------- *)
(** ** The model *)

Section Reductions.

Context {lib : DtypeLib} {F : FloatOps}.


(** [dtypes.int_], [dtypes.uint], [dtypes.float_]. *)
Definition int_ : DType := if default_dtype_bits_32 config then int32 else int64.
Definition uint : DType := if default_dtype_bits_32 config then uint32 else uint64.
Definition float_ : DType := if default_dtype_bits_32 config then float32 else float64.

(** [dtypes.canonicalize_dtype]: without x64 the 64-bit dtypes are narrowed. *)
Definition canonicalize_dtype (d : DType) : DType :=
  if enable_x64 config then d
  else match d with
       | int64 => int32
       | uint64 => uint32
       | float64 => float32
       | complex128 => complex64
       | _ => d
       end.

(** Modelled from the spec: [dtypes.to_inexact_dtype], the smallest floating
    dtype that can represent the input; inexact dtypes are returned as is. *)
Definition to_inexact_dtype (d : DType) : DType :=
  match d with
  | bool_ | int8 | int16 | int32 | uint8 | uint16 | uint32 => float32
  | int64 | uint64 => float64
  | _ => d
  end.

(** [util._complex_elem_type]. *)
Definition _complex_elem_type (d : DType) : DType :=
  match d with
  | complex64 => float32
  | complex128 => float64
  | _ => d
  end.

Definition _upcast_f16 (d : DType) : DType :=
  match d with
  | float16 | bfloat16 => float32
  | _ => d
  end.

Definition _promote_integer_dtype (d : DType) : DType :=
  if is_bool d then int_
  else if is_unsignedinteger d then
    (if (iinfo_bits d <? iinfo_bits uint)%Z then uint else d)
  else if is_integer d then
    (if (iinfo_bits d <? iinfo_bits int_)%Z then int_ else d)
  else d.

(** The default signed integer dtype a computation sees. *)
Definition default_int : DType := canonicalize_dtype int_.

(* ------------------------------------------------------------------------- *)
(** *** Scalars *)

(** An array element: a boolean, an integer (of a signed or unsigned integer
    dtype) or a value of an inexact dtype. *)
Inductive scalar : Type :=
| SBool (b : bool)
| SInt (z : Z)
| SFl (x : fl).

(** Two's-complement wrap-around of an integer dtype. *)
Definition wrap (d : DType) (z : Z) : Z :=
  if is_signedinteger d then
    ((z + 2 ^ (iinfo_bits d - 1)) mod 2 ^ iinfo_bits d - 2 ^ (iinfo_bits d - 1))%Z
  else if is_unsignedinteger d then (z mod 2 ^ iinfo_bits d)%Z
  else z.

(** The value belongs to the dtype. *)
Definition has_dtype (d : DType) (s : scalar) : bool :=
  match s with
  | SBool _ => is_bool d
  | SInt z => is_integer d && (iinfo_min d <=? z)%Z && (z <=? iinfo_max d)%Z
  | SFl x => is_inexact d && fvalid d x
  end.

Definition s_isnan (s : scalar) : bool :=
  match s with SFl x => fisnan x | _ => false end.

(** [x != 0], the truth value of an element. *)
Definition truthy (s : scalar) : bool :=
  match s with
  | SBool b => b
  | SInt z => negb (z =? 0)%Z
  | SFl x => fnonzero x
  end.

(** Elementwise [lax.convert_element_type] from dtype [d1] to dtype [d2]. *)
Definition cvt (d1 d2 : DType) (s : scalar) : scalar :=
  if is_bool d2 then SBool (truthy s)
  else if is_integer d2 then
    match s with
    | SBool b => SInt (if b then 1 else 0)
    | SInt z => SInt (wrap d2 z)
    | SFl x => SInt (wrap d2 (f_to_Z x))
    end
  else
    match s with
    | SBool b => SFl (f_of_Z d2 (if b then 1 else 0))
    | SInt z => SFl (f_of_Z d2 z)
    | SFl x => SFl (fcvt d1 d2 x)
    end.

(** The conversion of an element between the dtypes of two arrays: nothing
    is done when the dtype does not change. *)
Definition convert_item (d1 d2 : DType) (s : scalar) : scalar :=
  if dtype_eqb d1 d2 then s else cvt d1 d2 s.

(** [np.array(v, dtype=d)] for a Python constant; [None] is the
    [OverflowError] of an infinity or NaN asked in an integer dtype. *)
Definition np_array (d : DType) (v : pyval) : option scalar :=
  if is_bool d then
    Some (SBool (match v with
                 | PyBool b => b
                 | PyInt z => negb (z =? 0)%Z
                 | _ => true
                 end))
  else if is_integer d then
    match v with
    | PyBool b => Some (SInt (if b then 1 else 0))
    | PyInt z => Some (SInt (wrap d z))
    | PyHalf => Some (SInt 0)
    | PyInf _ | PyNaN => None
    end
  else
    Some (SFl (match v with
               | PyBool b => f_of_Z d (if b then 1 else 0)
               | PyInt z => f_of_Z d z
               | PyInf neg => finf neg
               | PyNaN => fnan
               | PyHalf => fhalf d
               end)).

(** [lax_internal._const(example, v)]: the constant [v] in the dtype of the
    example. *)
Definition const (d : DType) (v : pyval) : scalar :=
  match np_array d v with
  | Some s => s
  | None => SInt 0
  end.

(** The elementwise binary operations of the runtime, at the dtype of their
    operands. *)
Definition ReductionOp : Type := DType -> scalar -> scalar -> scalar.

Definition lax_add : ReductionOp := fun d x y =>
  match x, y with
  | SBool a, SBool b => SBool (a || b)
  | SInt a, SInt b => SInt (wrap d (a + b))
  | SFl a, SFl b => SFl (fadd d a b)
  | _, _ => x
  end.

Definition lax_sub : ReductionOp := fun d x y =>
  match x, y with
  | SInt a, SInt b => SInt (wrap d (a - b))
  | SFl a, SFl b => SFl (fsub d a b)
  | _, _ => x
  end.

Definition lax_mul : ReductionOp := fun d x y =>
  match x, y with
  | SBool a, SBool b => SBool (a && b)
  | SInt a, SInt b => SInt (wrap d (a * b))
  | SFl a, SFl b => SFl (fmul d a b)
  | _, _ => x
  end.

(** Integer division truncates; the quotient by zero is whatever the
    backend leaves there, here -1. *)
Definition lax_div : ReductionOp := fun d x y =>
  match x, y with
  | SInt a, SInt b => SInt (if (b =? 0)%Z then wrap d (-1) else wrap d (Z.quot a b))
  | SFl a, SFl b => SFl (fdiv d a b)
  | _, _ => x
  end.

Definition lax_max : ReductionOp := fun d x y =>
  match x, y with
  | SBool a, SBool b => SBool (a || b)
  | SInt a, SInt b => SInt (Z.max a b)
  | SFl a, SFl b => SFl (fmax d a b)
  | _, _ => x
  end.

Definition lax_min : ReductionOp := fun d x y =>
  match x, y with
  | SBool a, SBool b => SBool (a && b)
  | SInt a, SInt b => SInt (Z.min a b)
  | SFl a, SFl b => SFl (fmin d a b)
  | _, _ => x
  end.

Definition lax_bitwise_or : ReductionOp := fun d x y =>
  match x, y with
  | SBool a, SBool b => SBool (a || b)
  | SInt a, SInt b => SInt (wrap d (Z.lor a b))
  | _, _ => x
  end.

Definition lax_bitwise_and : ReductionOp := fun d x y =>
  match x, y with
  | SBool a, SBool b => SBool (a && b)
  | SInt a, SInt b => SInt (wrap d (Z.land a b))
  | _, _ => x
  end.

(** [lax.le], [lax.gt]: comparisons, false on mismatched operands. *)
Definition s_le (x y : scalar) : bool :=
  match x, y with
  | SBool a, SBool b => implb a b
  | SInt a, SInt b => (a <=? b)%Z
  | SFl a, SFl b => fle a b
  | _, _ => false
  end.

Definition s_gt (x y : scalar) : bool :=
  match x, y with
  | SBool a, SBool b => a && negb b
  | SInt a, SInt b => (b <? a)%Z
  | SFl a, SFl b => flt b a
  | _, _ => false
  end.

Definition s_floor (s : scalar) : scalar :=
  match s with SFl x => SFl (ffloor x) | _ => s end.

Definition s_ceil (s : scalar) : scalar :=
  match s with SFl x => SFl (fceil x) | _ => s end.

Definition s_conj (s : scalar) : scalar :=
  match s with SFl x => SFl (fconj x) | _ => s end.

Definition s_real (s : scalar) : scalar :=
  match s with SFl x => SFl (freal x) | _ => s end.

(** The integer an element denotes when it is used as an index. *)
Definition s_to_Z (s : scalar) : Z :=
  match s with
  | SBool b => if b then 1 else 0
  | SInt z => z
  | SFl x => f_to_Z x
  end.

(* ------------------------------------------------------------------------- *)
(** *** Arrays *)

(** An immutable, rectangular, typed array: its dtype, its shape and its
    elements by multi-index.  [py_scalar] marks an array-like that is a Python
    or NumPy scalar rather than an array object. *)
Record Array : Type := {
  dtype : DType;
  shape : list nat;
  item : list nat -> scalar;
  py_scalar : bool
}.

Definition ndim (a : Array) : nat := List.length (shape a).

Definition size (a : Array) : nat := fold_right Nat.mul 1 (shape a).

(** The multi-index is within the shape. *)
Definition in_bounds (sh idx : list nat) : Prop := Forall2 lt idx sh.

(** Equality of arrays as values: one dtype, one shape, and the same element
    at every index of the shape. *)
Definition array_eq (a b : Array) : Prop :=
  dtype a = dtype b /\ shape a = shape b /\
  forall idx, in_bounds (shape a) idx -> item a idx = item b idx.

Definition result_eq (r1 r2 : result Array) : Prop :=
  match r1, r2 with
  | Ok a, Ok b => array_eq a b
  | Raise e1, Raise e2 => e1 = e2
  | _, _ => False
  end.

(** The 0-d array holding one element. *)
Definition scalar_array (d : DType) (s : scalar) : Array :=
  {| dtype := d; shape := []; item := fun _ => s; py_scalar := false |}.

(** [lax_internal.full(shape, v, dtype)] *)
Definition full (sh : list nat) (v : pyval) (d : DType) : Array :=
  {| dtype := d; shape := sh; item := fun _ => const d v; py_scalar := false |}.

(** All multi-indices of a shape, in row-major order. *)
Fixpoint indices (sizes : list nat) : list (list nat) :=
  match sizes with
  | [] => [[]]
  | n :: r => flat_map (fun i => map (cons i) (indices r)) (seq 0 n)
  end.

Definition mem_nat (k : nat) (l : list nat) : bool := existsb (Nat.eqb k) l.

(** For each of the [n] positions, whether it is one of [dims]. *)
Definition dim_flags (n : nat) (dims : list nat) : list bool :=
  map (fun k => mem_nat k dims) (seq 0 n).

(** The entries of [l] at the positions whose flag is [keep]. *)
Fixpoint select_dims (flags : list bool) (l : list nat) (keep : bool) : list nat :=
  match flags, l with
  | f :: fs, n :: r =>
      if Bool.eqb f keep then n :: select_dims fs r keep else select_dims fs r keep
  | _, _ => []
  end.

(** The full index whose flagged positions come from [ridx] and whose other
    positions come from [oidx]. *)
Fixpoint scatter (flags : list bool) (oidx ridx : list nat) : list nat :=
  match flags with
  | [] => []
  | true :: fs => hd 0 ridx :: scatter fs oidx (tl ridx)
  | false :: fs => hd 0 oidx :: scatter fs (tl oidx) ridx
  end.

(** [lax.reduce(a, init, op, dims)]: the reduced dimensions disappear, and
    each output element folds the operator over its slice, from [init]. *)
Definition lax_reduce (a : Array) (init : Array) (op : ReductionOp)
    (dims : list nat) : Array :=
  let flags := dim_flags (ndim a) dims in
  {| dtype := dtype a;
     shape := select_dims flags (shape a) false;
     item := fun oidx =>
       fold_left (fun acc ridx => op (dtype a) acc (item a (scatter flags oidx ridx)))
                 (indices (select_dims flags (shape a) true)) (item init []);
     py_scalar := false |}.

(** The shape with a dimension of size 1 at each flagged position. *)
Fixpoint expand_shape (flags : list bool) (sh : list nat) : list nat :=
  match flags with
  | [] => []
  | true :: fs => 1 :: expand_shape fs sh
  | false :: fs =>
      match sh with
      | n :: r => n :: expand_shape fs r
      | [] => []
      end
  end.

(** [lax.expand_dims(r, dims)]: [dims] are positions in the output. *)
Definition lax_expand_dims (r : Array) (dims : list nat) : Array :=
  let flags := dim_flags (ndim r + List.length dims) dims in
  {| dtype := dtype r;
     shape := expand_shape flags (shape r);
     item := fun idx => item r (select_dims flags idx false);
     py_scalar := false |}.

(** [lax.convert_element_type(a, d)]: the target dtype is canonicalized, and
    the elements are untouched when the dtype does not change. *)
Definition convert_element_type (a : Array) (d : DType) : Array :=
  let d' := canonicalize_dtype d in
  {| dtype := d';
     shape := shape a;
     item := fun idx => convert_item (dtype a) d' (item a idx);
     py_scalar := false |}.

Definition shape_eqb (s1 s2 : list nat) : bool :=
  if list_eq_dec Nat.eq_dec s1 s2 then true else false.

(** NumPy broadcasting of two shapes, on the reversed shapes. *)
Fixpoint broadcast_rev (s1 s2 : list nat) : option (list nat) :=
  match s1, s2 with
  | [], s | s, [] => Some s
  | a :: r1, b :: r2 =>
      match broadcast_rev r1 r2 with
      | None => None
      | Some r =>
          if a =? b then Some (a :: r)
          else if a =? 1 then Some (b :: r)
          else if b =? 1 then Some (a :: r)
          else None
      end
  end.

Definition broadcast_shapes (s1 s2 : list nat) : option (list nat) :=
  option_map (@rev nat) (broadcast_rev (rev s1) (rev s2)).

(** The index into an operand of shape [src] for the index [idx] of the
    broadcast result: leading positions are dropped, positions of size 1
    read element 0. *)
Definition bidx (src idx : list nat) : list nat :=
  map (fun di => if fst di =? 1 then 0 else snd di)
      (combine src (skipn (List.length idx - List.length src) idx)).

(** The element of [a] that the index [idx] of a result of shape [sh] reads;
    an operand that already has the shape of the result is read as it is. *)
Definition bread (a : Array) (sh idx : list nat) : scalar :=
  if shape_eqb (shape a) sh then item a idx else item a (bidx (shape a) idx).

(** An operand that is an array or a Python constant. *)
Inductive operand : Type :=
| OArr (a : Array)
| OPy (v : pyval).

Definition operand_shape (x : operand) : list nat :=
  match x with OArr a => shape a | OPy _ => [] end.

(** The dtype of a Python constant next to an array of dtype [d]. *)
Definition weak_result (d : DType) (v : pyval) : DType :=
  match v with
  | PyBool _ => d
  | PyInt _ => if is_bool d then default_int else d
  | PyInf _ | PyNaN | PyHalf =>
      if is_inexact d then d else canonicalize_dtype float_
  end.

Definition promote_operands (x y : operand) : DType :=
  match x, y with
  | OArr a, OArr b =>
      if dtype_eqb (dtype a) (dtype b) then dtype a
      else promote_types (dtype a) (dtype b)
  | OArr a, OPy v | OPy v, OArr a => weak_result (dtype a) v
  | OPy v, OPy w => weak_result (weak_result default_int v) w
  end.

Definition operand_item (dt : DType) (x : operand) (sh idx : list nat) : scalar :=
  match x with
  | OArr a => convert_item (dtype a) dt (bread a sh idx)
  | OPy v => const dt v
  end.

(** [util._where(condition, x, y)]: dtype promotion, broadcasting, select. *)
Definition _where (condition : Array) (x y : operand) : result Array :=
  let dt := canonicalize_dtype (promote_operands x y) in
  match broadcast_shapes (operand_shape x) (operand_shape y) with
  | None => Raise (ValueError "Incompatible shapes for broadcasting")
  | Some sxy =>
      match broadcast_shapes (shape condition) sxy with
      | None => Raise (ValueError "Incompatible shapes for broadcasting")
      | Some sh =>
          Ok {| dtype := dt;
                shape := sh;
                item := fun idx =>
                  if truthy (bread condition sh idx)
                  then operand_item dt x sh idx
                  else operand_item dt y sh idx;
                py_scalar := false |}
      end
  end.

(** [util._broadcast_to(a, sh)] *)
Definition _broadcast_to (a : Array) (sh : list nat) : result Array :=
  match broadcast_shapes (shape a) sh with
  | Some sh' =>
      if shape_eqb sh' sh then
        Ok {| dtype := dtype a; shape := sh;
              item := fun idx => bread a sh idx;
              py_scalar := false |}
      else Raise (ValueError "Incompatible shapes for broadcasting")
  | None => Raise (ValueError "Incompatible shapes for broadcasting")
  end.

(** The shape rule of the binary [lax] operations: a rank-0 operand goes with
    anything, operands of equal rank agree up to dimensions of size 1. *)
Definition lax_broadcast_shape (s1 s2 : list nat) : option (list nat) :=
  match s1, s2 with
  | [], s | s, [] => Some s
  | _, _ => if List.length s1 =? List.length s2 then broadcast_shapes s1 s2 else None
  end.

(** A binary [lax] operation on arrays; the operands have one dtype. *)
Definition lax_binop (op : ReductionOp) (x y : Array) : result Array :=
  if negb (dtype_eqb (dtype x) (dtype y)) then
    Raise (TypeError "lax binary operation requires arguments of the same dtype")
  else
    match lax_broadcast_shape (shape x) (shape y) with
    | None => Raise (TypeError "incompatible shapes for broadcasting")
    | Some sh =>
        Ok {| dtype := dtype x;
              shape := sh;
              item := fun idx => op (dtype x) (bread x sh idx) (bread y sh idx);
              py_scalar := false |}
    end.

(** An elementwise unary operation that keeps the dtype. *)
Definition lax_unop (f : scalar -> scalar) (x : Array) : Array :=
  {| dtype := dtype x; shape := shape x;
     item := fun idx => f (item x idx); py_scalar := false |}.

(** An elementwise predicate, as a boolean array. *)
Definition lax_pred (f : scalar -> bool) (x : Array) : Array :=
  {| dtype := bool_; shape := shape x;
     item := fun idx => SBool (f (item x idx)); py_scalar := false |}.

(** [lax_internal._isnan] *)
Definition _isnan (a : Array) : Array := lax_pred s_isnan a.

(** [lax_internal.bitwise_not] of a boolean array *)
Definition bitwise_not (a : Array) : Array :=
  lax_pred (fun s => negb (truthy s)) a.

(* ------------------------------------------------------------------------- *)
(** *** Axis specifications *)

Inductive axis_item : Type :=
| AxInt (i : Z)
| AxName (name : string).

(** [None], a single axis, or a tuple of axes. *)
Inductive Axis : Type :=
| AxisNone
| AxisOne (x : axis_item)
| AxisSeq (l : list axis_item).

(** A canonical reduction dimension: a position or a named axis. *)
Inductive dim : Type :=
| DPos (k : nat)
| DNamed (name : string).

Definition dim_eqb (x y : dim) : bool :=
  match x, y with
  | DPos a, DPos b => a =? b
  | DNamed a, DNamed b => String.eqb a b
  | _, _ => false
  end.

Definition string_of_nat (n : nat) : string := NilZero.string_of_uint (Nat.to_uint n).
Definition string_of_Z (z : Z) : string := NilZero.string_of_int (Z.to_int z).

(** The [repr] of a tuple of already printed items. *)
Definition show_tuple (items : list string) : string :=
  match items with
  | [] => "()"
  | [x] => "(" ++ x ++ ",)"
  | _ => "(" ++ String.concat ", " items ++ ")"
  end%string.

Definition show_shape (sh : list nat) : string := show_tuple (map string_of_nat sh).

Definition show_axis_item (x : axis_item) : string :=
  match x with
  | AxInt i => string_of_Z i
  | AxName s => "'" ++ s ++ "'"
  end%string.

(** [util.canonicalize_axis] *)
Definition _canonicalize_axis (axis : Z) (num_dims : nat) : result nat :=
  if ((- Z.of_nat num_dims <=? axis) && (axis <? Z.of_nat num_dims))%Z then
    Ok (Z.to_nat (if (axis <? 0)%Z then axis + Z.of_nat num_dims else axis)%Z)
  else
    Raise (ValueError ("axis " ++ string_of_Z axis ++ " is out of bounds for array of dimension "
                       ++ string_of_nat num_dims)%string).

Definition _canonicalize_axis_allow_named (x : axis_item) (rank : nat) : result dim :=
  match x with
  | AxInt i => k <- _canonicalize_axis i rank ;; Ok (DPos k)
  | AxName name => Ok (DNamed name)
  end.

(** [set(l)], as the list of the distinct dimensions. *)
Fixpoint nodup_dims (l : list dim) : list dim :=
  match l with
  | [] => []
  | x :: r => if existsb (dim_eqb x) r then nodup_dims r else x :: nodup_dims r
  end.

Fixpoint positional (l : list dim) : list nat :=
  match l with
  | [] => []
  | DPos k :: r => k :: positional r
  | DNamed _ :: r => positional r
  end.

(** The positional reduced dimensions and all reduced dimensions.  The two
    are one object exactly when no axis is named. *)
Definition _reduction_dims (a : Array) (axis : Axis) : result (list nat * list dim) :=
  match axis with
  | AxisNone => Ok (seq 0 (ndim a), map DPos (seq 0 (ndim a)))
  | AxisOne _ | AxisSeq _ =>
      let axis := match axis with AxisSeq l => l | AxisOne x => [x] | AxisNone => [] end in
      canon_axis <- mapM (fun x => _canonicalize_axis_allow_named x (ndim a)) axis ;;
      if negb (List.length canon_axis =? List.length (nodup_dims canon_axis)) then
        Raise (ValueError ("duplicate value in 'axis': "
                           ++ show_tuple (map show_axis_item axis))%string)
      else Ok (positional canon_axis, canon_axis)
  end.

(** [operator.index] on a string fails and the string is then iterated: a
    bare axis name becomes the tuple of its characters. *)
Definition _ensure_optional_axes (x : Axis) : Axis :=
  match x with
  | AxisNone => AxisNone
  | AxisOne (AxInt i) => AxisOne (AxInt i)
  | AxisOne (AxName s) =>
      AxisSeq (map (fun c => AxName (String c EmptyString)) (list_ascii_of_string s))
  | AxisSeq l => AxisSeq l
  end.

(** The identity handed to the backend, in the dtype of [a]. *)
Definition _reduction_init_val (a : Array) (init_val : pyval) : Array :=
  let a_dtype := canonicalize_dtype (dtype a) in
  scalar_array a_dtype
    (if dtype_eqb a_dtype bool_ then SBool (py_gt0 init_val)
     else if py_isinf init_val && is_floating a_dtype && negb (supports_inf a_dtype) then
       SFl (if py_isneginf init_val then finfo_min a_dtype else finfo_max a_dtype)
     else
       match np_array a_dtype init_val with
       | Some v => v
       | None =>
           SInt (if py_sign_neg init_val then iinfo_min a_dtype else iinfo_max a_dtype)
       end).

(** [lax_internal._const(a, v)] as a 0-d array. *)
Definition _lax_const (a : Array) (v : pyval) : Array :=
  scalar_array (canonicalize_dtype (dtype a)) (const (canonicalize_dtype (dtype a)) v).

Definition _cast_to_bool (operand : Array) : Array :=
  convert_element_type operand bool_.

(** [promote_dtypes_numeric]: booleans become default integers. *)
Definition _cast_to_numeric (operand : Array) : Array :=
  if is_bool (dtype operand) then convert_element_type operand int_ else operand.

(** The collectives over named axes and the sizes of the named axes are those
    of the surrounding mapped computation. *)
Class Collectives : Type := {
  lax_psum : Array -> list dim -> Array;
  lax_pmax : Array -> list dim -> Array;
  lax_pmin : Array -> list dim -> Array;
  axis_env_size : string -> nat
}.

Context {coll : Collectives}.

Definition is_some {A : Type} (o : option A) : bool :=
  match o with Some _ => true | None => false end.

Definition is_none {A : Type} (o : option A) : bool := negb (is_some o).

(** The generic reduction. *)
Definition _reduction (a : Array) (name : string) (op : ReductionOp) (init_val : pyval)
    (has_identity : bool) (preproc : option (Array -> Array))
    (bool_op : option ReductionOp) (upcast_f16_for_computation : bool)
    (axis : Axis) (dtype_ : option DType) (out : option Array) (keepdims : bool)
    (initial : option Array) (where_ : option Array)
    (parallel_reduce : option (Array -> list dim -> Array))
    (promote_integers : bool) : result Array :=
  let bool_op := match bool_op with Some b => b | None => op end in
  if is_some out then
    Raise (NotImplementedError
             ("The 'out' argument to jnp." ++ name ++ " is not supported.")%string)
  else if is_none initial && negb has_identity && is_some where_ then
    Raise (ValueError
             ("reduction operation " ++ name
              ++ " does not have an identity, so to use a where mask one has to specify 'initial'")%string)
  else
    let a := match preproc with Some f => f a | None => a end in
    ' (pos_dims, dims) <- _reduction_dims a axis ;;
    if is_none initial && negb has_identity
       && negb (forallb (fun d => 1 <=? nth d (shape a) 0) pos_dims) then
      Raise (ValueError
               ("zero-size array to reduction operation " ++ name
                ++ " which has no identity")%string)
    else
      let result_dtype := match dtype_ with Some d => d | None => dtype a end in
      let result_dtype :=
        if is_none dtype_ && promote_integers then _promote_integer_dtype result_dtype
        else result_dtype in
      let result_dtype := canonicalize_dtype result_dtype in
      let computation_dtype :=
        if upcast_f16_for_computation && is_inexact result_dtype
        then _upcast_f16 result_dtype else result_dtype in
      let a := convert_element_type a computation_dtype in
      let op := if negb (dtype_eqb computation_dtype bool_) then op else bool_op in
      let init_val := _reduction_init_val a init_val in
      a <- match where_ with
           | Some w => _where w (OArr a) (OArr init_val)
           | None => Ok a
           end ;;
      result <- (if negb (List.length pos_dims =? List.length dims) then
                   match parallel_reduce with
                   | None => Raise (NotImplementedError
                       ("Named reductions not implemented for jnp." ++ name ++ "()")%string)
                   | Some pr => Ok (pr a dims)
                   end
                 else Ok (lax_reduce a init_val op pos_dims)) ;;
      result <- match initial with
                | Some initial =>
                    let initial_arr := convert_element_type initial (dtype a) in
                    if negb (List.length (shape initial_arr) =? 0) then
                      Raise (ValueError
                               ("initial value must be a scalar. Got array of shape "
                                ++ show_shape (shape initial_arr))%string)
                    else lax_binop op initial_arr result
                | None => Ok result
                end ;;
      let result := if keepdims then lax_expand_dims result pos_dims else result in
      Ok (convert_element_type result
            (match dtype_ with Some d => d | None => result_dtype end)).

(* ------------------------------------------------------------------------- *)
(** *** The reductions instantiated from the core *)

Definition _reduce_sum (a : Array) (axis : Axis) (dtype_ : option DType)
    (out : option Array) (keepdims : bool) (initial where_ : option Array)
    (promote_integers : bool) : result Array :=
  _reduction a "sum" lax_add (PyInt 0) true (Some _cast_to_numeric)
    (Some lax_bitwise_or) true axis dtype_ out keepdims initial where_
    (Some lax_psum) promote_integers.

Definition sum (a : Array) (axis : Axis) (dtype_ : option DType)
    (out : option Array) (keepdims : bool) (initial where_ : option Array)
    (promote_integers : bool) : result Array :=
  _reduce_sum a (_ensure_optional_axes axis) dtype_ out keepdims initial where_
    promote_integers.

Definition _reduce_prod (a : Array) (axis : Axis) (dtype_ : option DType)
    (out : option Array) (keepdims : bool) (initial where_ : option Array)
    (promote_integers : bool) : result Array :=
  _reduction a "prod" lax_mul (PyInt 1) true (Some _cast_to_numeric)
    (Some lax_bitwise_and) true axis dtype_ out keepdims initial where_
    None promote_integers.

Definition prod (a : Array) (axis : Axis) (dtype_ : option DType)
    (out : option Array) (keepdims : bool) (initial where_ : option Array)
    (promote_integers : bool) : result Array :=
  _reduce_prod a (_ensure_optional_axes axis) dtype_ out keepdims initial where_
    promote_integers.

Definition _reduce_max (a : Array) (axis : Axis) (out : option Array)
    (keepdims : bool) (initial where_ : option Array) : result Array :=
  _reduction a "max" lax_max (PyInf true) false None None false
    axis None out keepdims initial where_ (Some lax_pmax) false.

Definition max (a : Array) (axis : Axis) (out : option Array)
    (keepdims : bool) (initial where_ : option Array) : result Array :=
  _reduce_max a (_ensure_optional_axes axis) out keepdims initial where_.

Definition _reduce_min (a : Array) (axis : Axis) (out : option Array)
    (keepdims : bool) (initial where_ : option Array) : result Array :=
  _reduction a "min" lax_min (PyInf false) false None None false
    axis None out keepdims initial where_ (Some lax_pmin) false.

Definition min (a : Array) (axis : Axis) (out : option Array)
    (keepdims : bool) (initial where_ : option Array) : result Array :=
  _reduce_min a (_ensure_optional_axes axis) out keepdims initial where_.

Definition _reduce_all (a : Array) (axis : Axis) (out : option Array)
    (keepdims : bool) (where_ : option Array) : result Array :=
  _reduction a "all" lax_bitwise_and (PyBool true) true (Some _cast_to_bool)
    None false axis None out keepdims None where_ None false.

Definition all (a : Array) (axis : Axis) (out : option Array)
    (keepdims : bool) (where_ : option Array) : result Array :=
  _reduce_all a (_ensure_optional_axes axis) out keepdims where_.

Definition _reduce_any (a : Array) (axis : Axis) (out : option Array)
    (keepdims : bool) (where_ : option Array) : result Array :=
  _reduction a "any" lax_bitwise_or (PyBool false) true (Some _cast_to_bool)
    None false axis None out keepdims None where_ None false.

Definition any (a : Array) (axis : Axis) (out : option Array)
    (keepdims : bool) (where_ : option Array) : result Array :=
  _reduce_any a (_ensure_optional_axes axis) out keepdims where_.

Definition amin := min.
Definition amax := max.

(* ------------------------------------------------------------------------- *)
(** *** The NaN-lifting combinator *)

(** A reduction as the combinator calls it: the array, the axis, and the
    keyword arguments [dtype], [out], [keepdims], [initial], [where]. *)
Definition Reduction : Type :=
  Array -> Axis -> option DType -> option Array -> bool ->
  option Array -> option Array -> result Array.

Definition _nan_reduction (a : Array) (name : string) (jnp_reduction : Reduction)
    (init_val : pyval) (nan_if_all_nan : bool) (axis : Axis) (keepdims : bool)
    (dtype_ : option DType) (out initial where_ : option Array) : result Array :=
  if negb (is_inexact (dtype a)) then
    jnp_reduction a axis dtype_ out keepdims initial where_
  else
    a' <- _where (_isnan a) (OArr (_reduction_init_val a init_val)) (OArr a) ;;
    out_ <- jnp_reduction a' axis dtype_ out keepdims initial where_ ;;
    if nan_if_all_nan then
      all_nan <- all (_isnan a) axis None keepdims None ;;
      _where all_nan (OArr (_lax_const a PyNaN)) (OArr out_)
    else Ok out_.

Definition nanmin (a : Array) (axis : Axis) (out : option Array)
    (keepdims : bool) (initial where_ : option Array) : result Array :=
  _nan_reduction a "nanmin"
    (fun a axis _ out keepdims initial where_ => min a axis out keepdims initial where_)
    (PyInf false) (is_none initial) axis keepdims None out initial where_.

Definition nanmax (a : Array) (axis : Axis) (out : option Array)
    (keepdims : bool) (initial where_ : option Array) : result Array :=
  _nan_reduction a "nanmax"
    (fun a axis _ out keepdims initial where_ => max a axis out keepdims initial where_)
    (PyInf true) (is_none initial) axis keepdims None out initial where_.

Definition nansum (a : Array) (axis : Axis) (dtype_ : option DType)
    (out : option Array) (keepdims : bool) (initial where_ : option Array)
    : result Array :=
  _nan_reduction a "nansum"
    (fun a axis dtype_ out keepdims initial where_ =>
       sum a axis dtype_ out keepdims initial where_ true)
    (PyInt 0) false axis keepdims dtype_ out initial where_.

Definition nanprod (a : Array) (axis : Axis) (dtype_ : option DType)
    (out : option Array) (keepdims : bool) (initial where_ : option Array)
    : result Array :=
  _nan_reduction a "nanprod"
    (fun a axis dtype_ out keepdims initial where_ =>
       prod a axis dtype_ out keepdims initial where_ true)
    (PyInt 1) false axis keepdims dtype_ out initial where_.

(* ------------------------------------------------------------------------- *)
(** *** Derived statistics *)

(** A Python number given where an array-like is expected. *)
Inductive pynum : Type :=
| PInt (z : Z)
| PFloat (x : fl).

(** The weakly typed 0-d array of a Python number. *)
Definition pynum_array (v : pynum) : Array :=
  match v with
  | PInt z => {| dtype := default_int; shape := []; item := fun _ => SInt z;
                 py_scalar := true |}
  | PFloat x => {| dtype := canonicalize_dtype float_; shape := [];
                   item := fun _ => SFl x; py_scalar := true |}
  end.

(** [a_shape[i]] for a Python index, negative indices counting from the end. *)
Definition tuple_index (sh : list nat) (i : Z) : result nat :=
  let n := Z.of_nat (List.length sh) in
  if ((- n <=? i) && (i <? n))%Z then
    Ok (nth (Z.to_nat (if (i <? 0)%Z then i + n else i)%Z) sh 0)
  else Raise (IndexError "tuple index out of range").

Fixpoint _axis_size_loop (a_shape : list nat) (axis_seq : list axis_item) (size : nat)
    : result nat :=
  match axis_seq with
  | [] => Ok size
  | x :: r =>
      n <- match x with
           | AxInt i => tuple_index a_shape i
           | AxName name => Ok (axis_env_size name)
           end ;;
      _axis_size_loop a_shape r (size * n)
  end.

Definition _axis_size (a : Array) (axis : Axis) : result nat :=
  let axis_seq := match axis with
                  | AxisSeq l => l
                  | AxisOne x => [x]
                  | AxisNone => []
                  end in
  _axis_size_loop (shape a) axis_seq 1.

(** [jnp.ndarray.astype] *)
Definition astype (a : Array) (d : DType) : Array := convert_element_type a d.

Definition _mean (a : Array) (axis : Axis) (dtype_ : option DType)
    (out : option Array) (keepdims : bool) (upcast_f16_for_computation : bool)
    (where_ : option Array) : result Array :=
  if is_some out then
    Raise (NotImplementedError "The 'out' argument to jnp.mean is not supported.")
  else
    let result_dtype :=
      match dtype_ with
      | None => to_inexact_dtype (canonicalize_dtype (dtype a))
      | Some d => canonicalize_dtype d
      end in
    let computation_dtype :=
      if upcast_f16_for_computation && is_inexact result_dtype
      then _upcast_f16 result_dtype else result_dtype in
    normalizer <-
      match where_ with
      | None =>
          match axis with
          | AxisNone => Ok (pynum_array (PInt (Z.of_nat (size a))))
          | _ => n <- _axis_size a axis ;; Ok (pynum_array (PInt (Z.of_nat n)))
          end
      | Some w =>
          bw <- _broadcast_to w (shape a) ;;
          sum bw axis dtype_ None keepdims None None true
      end ;;
    s <- sum a axis (Some computation_dtype) None keepdims None where_ true ;;
    q <- lax_binop lax_div s (convert_element_type normalizer computation_dtype) ;;
    Ok (astype q result_dtype).

Definition mean (a : Array) (axis : Axis) (dtype_ : option DType)
    (out : option Array) (keepdims : bool) (where_ : option Array) : result Array :=
  _mean a (_ensure_optional_axes axis) dtype_ out keepdims true where_.

Definition _var_promote_types (a_dtype : DType) (dtype_ : option DType)
    : result (DType * DType) :=
  match dtype_ with
  | Some d =>
      if negb (is_complexfloating d) && is_complexfloating a_dtype then
        Raise (ValueError
          ("jax.numpy.var does not yet support real dtype parameters when "
           ++ "computing the variance of an array of complex values. The "
           ++ "semantics of numpy.var seem unclear in this case. Please comment "
           ++ "on https://github.com/google/jax/issues/2283 if this behavior is "
           ++ "important to you.")%string)
      else Ok (_upcast_f16 d, d)
  | None =>
      if negb (is_inexact a_dtype) then
        Ok (_upcast_f16 (to_inexact_dtype a_dtype), to_inexact_dtype a_dtype)
      else Ok (_upcast_f16 a_dtype, _complex_elem_type a_dtype)
  end.

(** [lax.square] *)
Definition lax_square (x : Array) : Array :=
  lax_unop (fun s => lax_mul (dtype x) s s) x.

(** [lax.real(lax.mul(x, lax.conj(x)))]: the squared magnitude, in the real
    counterpart of the dtype. *)
Definition lax_abs2 (x : Array) : Array :=
  {| dtype := _complex_elem_type (dtype x);
     shape := shape x;
     item := fun idx => s_real (lax_mul (dtype x) (item x idx) (s_conj (item x idx)));
     py_scalar := false |}.

(** [x > 0] *)
Definition gt_zero (x : Array) : Array :=
  lax_pred (fun s => s_gt s (const (dtype x) (PyInt 0))) x.

(** [_var] up to its last line: the sum of the squared centered values, the
    normalizer and the output dtype. *)
Definition _var_terms (a : Array) (axis : Axis) (dtype_ : option DType)
    (out : option Array) (correction : pynum) (keepdims : bool)
    (where_ : option Array) : result (Array * Array * DType) :=
  if is_some out then
    Raise (NotImplementedError "The 'out' argument to jnp.var is not supported.")
  else
    ' (computation_dtype, dtype_) <- _var_promote_types (dtype a) dtype_ ;;
    let a := astype a computation_dtype in
    a_mean <- mean a axis (Some computation_dtype) None true where_ ;;
    centered <- lax_binop lax_sub a a_mean ;;
    let centered :=
      if is_complexfloating computation_dtype then lax_abs2 centered
      else lax_square centered in
    let computation_dtype :=
      if is_complexfloating computation_dtype then dtype centered
      else computation_dtype in
    normalizer <-
      match where_ with
      | None =>
          n <- match axis with
               | AxisNone => Ok (size a)
               | _ => _axis_size a axis
               end ;;
          Ok (convert_element_type (pynum_array (PInt (Z.of_nat n))) computation_dtype)
      | Some w =>
          bw <- _broadcast_to w (shape a) ;;
          sum bw axis (Some computation_dtype) None keepdims None None true
      end ;;
    normalizer <- lax_binop lax_sub normalizer
                    (convert_element_type (pynum_array correction) computation_dtype) ;;
    result <- sum centered axis (Some computation_dtype) None keepdims None where_ true ;;
    Ok (result, normalizer, dtype_).

Definition _var (a : Array) (axis : Axis) (dtype_ : option DType)
    (out : option Array) (correction : pynum) (keepdims : bool)
    (where_ : option Array) : result Array :=
  ' (result, normalizer, dtype_) <-
      _var_terms a axis dtype_ out correction keepdims where_ ;;
  q <- lax_binop lax_div result normalizer ;;
  _where (gt_zero normalizer) (OArr (astype q dtype_)) (OPy PyNaN).

Definition var (a : Array) (axis : Axis) (dtype_ : option DType)
    (out : option Array) (ddof : pynum) (keepdims : bool)
    (where_ : option Array) (correction : option pynum) : result Array :=
  match correction with
  | None => _var a (_ensure_optional_axes axis) dtype_ out ddof keepdims where_
  | Some c =>
      match ddof with
      | PInt 0 => _var a (_ensure_optional_axes axis) dtype_ out c keepdims where_
      | _ => Raise (ValueError "ddof and correction can't be provided simultaneously.")
      end
  end.

Definition nanmean (a : Array) (axis : Axis) (dtype_ : option DType)
    (out : option Array) (keepdims : bool) (where_ : option Array) : result Array :=
  if is_some out then
    Raise (NotImplementedError "The 'out' argument to jnp.nanmean is not supported.")
  else if is_bool (dtype a) || is_integer (dtype a) then
    mean a axis dtype_ out keepdims where_
  else
    let dtype_ :=
      match dtype_ with
      | None => to_inexact_dtype (canonicalize_dtype (dtype a))
      | Some d => canonicalize_dtype d
      end in
    let nan_mask := bitwise_not (_isnan a) in
    normalizer <- sum nan_mask axis (Some dtype_) None keepdims None where_ true ;;
    s <- nansum a axis (Some dtype_) None keepdims None where_ ;;
    lax_binop lax_div s normalizer.

(** [x - ddof] for a Python integer [ddof]. *)
Definition sub_int (x : Array) (ddof : Z) : Array :=
  lax_unop (fun s => lax_sub (dtype x) s (const (dtype x) (PyInt ddof))) x.

(** [lax.le(x, _zero(x))] *)
Definition le_zero (x : Array) : Array :=
  lax_pred (fun s => s_le s (const (dtype x) (PyInt 0))) x.

(** [nanvar] up to the guarded division: the sum of the squared centered
    values, the normalizer and the output dtype. *)
Definition nanvar_terms (a : Array) (axis : Axis) (dtype_ : option DType)
    (out : option Array) (ddof : Z) (keepdims : bool)
    (where_ : option Array) : result (Array * Array * DType) :=
  if is_some out then
    Raise (NotImplementedError "The 'out' argument to jnp.nanvar is not supported.")
  else
    ' (computation_dtype, dtype_) <- _var_promote_types (dtype a) dtype_ ;;
    let a := astype a computation_dtype in
    a_mean <- nanmean a axis (Some computation_dtype) None true where_ ;;
    diff <- lax_binop lax_sub a a_mean ;;
    centered <- _where (_isnan a) (OPy (PyInt 0)) (OArr diff) ;;
    let centered :=
      if is_complexfloating (dtype centered) then lax_abs2 centered
      else lax_square centered in
    normalizer <- sum (bitwise_not (_isnan a)) axis None None keepdims None where_ true ;;
    let normalizer := sub_int normalizer ddof in
    result <- sum centered axis None None keepdims None where_ true ;;
    Ok (result, normalizer, dtype_).

Definition nanvar (a : Array) (axis : Axis) (dtype_ : option DType)
    (out : option Array) (ddof : Z) (keepdims : bool)
    (where_ : option Array) : result Array :=
  ' (result, normalizer, dtype_) <- nanvar_terms a axis dtype_ out ddof keepdims where_ ;;
  let normalizer_mask := le_zero normalizer in
  result <- _where normalizer_mask (OPy PyNaN) (OArr result) ;;
  divisor <- _where normalizer_mask (OPy (PyInt 1)) (OArr normalizer) ;;
  result <- lax_binop lax_div result (convert_element_type divisor (dtype result)) ;;
  Ok (convert_element_type result dtype_).

(* ------------------------------------------------------------------------- *)
(** *** Cumulative reductions *)

(** [idx] with its [k]-th entry replaced by [v]. *)
Definition set_nth (k v : nat) (idx : list nat) : list nat :=
  firstn k idx ++ v :: skipn (S k) idx.

(** [idx] with [v] inserted before its [k]-th entry. *)
Definition insert_nth (k v : nat) (idx : list nat) : list nat :=
  firstn k idx ++ v :: skipn k idx.

(** [idx] without its [k]-th entry. *)
Definition remove_nth (k : nat) (idx : list nat) : list nat :=
  firstn k idx ++ skipn (S k) idx.

(** The multi-index of the [i]-th element in row-major order, and back. *)
Fixpoint unravel (sh : list nat) (i : nat) : list nat :=
  match sh with
  | [] => []
  | _ :: r =>
      let m := fold_right Nat.mul 1 r in
      (i / m) :: unravel r (i mod m)
  end.

Definition ravel_index (sh idx : list nat) : nat :=
  fold_left (fun acc ni => acc * fst ni + snd ni) (combine sh idx) 0.

(** [lax.reshape(a, (np.size(a),))] and [a.ravel()] *)
Definition ravel (a : Array) : Array :=
  {| dtype := dtype a;
     shape := [size a];
     item := fun idx => item a (unravel (shape a) (hd 0 idx));
     py_scalar := false |}.

(** [lax.cumsum], [lax.cumprod]: the running fold along [axis]. *)
Definition lax_cumulative (op : ReductionOp) (a : Array) (axis : nat) : Array :=
  {| dtype := dtype a;
     shape := shape a;
     item := fun idx =>
       fold_left (fun acc k => op (dtype a) acc (item a (set_nth axis k idx)))
                 (seq 1 (nth axis idx 0)) (item a (set_nth axis 0 idx));
     py_scalar := false |}.

Definition lax_cumsum := lax_cumulative lax_add.
Definition lax_cumprod := lax_cumulative lax_mul.

Definition _isscalar (element : Array) : bool := py_scalar element.

(** The first lines of a cumulative reduction: the flattening of the input
    and the canonical axis. *)
Definition cumulative_input (a : Array) (axis : Axis) : result (Array * nat) :=
  let a := match axis with
           | AxisNone => ravel a
           | _ => if _isscalar a then ravel a else a
           end in
  axis <- match axis with
          | AxisNone => _canonicalize_axis 0 (ndim a)
          | AxisOne (AxInt i) => _canonicalize_axis i (ndim a)
          | _ => Raise (TypeError "axis cannot be interpreted as an integer")
          end ;;
  Ok (a, axis).

(** The function [_make_cumulative_reduction] builds, with the parameters of
    the factory first. *)
Definition _make_cumulative_reduction (name : string)
    (reduction : Array -> nat -> Array) (fill_nan : bool) (fill_value : pyval)
    (promote_integers : bool)
    (a : Array) (axis : Axis) (dtype_ : option DType) (out : option Array)
    : result Array :=
  let axis := _ensure_optional_axes axis in
  if is_some out then
    Raise (NotImplementedError
             ("The 'out' argument to jnp." ++ name ++ " is not supported.")%string)
  else
    ' (a, axis) <- cumulative_input a axis ;;
    a <- (if fill_nan then _where (_isnan a) (OArr (_lax_const a fill_value)) (OArr a)
          else Ok a) ;;
    let result_type := match dtype_ with Some d => d | None => dtype a end in
    let result_type :=
      if is_none dtype_ && promote_integers || is_bool result_type
      then _promote_integer_dtype result_type else result_type in
    let result_type := canonicalize_dtype result_type in
    let a := convert_element_type a result_type in
    let result := reduction a axis in
    Ok (if match dtype_ with Some d => is_bool d | None => false end
        then convert_element_type result bool_ else result).

Definition cumsum := _make_cumulative_reduction "cumsum" lax_cumsum false (PyInt 0) false.
Definition cumprod := _make_cumulative_reduction "cumprod" lax_cumprod false (PyInt 0) false.
Definition nancumsum :=
  _make_cumulative_reduction "nancumsum" lax_cumsum true (PyInt 0) false.
Definition nancumprod :=
  _make_cumulative_reduction "nancumprod" lax_cumprod true (PyInt 1) false.
Definition _cumsum_with_promotion :=
  _make_cumulative_reduction "cumsum" lax_cumsum false (PyInt 0) true.

(** [lax_internal.asarray] *)
Definition asarray (x : Array) : Array := convert_element_type x (dtype x).

(** [lax_internal.concatenate([x, y], dimension)] *)
Definition concatenate (x y : Array) (dimension : nat) : result Array :=
  if dtype_eqb (dtype x) (dtype y)
     && (dimension <? ndim x)
     && shape_eqb (remove_nth dimension (shape x)) (remove_nth dimension (shape y))
     && (ndim x =? ndim y)
  then
    let nx := nth dimension (shape x) 0 in
    Ok {| dtype := dtype x;
          shape := set_nth dimension (nx + nth dimension (shape y) 0) (shape x);
          item := fun idx =>
            let i := nth dimension idx 0 in
            if i <? nx then item x idx else item y (set_nth dimension (i - nx) idx);
          py_scalar := false |}
  else Raise (TypeError "Cannot concatenate arrays with these shapes or dtypes.").

Definition cumulative_sum (x : Array) (axis : option Z) (dtype_ : option DType)
    (include_initial : bool) : result Array :=
  let x := asarray x in
  if ndim x =? 0 then
    Raise (ValueError
      ("The input must be non-scalar to take a cumulative sum, however a "
       ++ "scalar value or scalar array was given.")%string)
  else
    axis <- match axis with
            | None =>
                if 1 <? ndim x then
                  Raise (ValueError
                    ("The input array has rank " ++ string_of_nat (ndim x)
                     ++ ", however axis was not set to an "
                     ++ "explicit value. The axis argument is only optional for one-dimensional "
                     ++ "arrays.")%string)
                else Ok 0%Z
            | Some ax => Ok ax
            end ;;
    axis <- _canonicalize_axis axis (ndim x) ;;
    out <- _cumsum_with_promotion x (AxisOne (AxInt (Z.of_nat axis))) dtype_ None ;;
    if include_initial then
      concatenate (full (set_nth axis 1 (shape x)) (PyInt 0) (dtype out)) out axis
    else Ok out.

(* ------------------------------------------------------------------------- *)
(** *** Order statistics *)

Definition s_sort_le (x y : scalar) : bool :=
  match x, y with
  | SFl a, SFl b => fsort_le a b
  | _, _ => s_le x y
  end.

Fixpoint sort_insert (x : scalar) (l : list scalar) : list scalar :=
  match l with
  | [] => [x]
  | y :: r => if s_sort_le x y then x :: l else y :: sort_insert x r
  end.

Definition sort_list (l : list scalar) : list scalar :=
  fold_right sort_insert [] l.

(** [lax.sort(a, dimension=axis)]: each slice along [axis], ascending. *)
Definition lax_sort (a : Array) (axis : nat) : Array :=
  {| dtype := dtype a;
     shape := shape a;
     item := fun idx =>
       nth (nth axis idx 0)
           (sort_list (map (fun k => item a (set_nth axis k idx))
                           (seq 0 (nth axis (shape a) 0))))
           (item a idx);
     py_scalar := false |}.

(** The position of [j] in [perm]. *)
Fixpoint find_index (j : nat) (perm : list nat) (k : nat) : nat :=
  match perm with
  | [] => k
  | x :: r => if x =? j then k else find_index j r (S k)
  end.

Definition index_of (j : nat) (perm : list nat) : nat := find_index j perm 0.

(** [lax.transpose(a, perm)] *)
Definition lax_transpose (a : Array) (perm : list nat) : Array :=
  {| dtype := dtype a;
     shape := map (fun j => nth j (shape a) 0) perm;
     item := fun idx =>
       item a (map (fun j => nth (index_of j perm) idx 0) (seq 0 (ndim a)));
     py_scalar := false |}.

(** [lax.reshape(a, new_sizes, dimensions)]: transpose, then reshape. *)
Definition lax_reshape (a : Array) (new_sizes : list nat) (dimensions : option (list nat))
    : result Array :=
  let a := match dimensions with Some perm => lax_transpose a perm | None => a end in
  if fold_right Nat.mul 1 new_sizes =? size a then
    Ok {| dtype := dtype a;
          shape := new_sizes;
          item := fun idx => item a (unravel (shape a) (ravel_index new_sizes idx));
          py_scalar := false |}
  else Raise (TypeError "cannot reshape array to a shape of a different size").

Definition swap_nth (l : list nat) (i j : nat) : list nat :=
  set_nth j (nth i l 0) (set_nth i (nth j l 0) l).

(** The loop that swaps the kept axes to the front. *)
Fixpoint prepare_permutation (dimensions : list nat) (i : nat) (keep : list nat)
    : list nat :=
  match keep with
  | [] => dimensions
  | s :: r => prepare_permutation (swap_nth dimensions i s) (S i) r
  end.

Definition axis_int (x : axis_item) : result Z :=
  match x with
  | AxInt i => Ok i
  | AxName _ => Raise (TypeError "axis cannot be interpreted as an integer")
  end.

Fixpoint has_dup_nat (l : list nat) : bool :=
  match l with
  | [] => false
  | x :: r => mem_nat x r || has_dup_nat r
  end.

(** [promote_dtypes_inexact] of one array *)
Definition promote_dtypes_inexact (a : Array) : Array :=
  convert_element_type a (to_inexact_dtype (canonicalize_dtype (dtype a))).

(** The axis normalization of [_quantile]: the array with one reduced axis,
    that axis and the [keepdim] shape. *)
Definition quantile_axis (a : Array) (axis : Axis) (keepdims : bool)
    : result (Array * nat * list nat) :=
  match axis with
  | AxisNone =>
      Ok (ravel a, 0, if keepdims then repeat 1 (ndim a) else [])
  | AxisSeq l =>
      let nd := ndim a in
      axis <- mapM (fun x => i <- axis_int x ;; _canonicalize_axis i nd) l ;;
      if has_dup_nat axis then Raise (ValueError "repeated axis")
      else
        let keepdim := fold_left (fun kd ax => set_nth ax 1 kd) axis (shape a) in
        let keep := filter (fun k => negb (mem_nat k axis)) (seq 0 nd) in
        let dimensions := prepare_permutation (seq 0 nd) 0 keep in
        let do_not_touch_shape := select_dims (dim_flags nd axis) (shape a) false in
        let touch_shape := select_dims (dim_flags nd axis) (shape a) true in
        a <- lax_reshape a (do_not_touch_shape ++ [fold_right Nat.mul 1 touch_shape])
               (Some dimensions) ;;
        ax <- _canonicalize_axis (-1) (ndim a) ;;
        Ok (a, ax, keepdim)
  | AxisOne x =>
      i <- axis_int x ;;
      ax <- _canonicalize_axis i (ndim a) ;;
      Ok (a, ax, [])
  end.

(** [lax.clamp(lo, x, hi)] on elements *)
Definition s_clamp (d : DType) (lo x hi : scalar) : scalar :=
  lax_min d (lax_max d x lo) hi.

(** An in-bounds position along an axis of size [n] from an index element. *)
Definition gather_index (n : nat) (s : scalar) : nat :=
  Z.to_nat (Z.max 0 (Z.min (s_to_Z s) (Z.of_nat n - 1))).

(** The order statistics picked by an index array [ix] whose leading
    [q_ndim] positions are those of [q]: the gather along [axis]. *)
Definition take_order_statistic (a : Array) (axis : nat) (keepdims : bool)
    (q_ndim : nat) (out_shape : list nat) (ix : Array) (ix_full : bool) : Array :=
  {| dtype := dtype a;
     shape := out_shape;
     item := fun idx =>
       let qi := firstn q_ndim idx in
       let rest := skipn q_ndim idx in
       let k := gather_index (nth axis (shape a) 0)
                  (item ix (if ix_full then idx else qi)) in
       item a (if keepdims then set_nth axis k rest else insert_nth axis k rest);
     py_scalar := false |}.

(** [lax.broadcast_in_dim(w, sh, broadcast_dimensions=(0,))] of a rank-1 [w] *)
Definition broadcast_leading (w : Array) (sh : list nat) : Array :=
  {| dtype := dtype w; shape := sh;
     item := fun idx => item w [hd 0 idx]; py_scalar := false |}.

Record quantile_parts : Type := {
  qp_array : Array;          (* the promoted, sorted input *)
  qp_q : Array;              (* the fractional indices *)
  low_value : Array;
  high_value : Array;
  low_weight : Array;
  high_weight : Array
}.

(** Both paths of [_quantile] up to the choice of the method. *)
Definition quantile_order_statistics (a : Array) (q : Array) (axis : nat)
    (keepdims squash_nans : bool) : result quantile_parts :=
  let q_shape := shape q in
  let q_ndim := ndim q in
  if 1 <? q_ndim then
    Raise (ValueError ("q must be have rank <= 1, got shape " ++ show_shape q_shape)%string)
  else
    let a_shape := shape a in
    if squash_nans then
      a <- _where (_isnan a) (OPy PyNaN) (OArr a) ;;
      let a := lax_sort a axis in
      counts <- sum (bitwise_not (_isnan a)) (AxisOne (AxInt (Z.of_nat axis)))
                  (Some (dtype q)) None keepdims None None true ;;
      let shape_after_reduction := shape counts in
      let q := lax_expand_dims q (seq q_ndim (List.length shape_after_reduction)) in
      let counts := lax_expand_dims counts (seq 0 q_ndim) in
      q <- lax_binop lax_mul q (sub_int counts 1) ;;
      let low := lax_unop s_floor q in
      let high := lax_unop s_ceil q in
      high_weight <- lax_binop lax_sub q low ;;
      low_weight <- lax_binop lax_sub (_lax_const high_weight (PyInt 1)) high_weight ;;
      low <- (m <- lax_binop lax_min low (sub_int counts 1) ;;
              lax_binop lax_max (_lax_const low (PyInt 0)) m) ;;
      high <- (m <- lax_binop lax_min high (sub_int counts 1) ;;
               lax_binop lax_max (_lax_const high (PyInt 0)) m) ;;
      let low := convert_element_type low int_ in
      let high := convert_element_type high int_ in
      let out_shape := q_shape ++ shape_after_reduction in
      Ok {| qp_array := a; qp_q := q;
            low_value := take_order_statistic a axis keepdims q_ndim out_shape low true;
            high_value := take_order_statistic a axis keepdims q_ndim out_shape high true;
            low_weight := low_weight;
            high_weight := high_weight |}
    else
      has_nan <- any (_isnan a) (AxisOne (AxInt (Z.of_nat axis))) None true None ;;
      a <- _where has_nan (OPy PyNaN) (OArr a) ;;
      let a := lax_sort a axis in
      let n := convert_element_type
                 (pynum_array (PInt (Z.of_nat (nth axis a_shape 0)))) (dtype q) in
      q <- lax_binop lax_mul q (sub_int n 1) ;;
      let low := lax_unop s_floor q in
      let high := lax_unop s_ceil q in
      high_weight <- lax_binop lax_sub q low ;;
      low_weight <- lax_binop lax_sub (_lax_const high_weight (PyInt 1)) high_weight ;;
      let clamp x :=
        lax_unop (fun s => s_clamp (dtype x) (const (dtype x) (PyInt 0)) s
                             (item (sub_int n 1) [])) x in
      let low := convert_element_type (clamp low) int_ in
      let high := convert_element_type (clamp high) int_ in
      let out_shape :=
        q_shape ++ (if keepdims then set_nth axis 1 a_shape else remove_nth axis a_shape) in
      let low_value := take_order_statistic a axis keepdims q_ndim out_shape low false in
      let high_value := take_order_statistic a axis keepdims q_ndim out_shape high false in
      Ok {| qp_array := a; qp_q := q;
            low_value := low_value;
            high_value := high_value;
            low_weight := if q_ndim =? 1 then broadcast_leading low_weight (shape low_value)
                          else low_weight;
            high_weight := if q_ndim =? 1 then broadcast_leading high_weight (shape high_value)
                           else high_weight |}.

(** [lax.select(pred, x, y)]: the predicate is a scalar or has the shape of
    the operands. *)
Definition lax_select (pred x y : Array) : result Array :=
  if shape_eqb (shape x) (shape y) && dtype_eqb (dtype x) (dtype y)
     && ((ndim pred =? 0) || shape_eqb (shape pred) (shape x))
  then
    Ok {| dtype := dtype x; shape := shape x;
          item := fun idx =>
            if truthy (item pred (if ndim pred =? 0 then [] else idx))
            then item x idx else item y idx;
          py_scalar := false |}
  else Raise (TypeError "select operands must have the same shape and dtype").

(** [lax.le(w, _lax_const(w, 0.5))] *)
Definition le_half (w : Array) : Array :=
  lax_pred (fun s => s_le s (const (canonicalize_dtype (dtype w)) PyHalf)) w.

Definition method_known (method : string) : bool :=
  existsb (String.eqb method) ["linear"; "lower"; "higher"; "midpoint"; "nearest"]%string.

(** The combination of the two order statistics by [method]. *)
Definition quantile_combine (method : string) (p : quantile_parts) : result Array :=
  if String.eqb method "linear" then
    l <- lax_binop lax_mul (astype (low_value p) (dtype (qp_q p))) (low_weight p) ;;
    h <- lax_binop lax_mul (astype (high_value p) (dtype (qp_q p))) (high_weight p) ;;
    lax_binop lax_add l h
  else if String.eqb method "lower" then Ok (low_value p)
  else if String.eqb method "higher" then Ok (high_value p)
  else if String.eqb method "nearest" then
    lax_select (le_half (high_weight p)) (low_value p) (high_value p)
  else if String.eqb method "midpoint" then
    s <- lax_binop lax_add (low_value p) (high_value p) ;;
    lax_binop lax_mul s (_lax_const (low_value p) PyHalf)
  else Raise (ValueError ("method='" ++ method ++ "' not recognized")%string).

Definition _quantile (a q : Array) (axis : Axis) (method : string)
    (keepdims squash_nans : bool) : result Array :=
  if negb (method_known method) then
    Raise (ValueError
      "method can only be 'linear', 'lower', 'higher', 'midpoint', or 'nearest'")
  else
    let a := promote_dtypes_inexact a in
    if is_complexfloating (dtype a) then
      Raise (ValueError
        "quantile does not support complex input, as the operation is poorly defined.")
    else
      ' (a, axis, keepdim) <- quantile_axis a axis keepdims ;;
      p <- quantile_order_statistics a q axis keepdims squash_nans ;;
      result <- quantile_combine method p ;;
      result <- (if keepdims && negb (List.length keepdim =? 0) then
                   lax_reshape result
                     (if 0 <? ndim q then hd 0 (shape (qp_q p)) :: keepdim else keepdim)
                     None
                 else Ok result) ;;
      Ok (convert_element_type result (dtype (qp_array p))).

Definition quantile (a q : Array) (axis : Axis) (out : option Array)
    (overwrite_input : bool) (method : string) (keepdims : bool)
    (interpolation : option string) : result Array :=
  if overwrite_input || is_some out then
    Raise (ValueError
      "jax.numpy.quantile does not support overwrite_input=True or out != None")
  else
    let method := match interpolation with Some m => m | None => method end in
    _quantile (asarray a) (asarray q) axis method keepdims false.

Definition nanquantile (a q : Array) (axis : Axis) (out : option Array)
    (overwrite_input : bool) (method : string) (keepdims : bool)
    (interpolation : option string) : result Array :=
  if overwrite_input || is_some out then
    Raise (ValueError
      "jax.numpy.nanquantile does not support overwrite_input=True or out != None")
  else
    let method := match interpolation with Some m => m | None => method end in
    _quantile (asarray a) (asarray q) axis method keepdims true.

(** [q / 100] in the inexact dtype of [q] *)
Definition div_100 (q : Array) : Array :=
  let q := promote_dtypes_inexact q in
  lax_unop (fun s => lax_div (dtype q) s (const (dtype q) (PyInt 100))) q.

Definition percentile (a q : Array) (axis : Axis) (out : option Array)
    (overwrite_input : bool) (method : string) (keepdims : bool)
    (interpolation : option string) : result Array :=
  let method := match interpolation with Some m => m | None => method end in
  quantile a (div_100 q) axis out overwrite_input method keepdims None.

Definition nanpercentile (a q : Array) (axis : Axis) (out : option Array)
    (overwrite_input : bool) (method : string) (keepdims : bool)
    (interpolation : option string) : result Array :=
  let method := match interpolation with Some m => m | None => method end in
  nanquantile a (div_100 q) axis out overwrite_input method keepdims None.

(* ------------------------------------------------------------------------- *)
(** *** Array literals *)

Definition vector (d : DType) (l : list scalar) : Array :=
  {| dtype := d;
     shape := [List.length l];
     item := fun idx => nth (hd 0 idx) l (const d (PyInt 0));
     py_scalar := false |}.

Definition matrix (d : DType) (rows : list (list scalar)) : Array :=
  {| dtype := d;
     shape := [List.length rows; List.length (hd [] rows)];
     item := fun idx =>
       nth (hd 0 (tl idx)) (nth (hd 0 idx) rows []) (const d (PyInt 0));
     py_scalar := false |}.

(** The elements of an array in row-major order. *)
Definition to_list (a : Array) : list scalar := map (item a) (indices (shape a)).

(* ------------------------------------------------------------------------- *)
(** *** Vocabulary of the properties *)

(** The array is one the runtime can hold: its dtype is canonical and every
    element belongs to it. *)
Definition valid_array (a : Array) : Prop :=
  canonicalize_dtype (dtype a) = dtype a /\
  forall idx, has_dtype (dtype a) (item a idx) = true.

(** The elements of the slice of [a] that is reduced into the output index
    [oidx] when the dimensions [dims] are reduced. *)
Definition reduced_slice (a : Array) (dims : list nat) (oidx : list nat) : list scalar :=
  let flags := dim_flags (ndim a) dims in
  map (fun ridx => item a (scatter flags oidx ridx))
      (indices (select_dims flags (shape a) true)).

(** The shape with the reduced dimensions kept with size 1. *)
Fixpoint keepdims_shape (flags : list bool) (sh : list nat) : list nat :=
  match flags, sh with
  | f :: fs, n :: r => (if f then 1 else n) :: keepdims_shape fs r
  | _, _ => []
  end.

(** The shape of the result of reducing [dims] out of the shape [sh]. *)
Definition reduced_shape (keepdims : bool) (dims : list nat) (sh : list nat) : list nat :=
  let flags := dim_flags (List.length sh) dims in
  if keepdims then keepdims_shape flags sh else select_dims flags sh false.

(** The minimum and the maximum of a non-empty list, by the runtime's
    operator; [None] on the empty list. *)
Definition list_reduce (op : scalar -> scalar -> scalar) (l : list scalar) : option scalar :=
  match l with
  | [] => None
  | x :: r => Some (fold_left op r x)
  end.

(** What a cumulative reduction [f] with operator [op] does on a boolean
    input whose flattening and canonical axis are [a0] and [k]: without
    [dtype] it accumulates the input converted to the default integer dtype;
    with [dtype=bool] it casts that integer accumulation back to bool; and
    its output is boolean for no other [dtype]. *)
Definition accumulates_bool_in_int
    (f : Array -> Axis -> option DType -> option Array -> result Array)
    (op : ReductionOp) (a : Array) (axis : Axis) (a0 : Array) (k : nat) : Prop :=
  exists a1,
    array_eq a1 a0 /\
    f a axis None None
    = Ok (lax_cumulative op (convert_element_type a1 default_int) k) /\
    f a axis (Some bool_) None
    = Ok (convert_element_type
            (lax_cumulative op (convert_element_type a1 default_int) k) bool_) /\
    forall d r, f a axis (Some d) None = Ok r -> (dtype r = bool_ <-> d = bool_).

(** The result dtype and the computation dtype [_reduction] settles on, for
    the input [a1] after preprocessing. *)
Definition reduction_result_dtype (promote_integers : bool) (dtype_ : option DType)
    (a1 : Array) : DType :=
  canonicalize_dtype
    (if is_none dtype_ && promote_integers
     then _promote_integer_dtype (match dtype_ with Some d => d | None => dtype a1 end)
     else match dtype_ with Some d => d | None => dtype a1 end).

Definition reduction_computation_dtype (upcast_f16_for_computation : bool)
    (result_dtype : DType) : DType :=
  if upcast_f16_for_computation && is_inexact result_dtype
  then _upcast_f16 result_dtype else result_dtype.

(** The operator [_reduction] uses at a computation dtype. *)
Definition reduction_op (op : ReductionOp) (bool_op : option ReductionOp)
    (computation_dtype : DType) : ReductionOp :=
  if negb (dtype_eqb computation_dtype bool_) then op
  else match bool_op with Some b => b | None => op end.

(** The lowest and the highest value of a floating dtype. *)
Definition float_lowest (d : DType) : fl :=
  if supports_inf d then finf true else finfo_min d.

Definition float_highest (d : DType) : fl :=
  if supports_inf d then finf false else finfo_max d.

(** The axis specification names no mapped axis. *)
Definition axis_is_positional (axis : Axis) : bool :=
  match axis with
  | AxisNone => true
  | AxisOne (AxInt _) => true
  | AxisOne (AxName _) => false
  | AxisSeq l => forallb (fun x => match x with AxInt _ => true | AxName _ => false end) l
  end.

(** The index of the reduction result that the index [idx] of the final
    result reads: with [keepdims] the reduced positions are dropped. *)
Definition reduce_index (keepdims : bool) (n : nat) (dims : list nat) (idx : list nat)
    : list nat :=
  if keepdims then select_dims (dim_flags n dims) idx false else idx.

(** [jnp.where(m, a, 0)] *)
Definition where_zero (m a : Array) : result Array :=
  _where m (OArr a) (OPy (PyInt 0)).

(** What [run], a reduction called with the scalar [initial] value [ini],
    returns on positional axes: with [a1] the input after preprocessing, the
    backend reduces the (masked) converted input from the identity of the
    operator, [ini] is combined with the result of the backend by the same
    operator, and the combination is finished (kept dimensions, output
    dtype). *)
Definition combines_initial_after_reduce (run : result Array) (a1 : Array)
    (op : ReductionOp) (bool_op : option ReductionOp) (ident : pyval)
    (upcast promote : bool) (axis : Axis) (dtype_ : option DType)
    (keepdims : bool) (ini : Array) (where_ : option Array) : Prop :=
  let rd := reduction_result_dtype promote dtype_ a1 in
  let cd := reduction_computation_dtype upcast rd in
  let ac := convert_element_type a1 cd in
  let op' := reduction_op op bool_op cd in
  let init := _reduction_init_val ac ident in
  forall pd dims aw,
    _reduction_dims a1 axis = Ok (pd, dims) ->
    List.length pd = List.length dims ->
    match where_ with
    | Some w => _where w (OArr ac) (OArr init)
    | None => Ok ac
    end = Ok aw ->
    exists r,
      lax_binop op' (convert_element_type ini (dtype aw)) (lax_reduce aw init op' pd)
      = Ok r
      /\ (forall idx, in_bounds (shape r) idx ->
            item r idx
            = op' (dtype aw) (item (convert_element_type ini (dtype aw)) [])
                  (item (lax_reduce aw init op' pd) idx))
      /\ run = Ok (convert_element_type
                     (if keepdims then lax_expand_dims r pd else r)
                     (match dtype_ with Some d => d | None => rd end)).

(** The value handed to the backend as the initial value of the reduce is a
    two-sided identity of the operator used at the computation dtype [cd]. *)
Definition backend_identity (op : ReductionOp) (bool_op : option ReductionOp)
    (ident : pyval) (cd : DType) : Prop :=
  forall (ac : Array) (x : scalar),
    dtype ac = cd -> canonicalize_dtype cd = cd -> has_dtype cd x = true ->
    reduction_op op bool_op cd cd (item (_reduction_init_val ac ident) []) x = x
    /\ reduction_op op bool_op cd cd x (item (_reduction_init_val ac ident) []) = x.

(* ------------------------------------------------------------------------- *)
(** *** Further derived reductions *)

(** [lax.ne(a, _lax_const(a, 0))] *)
Definition ne_zero (a : Array) : Array := lax_pred truthy a.

(** [np.dtype(int)] is the 64-bit signed integer. *)
Definition count_nonzero (a : Array) (axis : Axis) (keepdims : bool) : result Array :=
  sum (ne_zero a) axis (Some (canonicalize_dtype int64)) None keepdims None None true.

(** [lax.sub] is defined on numbers only. *)
Definition lax_sub_arrays (x y : Array) : result Array :=
  if is_bool (dtype x) then Raise (TypeError "sub does not accept dtype bool. Accepted dtypes are subtypes of number.")
  else lax_binop lax_sub x y.

Definition _ptp (a : Array) (axis : Axis) (out : option Array) (keepdims : bool)
    : result Array :=
  if is_some out then
    Raise (NotImplementedError "The 'out' argument to jnp.ptp is not supported.")
  else
    x <- amax a axis None keepdims None None ;;
    y <- amin a axis None keepdims None None ;;
    lax_sub_arrays x y.

Definition ptp (a : Array) (axis : Axis) (out : option Array) (keepdims : bool)
    : result Array :=
  _ptp a (_ensure_optional_axes axis) out keepdims.

(** The Python float [0.5] given as [q]. *)
Definition half_q : Array := pynum_array (PFloat (fhalf (canonicalize_dtype float_))).

Definition median (a : Array) (axis : Axis) (out : option Array)
    (overwrite_input keepdims : bool) : result Array :=
  quantile a half_q axis out overwrite_input "midpoint" keepdims None.

Definition nanmedian (a : Array) (axis : Axis) (out : option Array)
    (overwrite_input keepdims : bool) : result Array :=
  nanquantile a half_q axis out overwrite_input "midpoint" keepdims None.

(* ------------------------------------------------------------------------- *)
(** *** Vocabulary of the further properties *)

(** The integer total of a list of elements, booleans counting 0 and 1. *)
Definition int_total (l : list scalar) : Z := fold_right Z.add 0%Z (map s_to_Z l).

(** The integer product of a list of elements. *)
Definition int_product (l : list scalar) : Z := fold_right Z.mul 1%Z (map s_to_Z l).

(** The number of elements different from zero. *)
Definition count_truthy (l : list scalar) : nat := List.length (filter truthy l).

(** [m] is the greatest (least) integer element of the list. *)
Definition is_int_maximum (m : Z) (l : list scalar) : Prop :=
  In (SInt m) l /\ forall z, In (SInt z) l -> (z <= m)%Z.

Definition is_int_minimum (m : Z) (l : list scalar) : Prop :=
  In (SInt m) l /\ forall z, In (SInt z) l -> (m <= z)%Z.

(** The element with a NaN replaced by the constant [v] of the dtype [d]. *)
Definition nan_to (d : DType) (v : pyval) (s : scalar) : scalar :=
  if s_isnan s then const d v else s.

Definition not_nan (s : scalar) : bool := negb (s_isnan s).

(** The identity laws and the closure of an extremum operator on the values
    of the dtype [d], with [e] the identity handed to the backend. *)
Definition extremum_laws (op : ReductionOp) (d : DType) (e : scalar) : Prop :=
  has_dtype d e = true
  /\ forall x y, has_dtype d x = true -> has_dtype d y = true ->
       op d e x = x /\ op d x e = x /\ has_dtype d (op d x y) = true.

(** The number of reduced elements as [mean] and [var] take it: the size of
    the array for [axis=None], else the product of the sizes of the axes. *)
Definition reduced_count (a : Array) (axis : Axis) : result nat :=
  match axis with
  | AxisNone => Ok (size a)
  | _ => _axis_size a axis
  end.

End Reductions.

(** The reference runtime has no mapped axes. *)
Definition no_collectives : @Collectives exact_floats :=
  {| lax_psum := fun a _ => a;
     lax_pmax := fun a _ => a;
     lax_pmin := fun a _ => a;
     axis_env_size := fun _ => 1 |}.

(* ------------------------------------------------------------------------- *)
(** ** Properties *)

Section Properties.

Context {lib : DtypeLib} {F : FloatOps} {coll : Collectives}.

(** *** Dtype policy *)

Lemma dtype_eqb_eq (a b : DType) : dtype_eqb a b = true <-> a = b.
Proof. unfold dtype_eqb; destruct (dtype_eq_dec a b); split; congruence. Qed.

Lemma dtype_eqb_refl (a : DType) : dtype_eqb a a = true.
Proof. apply dtype_eqb_eq; reflexivity. Qed.

Lemma dtype_eqb_neq (a b : DType) : dtype_eqb a b = false <-> a <> b.
Proof. unfold dtype_eqb; destruct (dtype_eq_dec a b); split; congruence. Qed.

Lemma canonicalize_dtype_idem (d : DType) :
  canonicalize_dtype (canonicalize_dtype d) = canonicalize_dtype d.
Proof.
  unfold canonicalize_dtype; destruct (enable_x64 config), d; reflexivity.
Qed.

Lemma canonicalize_is_bool (d : DType) :
  is_bool (canonicalize_dtype d) = is_bool d.
Proof. unfold canonicalize_dtype; destruct (enable_x64 config), d; reflexivity. Qed.

Lemma canonicalize_is_inexact (d : DType) :
  is_inexact (canonicalize_dtype d) = is_inexact d.
Proof. unfold canonicalize_dtype; destruct (enable_x64 config), d; reflexivity. Qed.

Lemma canonicalize_is_floating (d : DType) :
  is_floating (canonicalize_dtype d) = is_floating d.
Proof. unfold canonicalize_dtype; destruct (enable_x64 config), d; reflexivity. Qed.

Lemma canonicalize_is_integer (d : DType) :
  is_integer (canonicalize_dtype d) = is_integer d.
Proof. unfold canonicalize_dtype; destruct (enable_x64 config), d; reflexivity. Qed.

Lemma default_int_signed : is_signedinteger default_int = true.
Proof.
  unfold default_int, canonicalize_dtype, int_.
  destruct (enable_x64 config), (default_dtype_bits_32 config); reflexivity.
Qed.

Lemma default_int_not_bool : is_bool default_int = false.
Proof.
  unfold default_int, canonicalize_dtype, int_.
  destruct (enable_x64 config), (default_dtype_bits_32 config); reflexivity.
Qed.

Lemma default_int_canonical : canonicalize_dtype default_int = default_int.
Proof. apply canonicalize_dtype_idem. Qed.

Lemma promote_bool_is_int_ (d : DType) :
  is_bool d = true -> _promote_integer_dtype d = int_.
Proof. unfold _promote_integer_dtype; intros ->; reflexivity. Qed.

(** *** Shapes and broadcasting *)

Lemma shape_eqb_refl (s : list nat) : shape_eqb s s = true.
Proof. unfold shape_eqb; destruct (list_eq_dec Nat.eq_dec s s); congruence. Qed.

Lemma shape_eqb_eq (s1 s2 : list nat) : shape_eqb s1 s2 = true <-> s1 = s2.
Proof. unfold shape_eqb; destruct (list_eq_dec Nat.eq_dec s1 s2); split; congruence. Qed.

Lemma broadcast_rev_refl (s : list nat) : broadcast_rev s s = Some s.
Proof.
  induction s as [|n s IH]; [reflexivity|].
  simpl; rewrite IH, Nat.eqb_refl; reflexivity.
Qed.

Lemma broadcast_shapes_refl (s : list nat) : broadcast_shapes s s = Some s.
Proof.
  unfold broadcast_shapes; rewrite broadcast_rev_refl; simpl.
  rewrite rev_involutive; reflexivity.
Qed.

Lemma broadcast_rev_nil_l (s : list nat) : broadcast_rev [] s = Some s.
Proof. destruct s; reflexivity. Qed.

Lemma broadcast_rev_nil_r (s : list nat) : broadcast_rev s [] = Some s.
Proof. destruct s; reflexivity. Qed.

Lemma broadcast_shapes_nil_l (s : list nat) : broadcast_shapes [] s = Some s.
Proof.
  unfold broadcast_shapes; simpl.
  rewrite rev_involutive; reflexivity.
Qed.

Lemma broadcast_shapes_nil_r (s : list nat) : broadcast_shapes s [] = Some s.
Proof.
  unfold broadcast_shapes; simpl (rev []); rewrite broadcast_rev_nil_r; simpl.
  rewrite rev_involutive; reflexivity.
Qed.

Lemma bread_same (a : Array) (idx : list nat) : bread a (shape a) idx = item a idx.
Proof. unfold bread; rewrite shape_eqb_refl; reflexivity. Qed.

(** *** Error handling of the reductions without identity *)

(** C2. For [max] and [min], a call with a [where] mask and no [initial]
    fails with the error that the operation has no identity, whatever the
    input array and the axis specification are. *)
Theorem masked_reduction_without_identity_fails :
  forall (a : Array) (axis : Axis) (keepdims : bool) (w : Array),
    max a axis None keepdims None (Some w)
    = Raise (ValueError
        "reduction operation max does not have an identity, so to use a where mask one has to specify 'initial'")
    /\ min a axis None keepdims None (Some w)
    = Raise (ValueError
        "reduction operation min does not have an identity, so to use a where mask one has to specify 'initial'").
Proof. intros; split; reflexivity. Qed.

Lemma forallb_false_exists {A : Type} (f : A -> bool) (l : list A) :
  forallb f l = false <-> exists x, In x l /\ f x = false.
Proof.
  induction l as [|y l IH]; simpl.
  - split; [discriminate | intros [x [[] _]]].
  - rewrite andb_false_iff, IH; split.
    + intros [Hy | [x [Hx Hf]]]; [exists y | exists x]; auto.
    + intros [x [[-> | Hx] Hf]]; [left | right; exists x]; auto.
Qed.

(** The reduction without identity, once its two guards are passed, returns
    a result: with positional axes by the backend reduce, with named axes by
    the collective. *)
Lemma reduction_without_identity_ok
    (a : Array) (name : string) (op : ReductionOp) (init_val : pyval)
    (axis : Axis) (keepdims : bool) (pr : Array -> list dim -> Array)
    (pd : list nat) (dims : list dim) :
  _reduction_dims a axis = Ok (pd, dims) ->
  forallb (fun d => 1 <=? nth d (shape a) 0) pd = true ->
  is_ok (_reduction a name op init_val false None None false axis None None
           keepdims None None (Some pr) false) = true.
Proof.
  intros Hd Hs; unfold _reduction.
  cbn [is_some is_none negb andb]; rewrite Hd; cbn [bind].
  rewrite Hs; cbn [negb andb bind].
  destruct (negb (List.length pd =? List.length dims)); reflexivity.
Qed.

Lemma reduction_without_identity_zero_size
    (a : Array) (name : string) (op : ReductionOp) (init_val : pyval)
    (axis : Axis) (keepdims : bool) (pr : option (Array -> list dim -> Array))
    (pd : list nat) (dims : list dim) :
  _reduction_dims a axis = Ok (pd, dims) ->
  forallb (fun d => 1 <=? nth d (shape a) 0) pd = false ->
  _reduction a name op init_val false None None false axis None None
    keepdims None None pr false
  = Raise (ValueError ("zero-size array to reduction operation " ++ name
                       ++ " which has no identity")%string).
Proof.
  intros Hd Hs; unfold _reduction.
  cbn [is_some is_none negb andb]; rewrite Hd; cbn [bind].
  rewrite Hs; reflexivity.
Qed.

(** C3. [max] and [min] called without [initial] (and the other keyword
    arguments at their defaults), on an axis specification that resolves to
    the positional dimensions [pd]: if some reduced dimension of the input has
    size 0 the call fails with the zero-size error; if every reduced dimension
    has size at least 1 the validation passes and the call returns. *)
Theorem zero_size_reduction_without_identity :
  forall (a : Array) (axis : Axis) (keepdims : bool) (pd : list nat) (dims : list dim),
    _reduction_dims a (_ensure_optional_axes axis) = Ok (pd, dims) ->
    ((exists d, In d pd /\ nth d (shape a) 0 = 0) ->
       max a axis None keepdims None None
       = Raise (ValueError "zero-size array to reduction operation max which has no identity")
       /\ min a axis None keepdims None None
       = Raise (ValueError "zero-size array to reduction operation min which has no identity"))
    /\ ((forall d, In d pd -> 1 <= nth d (shape a) 0) ->
        is_ok (max a axis None keepdims None None) = true
        /\ is_ok (min a axis None keepdims None None) = true).
Proof.
  intros a axis keepdims pd dims Hd; split.
  - intros [d [Hin Hz]].
    assert (Hs : forallb (fun d => 1 <=? nth d (shape a) 0) pd = false).
    { apply forallb_false_exists; exists d; split; [assumption|].
      rewrite Hz; reflexivity. }
    split; unfold max, min, _reduce_max, _reduce_min;
      (erewrite reduction_without_identity_zero_size; [reflexivity | exact Hd | exact Hs]).
  - intros Hall.
    assert (Hs : forallb (fun d => 1 <=? nth d (shape a) 0) pd = true).
    { apply forallb_forall; intros d Hin; apply Nat.leb_le; auto. }
    split; unfold max, min, _reduce_max, _reduce_min;
      (eapply reduction_without_identity_ok; [exact Hd | exact Hs]).
Qed.

(** *** Cumulative reductions of boolean input *)

Lemma has_dtype_bool (d : DType) (s : scalar) :
  is_bool d = true -> has_dtype d s = true -> exists b, s = SBool b.
Proof.
  intros Hd; destruct s as [b|z|x]; simpl.
  - exists b; reflexivity.
  - destruct d; discriminate.
  - destruct d; discriminate.
Qed.

Lemma cumulative_input_valid (a : Array) (axis : Axis) (a0 : Array) (k : nat) :
  valid_array a -> cumulative_input a axis = Ok (a0, k) ->
  valid_array a0 /\ dtype a0 = dtype a.
Proof.
  intros [Hc Hv] H; unfold cumulative_input in H.
  assert (Hr : valid_array (ravel a) /\ dtype (ravel a) = dtype a).
  { split; [split|]; simpl; auto. }
  destruct axis as [|[i|n]|l]; simpl in H.
  - inversion H; subst; exact Hr.
  - destruct (_isscalar a).
    + destruct (_canonicalize_axis i (ndim (ravel a))); simpl in H; [|discriminate].
      inversion H; subst; exact Hr.
    + destruct (_canonicalize_axis i (ndim a)); simpl in H; [|discriminate].
      inversion H; subst; split; [split|]; auto.
  - discriminate.
  - discriminate.
Qed.

Lemma canonicalize_bool : canonicalize_dtype bool_ = bool_.
Proof. unfold canonicalize_dtype; destruct (enable_x64 config); reflexivity. Qed.

Lemma cumulative_bool
    (name : string) (op : ReductionOp) (fill_nan : bool) (fill_value : pyval)
    (a : Array) (axis : Axis) (a0 : Array) (k : nat) :
  valid_array a -> dtype a = bool_ ->
  cumulative_input a (_ensure_optional_axes axis) = Ok (a0, k) ->
  accumulates_bool_in_int
    (_make_cumulative_reduction name (lax_cumulative op) fill_nan fill_value false)
    op a axis a0 k.
Proof.
  intros Hva Hb Hin.
  destruct (cumulative_input_valid _ _ _ _ Hva Hin) as [[Hc0 Hv0] Hd0].
  rewrite Hb in Hd0.
  assert (Hfill : exists a1, array_eq a1 a0 /\
            (if fill_nan then _where (_isnan a0) (OArr (_lax_const a0 fill_value)) (OArr a0)
             else Ok a0) = Ok a1).
  { destruct fill_nan; [|exists a0; repeat split; reflexivity].
    unfold _where; cbn [operand_shape shape _lax_const scalar_array _isnan lax_pred].
    rewrite broadcast_shapes_nil_l, broadcast_shapes_refl.
    eexists; split; [|reflexivity].
    unfold array_eq; cbn [dtype shape item promote_operands _lax_const scalar_array].
    rewrite Hd0, canonicalize_bool, dtype_eqb_refl, canonicalize_bool.
    repeat split; intros idx _.
    unfold bread; cbn [shape item _isnan lax_pred]; rewrite shape_eqb_refl.
    destruct (has_dtype_bool (dtype a0) (item a0 idx)) as [b Hbv];
      [rewrite Hd0; reflexivity | apply Hv0 |].
    rewrite Hbv; cbn [s_isnan truthy operand_item].
    unfold bread, convert_item; rewrite shape_eqb_refl, Hd0, Hbv; reflexivity. }
  destruct Hfill as [a1 [Heq Hfill]].
  assert (Hd1 : dtype a1 = bool_) by (destruct Heq as [-> _]; exact Hd0).
  exists a1; split; [exact Heq|].
  unfold _make_cumulative_reduction; cbn [is_some is_none negb].
  rewrite Hin; cbn [bind]; rewrite Hfill; cbn [bind].
  rewrite Hd1; cbn [is_bool andb orb].
  rewrite (promote_bool_is_int_ bool_ eq_refl).
  fold default_int.
  split; [reflexivity|]; split; [reflexivity|].
  intros d r Hr.
  destruct (is_bool d) eqn:Hbd.
  - destruct d; try discriminate.
    inversion Hr; subst r; cbn [dtype convert_element_type].
    rewrite canonicalize_bool; split; reflexivity.
  - inversion Hr; subst r.
    cbn [dtype convert_element_type lax_cumulative].
    rewrite canonicalize_dtype_idem; split.
    + intros Hc; pose proof (canonicalize_is_bool d) as Hcb.
      rewrite Hc, Hbd in Hcb; discriminate.
    + intros ->; discriminate.
Qed.

(** C10. For a boolean input array and a valid axis, [cumsum], [cumprod],
    [nancumsum] and [nancumprod] accumulate in, and return, the default
    signed integer dtype when no [dtype] is given; the output is boolean only
    when [dtype=bool] is requested, and then it is the integer accumulation
    cast back to bool. *)
Theorem cumulative_reductions_of_bool :
  forall (a : Array) (axis : Axis) (a0 : Array) (k : nat),
    valid_array a -> dtype a = bool_ ->
    cumulative_input a (_ensure_optional_axes axis) = Ok (a0, k) ->
    accumulates_bool_in_int cumsum lax_add a axis a0 k
    /\ accumulates_bool_in_int cumprod lax_mul a axis a0 k
    /\ accumulates_bool_in_int nancumsum lax_add a axis a0 k
    /\ accumulates_bool_in_int nancumprod lax_mul a axis a0 k
    /\ (forall op a1,
          dtype (lax_cumulative op (convert_element_type a1 default_int) k) = default_int)
    /\ is_signedinteger default_int = true.
Proof.
  intros a axis a0 k Hv Hb Hin.
  repeat split; try (apply cumulative_bool; assumption).
  - intros op a1; cbn [dtype lax_cumulative convert_element_type].
    apply default_int_canonical.
  - apply default_int_signed.
Qed.

(** *** The generic reduction on positional axes *)

(** Past its guards and on positional axes, [_reduction] masks the converted
    input, calls the backend reduce with the identity of the operator,
    combines [initial] and finishes. *)
Lemma reduction_positional
    (a : Array) (name : string) (op : ReductionOp) (init_val : pyval)
    (has_identity : bool) (preproc : option (Array -> Array))
    (bool_op : option ReductionOp) (upcast : bool) (axis : Axis)
    (dtype_ : option DType) (keepdims : bool) (initial where_ : option Array)
    (pr : option (Array -> list dim -> Array)) (promote : bool)
    (pd : list nat) (dims : list dim) :
  let a1 := match preproc with Some f => f a | None => a end in
  let rd := reduction_result_dtype promote dtype_ a1 in
  let cd := reduction_computation_dtype upcast rd in
  let ac := convert_element_type a1 cd in
  let op' := reduction_op op bool_op cd in
  let init := _reduction_init_val ac init_val in
  is_none initial && negb has_identity && is_some where_ = false ->
  _reduction_dims a1 axis = Ok (pd, dims) ->
  List.length pd = List.length dims ->
  is_none initial && negb has_identity
    && negb (forallb (fun d => 1 <=? nth d (shape a1) 0) pd) = false ->
  _reduction a name op init_val has_identity preproc bool_op upcast axis dtype_
    None keepdims initial where_ pr promote
  = (aw <- match where_ with
           | Some w => _where w (OArr ac) (OArr init)
           | None => Ok ac
           end ;;
     result <- match initial with
               | Some initial =>
                   let initial_arr := convert_element_type initial (dtype aw) in
                   if negb (List.length (shape initial_arr) =? 0) then
                     Raise (ValueError
                              ("initial value must be a scalar. Got array of shape "
                               ++ show_shape (shape initial_arr))%string)
                   else lax_binop op' initial_arr (lax_reduce aw init op' pd)
               | None => Ok (lax_reduce aw init op' pd)
               end ;;
     Ok (convert_element_type
           (if keepdims then lax_expand_dims result pd else result)
           (match dtype_ with Some d => d | None => rd end))).
Proof.
  intros a1 rd cd ac op' init Hg1 Hd Hlen Hg2.
  unfold _reduction; cbn [is_some]; cbv iota.
  rewrite Hg1; fold a1; rewrite Hd; cbn [bind]; rewrite Hg2.
  rewrite Hlen, Nat.eqb_refl; cbn [negb].
  reflexivity.
Qed.


(** *** The reduced dimensions *)

Lemma canonicalize_axis_lt (i : Z) (n k : nat) :
  _canonicalize_axis i n = Ok k -> k < n.
Proof.
  unfold _canonicalize_axis.
  destruct ((- Z.of_nat n <=? i)%Z && (i <? Z.of_nat n)%Z) eqn:H; [|discriminate].
  apply andb_true_iff in H; destruct H as [H1 H2].
  apply Z.leb_le in H1; apply Z.ltb_lt in H2.
  intros H; inversion H; subst k; clear H.
  destruct (i <? 0)%Z eqn:Hn.
  - apply Z.ltb_lt in Hn; lia.
  - apply Z.ltb_ge in Hn; lia.
Qed.

Lemma dim_eqb_eq (x y : dim) : dim_eqb x y = true <-> x = y.
Proof.
  destruct x as [a|a], y as [b|b]; simpl; split; try discriminate.
  - intros H; apply Nat.eqb_eq in H; congruence.
  - intros H; inversion H; apply Nat.eqb_refl.
  - intros H; apply String.eqb_eq in H; congruence.
  - intros H; inversion H; apply String.eqb_refl.
Qed.

Lemma existsb_dim_In (x : dim) (l : list dim) :
  existsb (dim_eqb x) l = true <-> In x l.
Proof.
  rewrite existsb_exists; split.
  - intros [y [Hy He]]; apply dim_eqb_eq in He; subst; assumption.
  - intros H; exists x; split; [assumption | apply dim_eqb_eq; reflexivity].
Qed.

Lemma nodup_dims_length_le (l : list dim) :
  List.length (nodup_dims l) <= List.length l.
Proof.
  induction l as [|x l IH]; simpl; [lia|].
  destruct (existsb (dim_eqb x) l); simpl; lia.
Qed.

Lemma nodup_dims_NoDup (l : list dim) :
  List.length l = List.length (nodup_dims l) -> NoDup l.
Proof.
  induction l as [|x l IH]; simpl; intros H; [constructor|].
  pose proof (nodup_dims_length_le l) as Hle.
  destruct (existsb (dim_eqb x) l) eqn:He; simpl in H; [lia|].
  constructor.
  - intros Hin; apply existsb_dim_In in Hin; congruence.
  - apply IH; lia.
Qed.

Lemma positional_In (k : nat) (l : list dim) :
  In k (positional l) <-> In (DPos k) l.
Proof.
  induction l as [|[j|n] l IH]; simpl.
  - tauto.
  - rewrite IH; split; intros [H|H]; auto; left; congruence.
  - rewrite IH; split; [auto | intros [H|H]; [discriminate | assumption]].
Qed.

Lemma positional_NoDup (l : list dim) : NoDup l -> NoDup (positional l).
Proof.
  induction 1 as [|x l Hx Hl IH]; simpl; [constructor|].
  destruct x as [k|n]; [|assumption].
  constructor; [|assumption].
  intros Hin; apply positional_In in Hin; contradiction.
Qed.

Lemma mapM_canonical_lt (n : nat) (l : list axis_item) (c : list dim) :
  mapM (fun x => _canonicalize_axis_allow_named x n) l = Ok c ->
  forall k, In k (positional c) -> k < n.
Proof.
  revert c; induction l as [|x l IH]; simpl; intros c H.
  - inversion H; subst; simpl; tauto.
  - destruct (_canonicalize_axis_allow_named x n) as [y|e] eqn:Hx; simpl in H;
      [|discriminate].
    destruct (mapM (fun x => _canonicalize_axis_allow_named x n) l) as [ys|e] eqn:Hl;
      simpl in H; [|discriminate].
    inversion H; subst c; clear H.
    intros k Hk; destruct y as [j|nm]; simpl in Hk.
    + destruct Hk as [<-|Hk]; [|apply (IH ys eq_refl k Hk)].
      destruct x as [i|nm]; simpl in Hx; [|discriminate].
      destruct (_canonicalize_axis i n) as [j'|e] eqn:Hc; simpl in Hx; [|discriminate].
      inversion Hx; subst; eapply canonicalize_axis_lt; eassumption.
    + apply (IH ys eq_refl k Hk).
Qed.

(** The positional dimensions [_reduction_dims] returns are distinct
    positions of the array. *)
Lemma reduction_dims_positions (a : Array) (axis : Axis) (pd : list nat) (dims : list dim) :
  _reduction_dims a axis = Ok (pd, dims) ->
  NoDup pd /\ (forall k, In k pd -> k < ndim a).
Proof.
  unfold _reduction_dims.
  assert (Hseq : forall axis_seq,
    (canon_axis <- mapM (fun x => _canonicalize_axis_allow_named x (ndim a)) axis_seq ;;
     if negb (List.length canon_axis =? List.length (nodup_dims canon_axis)) then
       Raise (ValueError ("duplicate value in 'axis': "
                          ++ show_tuple (map show_axis_item axis_seq))%string)
     else Ok (positional canon_axis, canon_axis)) = Ok (pd, dims) ->
    NoDup pd /\ (forall k, In k pd -> k < ndim a)).
  { intros l H.
    destruct (mapM (fun x => _canonicalize_axis_allow_named x (ndim a)) l) as [c|e] eqn:Hm;
      simpl in H; [|discriminate].
    destruct (List.length c =? List.length (nodup_dims c)) eqn:Hl; simpl in H;
      [|discriminate].
    apply Nat.eqb_eq in Hl; inversion H; subst; split.
    - apply positional_NoDup, nodup_dims_NoDup, Hl.
    - eapply mapM_canonical_lt; eassumption. }
  destruct axis as [|x|l].
  - intros H; inversion H; subst; split.
    + apply seq_NoDup.
    + intros k Hk; apply in_seq in Hk; lia.
  - apply Hseq.
  - apply Hseq.
Qed.

Lemma reduction_dims_ndim (a b : Array) (axis : Axis) :
  ndim a = ndim b -> _reduction_dims a axis = _reduction_dims b axis.
Proof. unfold _reduction_dims; intros ->; reflexivity. Qed.

(** *** Shapes of reduced arrays *)

Lemma mem_nat_In (k : nat) (l : list nat) : mem_nat k l = true <-> In k l.
Proof.
  unfold mem_nat; rewrite existsb_exists; split.
  - intros [y [Hy He]]; apply Nat.eqb_eq in He; subst; assumption.
  - intros H; exists k; split; [assumption | apply Nat.eqb_refl].
Qed.

Lemma dim_flags_length (n : nat) (dims : list nat) :
  List.length (dim_flags n dims) = n.
Proof. unfold dim_flags; rewrite length_map, length_seq; reflexivity. Qed.

Lemma select_dims_length (flags : list bool) (l : list nat) :
  List.length flags = List.length l ->
  List.length (select_dims flags l false) + List.length (filter (fun b => b) flags)
  = List.length l.
Proof.
  revert l; induction flags as [|f fs IH]; intros [|n l]; simpl; intros H;
    try discriminate; [reflexivity|].
  injection H as H; specialize (IH l H).
  destruct f; simpl; lia.
Qed.

Lemma dim_flags_count (n : nat) (dims : list nat) :
  NoDup dims -> (forall k, In k dims -> k < n) ->
  List.length (filter (fun b => b) (dim_flags n dims)) = List.length dims.
Proof.
  intros Hnd Hlt; unfold dim_flags.
  assert (Hf : forall l : list nat,
    List.length (filter (fun b : bool => b) (map (fun k => mem_nat k dims) l))
    = List.length (filter (fun k => mem_nat k dims) l)).
  { induction l as [|x l IH]; simpl; [reflexivity|].
    destruct (mem_nat x dims); simpl; rewrite IH; reflexivity. }
  rewrite Hf; apply Permutation_length.
  apply NoDup_Permutation.
  - apply NoDup_filter, seq_NoDup.
  - assumption.
  - intros x; rewrite filter_In, in_seq, mem_nat_In; split.
    + tauto.
    + intros H; split; [|assumption]; specialize (Hlt x H); lia.
Qed.

Lemma expand_select (flags : list bool) (sh : list nat) :
  List.length flags = List.length sh ->
  expand_shape flags (select_dims flags sh false) = keepdims_shape flags sh.
Proof.
  revert sh; induction flags as [|f fs IH]; intros [|n sh]; simpl; intros H;
    try discriminate; [reflexivity|].
  injection H as H; destruct f; simpl; rewrite IH; auto.
Qed.

(** The shape of a reduction result, with or without [keepdims]. *)
Lemma reduced_result_shape (r : Array) (keepdims : bool) (pd sh : list nat) :
  NoDup pd -> (forall k, In k pd -> k < List.length sh) ->
  shape r = select_dims (dim_flags (List.length sh) pd) sh false ->
  shape (if keepdims then lax_expand_dims r pd else r) = reduced_shape keepdims pd sh.
Proof.
  intros Hnd Hlt Hr; unfold reduced_shape; destruct keepdims; [|exact Hr].
  cbn [shape lax_expand_dims]; unfold ndim; rewrite Hr.
  pose proof (select_dims_length (dim_flags (List.length sh) pd) sh
                (dim_flags_length _ _)) as Hl.
  rewrite (dim_flags_count _ _ Hnd Hlt) in Hl; rewrite Hl.
  apply expand_select, dim_flags_length.
Qed.

(** *** Masked sums *)

Lemma reduction_dims_error
    (a : Array) (name : string) (op : ReductionOp) (init_val : pyval)
    (has_identity : bool) (preproc : option (Array -> Array))
    (bool_op : option ReductionOp) (upcast : bool) (axis : Axis)
    (dtype_ : option DType) (keepdims : bool) (initial where_ : option Array)
    (pr : option (Array -> list dim -> Array)) (promote : bool) (e : exn) :
  is_none initial && negb has_identity && is_some where_ = false ->
  _reduction_dims (match preproc with Some f => f a | None => a end) axis = Raise e ->
  _reduction a name op init_val has_identity preproc bool_op upcast axis dtype_
    None keepdims initial where_ pr promote = Raise e.
Proof.
  intros Hg Hd; unfold _reduction; cbn [is_some]; cbv iota.
  rewrite Hg, Hd; reflexivity.
Qed.

Lemma ensure_optional_axes_positional (axis : Axis) :
  axis_is_positional axis = true -> _ensure_optional_axes axis = axis.
Proof. destruct axis as [|[i|n]|l]; simpl; intros H; congruence. Qed.

Lemma mapM_positional_length (n : nat) (l : list axis_item) (c : list dim) :
  forallb (fun x => match x with AxInt _ => true | AxName _ => false end) l = true ->
  mapM (fun x => _canonicalize_axis_allow_named x n) l = Ok c ->
  List.length (positional c) = List.length c.
Proof.
  revert c; induction l as [|x l IH]; simpl; intros c Hp H.
  - inversion H; reflexivity.
  - apply andb_true_iff in Hp; destruct Hp as [Hx Hp].
    destruct x as [i|nm]; [|discriminate]; simpl in H.
    destruct (_canonicalize_axis i n) as [k|e]; simpl in H; [|discriminate].
    destruct (mapM (fun x => _canonicalize_axis_allow_named x n) l) as [ys|e] eqn:Hl;
      simpl in H; [|discriminate].
    inversion H; subst c; simpl; rewrite (IH ys Hp eq_refl); reflexivity.
Qed.

Lemma reduction_dims_positional (a : Array) (axis : Axis) (pd : list nat) (dims : list dim) :
  axis_is_positional axis = true ->
  _reduction_dims a axis = Ok (pd, dims) ->
  List.length pd = List.length dims.
Proof.
  intros Hp; unfold _reduction_dims.
  assert (Hseq : forall axis_seq,
    forallb (fun x => match x with AxInt _ => true | AxName _ => false end) axis_seq = true ->
    (canon_axis <- mapM (fun x => _canonicalize_axis_allow_named x (ndim a)) axis_seq ;;
     if negb (List.length canon_axis =? List.length (nodup_dims canon_axis)) then
       Raise (ValueError ("duplicate value in 'axis': "
                          ++ show_tuple (map show_axis_item axis_seq))%string)
     else Ok (positional canon_axis, canon_axis)) = Ok (pd, dims) ->
    List.length pd = List.length dims).
  { intros l Hl H.
    destruct (mapM (fun x => _canonicalize_axis_allow_named x (ndim a)) l) as [c|e] eqn:Hm;
      simpl in H; [|discriminate].
    destruct (negb (List.length c =? List.length (nodup_dims c))); [discriminate|].
    inversion H; subst; eapply mapM_positional_length; eassumption. }
  destruct axis as [|x|l].
  - intros H; inversion H; subst; rewrite length_map; reflexivity.
  - apply Hseq; simpl in *; destruct x; [reflexivity | discriminate].
  - apply Hseq; exact Hp.
Qed.

Lemma fold_left_ext_step {A B : Type} (f g : A -> B -> A) (l : list B) (x : A) :
  (forall a b, f a b = g a b) -> fold_left f l x = fold_left g l x.
Proof.
  intros H; revert x; induction l as [|b l IH]; intros x; simpl; [reflexivity|].
  rewrite H; apply IH.
Qed.

(** The backend reduce reads its operand only through its elements. *)
Lemma lax_reduce_ext (a b init init' : Array) (op : ReductionOp) (dims : list nat) :
  dtype a = dtype b -> shape a = shape b ->
  (forall idx, item a idx = item b idx) ->
  item init [] = item init' [] ->
  dtype (lax_reduce a init op dims) = dtype (lax_reduce b init' op dims)
  /\ shape (lax_reduce a init op dims) = shape (lax_reduce b init' op dims)
  /\ forall idx, item (lax_reduce a init op dims) idx = item (lax_reduce b init' op dims) idx.
Proof.
  intros Hd Hs Hi Hinit; unfold lax_reduce, ndim; cbn [dtype shape item].
  rewrite Hd, Hs, Hinit; repeat split.
  intros idx; apply fold_left_ext_step; intros acc ridx; rewrite Hi; reflexivity.
Qed.


(** Case analysis on the configuration, then on a dtype. *)
Ltac policy_cases d :=
  unfold reduction_computation_dtype, reduction_result_dtype, _promote_integer_dtype,
    weak_result, default_int, canonicalize_dtype, int_, uint, float_;
  destruct (enable_x64 config), (default_dtype_bits_32 config); destruct d.

Hypothesis fcvt_zero :
  forall d1 d2, is_inexact d1 = true -> is_inexact d2 = true ->
    fcvt d1 d2 (f_of_Z d1 0) = f_of_Z d2 0.

Lemma convert_item_same (d : DType) (s : scalar) : convert_item d d s = s.
Proof. unfold convert_item; rewrite dtype_eqb_refl; reflexivity. Qed.

Lemma bread_map (a b : Array) (f : scalar -> scalar) (sh idx : list nat) :
  shape b = shape a -> (forall i, item b i = f (item a i)) ->
  bread b sh idx = f (bread a sh idx).
Proof.
  intros Hs Hi; unfold bread; rewrite Hs.
  destruct (shape_eqb (shape a) sh); apply Hi.
Qed.

Lemma shape_cast_to_numeric (a : Array) : shape (_cast_to_numeric a) = shape a.
Proof. unfold _cast_to_numeric; destruct (is_bool (dtype a)); reflexivity. Qed.

Lemma dtype_cast_to_numeric (a : Array) :
  dtype (_cast_to_numeric a) = weak_result (dtype a) (PyInt 0).
Proof.
  unfold _cast_to_numeric, weak_result; destruct (is_bool (dtype a)); reflexivity.
Qed.

Lemma item_cast_to_numeric (a : Array) (idx : list nat) :
  item (_cast_to_numeric a) idx
  = convert_item (dtype a) (weak_result (dtype a) (PyInt 0)) (item a idx).
Proof.
  unfold _cast_to_numeric, weak_result; destruct (is_bool (dtype a)) eqn:H.
  - reflexivity.
  - rewrite convert_item_same; reflexivity.
Qed.

Lemma weak_int_not_bool (d : DType) (z : Z) :
  is_bool (canonicalize_dtype (weak_result d (PyInt z))) = false.
Proof.
  rewrite canonicalize_is_bool; unfold weak_result.
  destruct (is_bool d) eqn:H; [apply default_int_not_bool | exact H].
Qed.

(** The dtypes of a sum without [dtype] argument of an input of dtype [d]:
    the input after [_cast_to_numeric] has dtype [weak_result d 0]. *)
Lemma sum_where_result_dtype (d : DType) :
  canonicalize_dtype
    (_promote_integer_dtype (canonicalize_dtype (weak_result d (PyInt 0))))
  = canonicalize_dtype (_promote_integer_dtype (weak_result d (PyInt 0))).
Proof. policy_cases d; reflexivity. Qed.

Lemma computation_dtype_canonical (up : bool) (d : DType) :
  canonicalize_dtype (reduction_computation_dtype up (canonicalize_dtype d))
  = reduction_computation_dtype up (canonicalize_dtype d).
Proof. destruct up; policy_cases d; reflexivity. Qed.

Lemma sum_computation_not_bool (d : DType) :
  is_bool (reduction_computation_dtype true
             (canonicalize_dtype (_promote_integer_dtype (weak_result d (PyInt 0)))))
  = false.
Proof. policy_cases d; reflexivity. Qed.

(** Converting to the computation dtype directly, or through the canonical
    dtype first, is one conversion. *)
Lemma sum_conversion_paths (d : DType) (x : scalar) :
  let d1 := weak_result d (PyInt 0) in
  let cd := reduction_computation_dtype true
              (canonicalize_dtype (_promote_integer_dtype d1)) in
  convert_item d1 cd (convert_item d d1 x)
  = convert_item (canonicalize_dtype d1) cd (convert_item d (canonicalize_dtype d1) x).
Proof.
  cbv zeta; unfold convert_item; generalize cvt; intros c.
  policy_cases d; reflexivity.
Qed.

Lemma wrap_zero (d : DType) : wrap d 0 = 0%Z.
Proof. destruct d; reflexivity. Qed.

Lemma sum_zero_conversion (d : DType) :
  let d1 := weak_result d (PyInt 0) in
  let cd := reduction_computation_dtype true
              (canonicalize_dtype (_promote_integer_dtype d1)) in
  convert_item (canonicalize_dtype d1) cd (const (canonicalize_dtype d1) (PyInt 0))
  = const cd (PyInt 0).
Proof.
  cbv zeta; policy_cases d; try reflexivity;
    unfold convert_item, const, np_array, cvt; cbn [dtype_eqb is_bool is_integer
      is_unsignedinteger is_signedinteger orb];
    try reflexivity;
    rewrite fcvt_zero by reflexivity; reflexivity.
Qed.

Lemma np_array_int (d : DType) (z : Z) : np_array d (PyInt z) = Some (const d (PyInt z)).
Proof.
  unfold const, np_array.
  destruct (is_bool d); [reflexivity|]; destruct (is_integer d); reflexivity.
Qed.

(** On a dtype that is not boolean, the identity of the sum is the zero of
    the dtype. *)
Lemma init_val_int (a : Array) (z : Z) (idx : list nat) :
  is_bool (dtype a) = false ->
  item (_reduction_init_val a (PyInt z)) idx
  = const (canonicalize_dtype (dtype a)) (PyInt z).
Proof.
  intros Hb; unfold _reduction_init_val; cbn [item scalar_array py_isinf andb].
  rewrite np_array_int.
  destruct (dtype_eqb (canonicalize_dtype (dtype a)) bool_) eqn:He; [|reflexivity].
  apply dtype_eqb_eq in He.
  pose proof (canonicalize_is_bool (dtype a)) as Hc; rewrite He, Hb in Hc; discriminate.
Qed.

Lemma dtype_init_val (a : Array) (v : pyval) :
  dtype (_reduction_init_val a v) = canonicalize_dtype (dtype a).
Proof. reflexivity. Qed.

(** Reducing pointwise equal arrays and finishing gives equal arrays. *)
Lemma finish_ext (r1 r2 : Array) (keepdims : bool) (pd : list nat) (dt : DType) :
  dtype r1 = dtype r2 -> shape r1 = shape r2 ->
  (forall idx, item r1 idx = item r2 idx) ->
  array_eq (convert_element_type (if keepdims then lax_expand_dims r1 pd else r1) dt)
           (convert_element_type (if keepdims then lax_expand_dims r2 pd else r2) dt).
Proof.
  intros Hd Hs Hi; unfold array_eq.
  destruct keepdims; cbn [dtype shape item convert_element_type lax_expand_dims];
    unfold ndim; rewrite Hd, Hs; repeat split; intros idx _; rewrite Hi; reflexivity.
Qed.

(** C4. For every array [a], every positional axis specification and every
    boolean mask [m] that broadcasts against [a] without adding dimensions,
    [sum(a, axis, where=m)] is [sum(where(m, a, 0), axis)]: the excluded
    elements are replaced by the identity 0 before the backend reduce. *)
Theorem masked_sum_is_sum_of_where :
  forall (a m : Array) (axis : Axis) (keepdims : bool) (sh : list nat),
    axis_is_positional axis = true ->
    broadcast_shapes (shape m) (shape a) = Some sh ->
    List.length sh = ndim a ->
    result_eq (sum a axis None None keepdims None (Some m) true)
              (w <- where_zero m a ;; sum w axis None None keepdims None None true).
Proof.
  intros a m axis keepdims sh Hp Hb Hlen.
  unfold where_zero, _where; cbn [operand_shape].
  rewrite broadcast_shapes_nil_r, Hb; cbn [bind promote_operands].
  set (d1 := weak_result (dtype a) (PyInt 0)).
  set (w0 := {| dtype := canonicalize_dtype d1 |}).
  assert (Hw0 : _cast_to_numeric w0 = w0).
  { unfold _cast_to_numeric; cbn [dtype w0]; unfold d1.
    rewrite weak_int_not_bool; reflexivity. }
  unfold sum, _reduce_sum; rewrite (ensure_optional_axes_positional _ Hp).
  assert (Hnd : ndim (_cast_to_numeric w0) = ndim (_cast_to_numeric a)).
  { rewrite Hw0; unfold ndim; rewrite shape_cast_to_numeric; exact Hlen. }
  destruct (_reduction_dims (_cast_to_numeric a) axis) as [[pd dims]|e] eqn:Hd.
  - pose proof (reduction_dims_positional _ _ _ _ Hp Hd) as Hl.
    rewrite (reduction_positional a "sum" lax_add (PyInt 0) true (Some _cast_to_numeric)
               (Some lax_bitwise_or) true axis None keepdims None (Some m)
               (Some lax_psum) true pd dims eq_refl Hd Hl eq_refl).
    rewrite <- (reduction_dims_ndim _ _ axis Hnd) in Hd.
    rewrite (reduction_positional w0 "sum" lax_add (PyInt 0) true (Some _cast_to_numeric)
               (Some lax_bitwise_or) true axis None keepdims None None
               (Some lax_psum) true pd dims eq_refl Hd Hl eq_refl).
    rewrite Hw0.
    assert (Hrd1 : reduction_result_dtype true None (_cast_to_numeric a)
                   = canonicalize_dtype (_promote_integer_dtype d1)).
    { unfold reduction_result_dtype; cbn [is_none is_some negb andb].
      rewrite dtype_cast_to_numeric; reflexivity. }
    assert (Hrd0 : reduction_result_dtype true None w0
                   = canonicalize_dtype (_promote_integer_dtype d1)).
    { unfold reduction_result_dtype; cbn [is_none is_some negb andb dtype w0].
      apply sum_where_result_dtype. }
    rewrite Hrd1, Hrd0.
    set (cd := reduction_computation_dtype true
                 (canonicalize_dtype (_promote_integer_dtype d1))).
    assert (Hcd : canonicalize_dtype cd = cd) by apply computation_dtype_canonical.
    assert (Hcb : is_bool cd = false) by apply sum_computation_not_bool.
    unfold _where; cbn [operand_shape shape convert_element_type _reduction_init_val
                        scalar_array].
    rewrite shape_cast_to_numeric, broadcast_shapes_nil_r, Hb; cbn [bind].
    unfold result_eq.
    match goal with
    | |- array_eq
           (convert_element_type
              (if _ then lax_expand_dims (lax_reduce ?A ?I ?O _) _ else _) _)
           (convert_element_type
              (if _ then lax_expand_dims (lax_reduce ?B ?J _ _) _ else _) _) =>
        destruct (lax_reduce_ext A B I J O pd) as [E1 [E2 E3]];
          [ | | | | apply finish_ext; assumption]
    end.
    + cbn [dtype promote_operands convert_element_type scalar_array
           _reduction_init_val].
      rewrite !Hcd, dtype_eqb_refl; exact Hcd.
    + reflexivity.
    + intros idx.
      cbn [dtype convert_element_type promote_operands operand_item].
      rewrite !dtype_init_val.
      cbn [item dtype shape convert_element_type w0 operand_item].
      rewrite !Hcd, dtype_eqb_refl, !Hcd.
      destruct (truthy (bread m sh idx)).
      * rewrite convert_item_same.
        rewrite (bread_map a _ (fun x => convert_item d1 cd (convert_item (dtype a) d1 x))).
        -- apply sum_conversion_paths.
        -- apply shape_cast_to_numeric.
        -- intros i; cbn [item convert_element_type].
           rewrite dtype_cast_to_numeric, item_cast_to_numeric, Hcd; reflexivity.
      * rewrite convert_item_same.
        unfold bread; destruct (shape_eqb _ sh);
          (rewrite init_val_int;
             [| cbn [dtype convert_element_type]; rewrite Hcd; exact Hcb]);
          cbn [dtype convert_element_type]; rewrite !Hcd; symmetry;
          apply sum_zero_conversion.
    + reflexivity.
  - rewrite (reduction_dims_error a "sum" lax_add (PyInt 0) true (Some _cast_to_numeric)
               (Some lax_bitwise_or) true axis None keepdims None (Some m)
               (Some lax_psum) true e eq_refl Hd).
    rewrite <- (reduction_dims_ndim _ _ axis Hnd) in Hd.
    rewrite (reduction_dims_error w0 "sum" lax_add (PyInt 0) true (Some _cast_to_numeric)
               (Some lax_bitwise_or) true axis None keepdims None None
               (Some lax_psum) true e eq_refl Hd).
    reflexivity.
Qed.

(** *** The [initial] value *)

Hypothesis fadd_zero :
  forall d x, is_inexact d = true -> fvalid d x = true ->
    fadd d (f_of_Z d 0) x = x /\ fadd d x (f_of_Z d 0) = x.

Hypothesis fmul_one :
  forall d x, is_inexact d = true -> fvalid d x = true ->
    fmul d (f_of_Z d 1) x = x /\ fmul d x (f_of_Z d 1) = x.

Hypothesis fmax_lowest :
  forall d x, is_floating d = true -> fvalid d x = true ->
    fmax d (float_lowest d) x = x /\ fmax d x (float_lowest d) = x.

Hypothesis fmin_highest :
  forall d x, is_floating d = true -> fvalid d x = true ->
    fmin d (float_highest d) x = x /\ fmin d x (float_highest d) = x.

Lemma has_dtype_int (d : DType) (s : scalar) :
  is_integer d = true -> has_dtype d s = true ->
  exists z, s = SInt z /\ (iinfo_min d <= z <= iinfo_max d)%Z.
Proof.
  intros Hd; destruct s as [b|z|x]; simpl.
  - destruct d; discriminate.
  - rewrite Hd; simpl; intros H; apply andb_true_iff in H; destruct H as [H1 H2].
    apply Z.leb_le in H1; apply Z.leb_le in H2; exists z; split; [reflexivity | lia].
  - destruct d; discriminate.
Qed.

Lemma has_dtype_inexact (d : DType) (s : scalar) :
  is_inexact d = true -> has_dtype d s = true ->
  exists x, s = SFl x /\ fvalid d x = true.
Proof.
  intros Hd; destruct s as [b|z|x]; simpl.
  - destruct d; discriminate.
  - destruct d; discriminate.
  - rewrite Hd; simpl; intros H; exists x; split; [reflexivity | assumption].
Qed.

Lemma wrap_in_range (d : DType) (z : Z) :
  is_integer d = true -> (iinfo_min d <= z <= iinfo_max d)%Z -> wrap d z = z.
Proof.
  intros Hd; unfold wrap, iinfo_min, iinfo_max.
  destruct d; try discriminate; cbn [is_signedinteger is_unsignedinteger iinfo_bits];
    intros H.
  all: try (rewrite Z.mod_small; lia).
Qed.

Lemma dtype_kind (d : DType) :
  is_bool d = true \/ is_integer d = true \/ is_inexact d = true.
Proof. destruct d; simpl; auto. Qed.


Lemma dtype_eqb_bool (d : DType) : dtype_eqb d bool_ = is_bool d.
Proof. destruct d; reflexivity. Qed.

Lemma integer_not_bool (d : DType) : is_integer d = true -> is_bool d = false.
Proof. destruct d; cbn; intros; try discriminate; reflexivity. Qed.

Lemma inexact_not_bool (d : DType) : is_inexact d = true -> is_bool d = false.
Proof. destruct d; cbn; intros; try discriminate; reflexivity. Qed.

Lemma inexact_not_integer (d : DType) : is_inexact d = true -> is_integer d = false.
Proof. destruct d; cbn; intros; try discriminate; reflexivity. Qed.

Lemma floating_is_inexact (d : DType) : is_floating d = true -> is_inexact d = true.
Proof. destruct d; cbn; intros; try discriminate; reflexivity. Qed.

Lemma not_complex_inexact_is_floating (d : DType) :
  is_inexact d = true -> is_complexfloating d = false -> is_floating d = true.
Proof. destruct d; cbn; intros; try discriminate; reflexivity. Qed.

(** The value [_reduction_init_val] computes, by the kind of the dtype. *)
Lemma init_val_bool (ac : Array) (v : pyval) :
  is_bool (dtype ac) = true ->
  item (_reduction_init_val ac v) [] = SBool (py_gt0 v).
Proof.
  intros H; unfold _reduction_init_val; cbn [item scalar_array].
  rewrite dtype_eqb_bool, canonicalize_is_bool, H; reflexivity.
Qed.

Lemma init_val_integer_inf (ac : Array) (neg : bool) :
  canonicalize_dtype (dtype ac) = dtype ac -> is_integer (dtype ac) = true ->
  item (_reduction_init_val ac (PyInf neg)) []
  = SInt (if neg then iinfo_min (dtype ac) else iinfo_max (dtype ac)).
Proof.
  intros Hc H; unfold _reduction_init_val; cbn [item scalar_array].
  rewrite Hc, dtype_eqb_bool, (integer_not_bool _ H).
  assert (Hf : is_floating (dtype ac) = false)
    by (destruct (dtype ac); try discriminate; reflexivity).
  rewrite Hf; cbn [py_isinf andb]; unfold np_array.
  rewrite (integer_not_bool _ H), H; reflexivity.
Qed.

Lemma init_val_floating_inf (ac : Array) (neg : bool) :
  canonicalize_dtype (dtype ac) = dtype ac -> is_floating (dtype ac) = true ->
  item (_reduction_init_val ac (PyInf neg)) []
  = SFl (if neg then float_lowest (dtype ac) else float_highest (dtype ac)).
Proof.
  intros Hc H; unfold _reduction_init_val; cbn [item scalar_array].
  pose proof (floating_is_inexact _ H) as Hi.
  rewrite Hc, dtype_eqb_bool, (inexact_not_bool _ Hi), H.
  unfold float_lowest, float_highest; cbn [py_isinf py_isneginf andb].
  destruct (supports_inf (dtype ac)); cbn [negb].
  - unfold np_array; rewrite (inexact_not_bool _ Hi), (inexact_not_integer _ Hi).
    destruct neg; reflexivity.
  - destruct neg; reflexivity.
Qed.

Lemma init_val_const_int (ac : Array) (z : Z) :
  canonicalize_dtype (dtype ac) = dtype ac -> is_bool (dtype ac) = false ->
  item (_reduction_init_val ac (PyInt z)) [] = const (dtype ac) (PyInt z).
Proof.
  intros Hc H; unfold _reduction_init_val; cbn [item scalar_array py_isinf andb].
  rewrite Hc, dtype_eqb_bool, H, np_array_int; reflexivity.
Qed.

Lemma const_int_integer (d : DType) (z : Z) :
  is_integer d = true -> const d (PyInt z) = SInt (wrap d z).
Proof.
  intros H; unfold const, np_array; rewrite (integer_not_bool _ H), H; reflexivity.
Qed.

Lemma const_int_inexact (d : DType) (z : Z) :
  is_inexact d = true -> const d (PyInt z) = SFl (f_of_Z d z).
Proof.
  intros H; unfold const, np_array.
  rewrite (inexact_not_bool _ H), (inexact_not_integer _ H); reflexivity.
Qed.

Lemma reduction_op_not_bool (op : ReductionOp) (bool_op : option ReductionOp) (cd : DType) :
  is_bool cd = false -> reduction_op op bool_op cd = op.
Proof. intros H; unfold reduction_op; rewrite dtype_eqb_bool, H; reflexivity. Qed.

Lemma reduction_op_bool (op : ReductionOp) (bool_op : option ReductionOp) (cd : DType) :
  is_bool cd = true ->
  reduction_op op bool_op cd = match bool_op with Some b => b | None => op end.
Proof. intros H; unfold reduction_op; rewrite dtype_eqb_bool, H; reflexivity. Qed.

Lemma iinfo_range (d : DType) : is_integer d = true -> (iinfo_min d <= 0 <= iinfo_max d)%Z.
Proof. destruct d; try discriminate; intros _; vm_compute; split; discriminate. Qed.

Lemma sum_identity (cd : DType) :
  backend_identity lax_add (Some lax_bitwise_or) (PyInt 0) cd.
Proof.
  intros ac x Hac Hcan Hx; subst cd.
  destruct (dtype_kind (dtype ac)) as [Hb | [Hi | Hf]].
  - rewrite (init_val_bool _ _ Hb), (reduction_op_bool _ _ _ Hb).
    destruct (has_dtype_bool _ _ Hb Hx) as [b ->]; simpl.
    rewrite orb_false_r; split; reflexivity.
  - rewrite (init_val_const_int _ _ Hcan (integer_not_bool _ Hi)).
    rewrite (reduction_op_not_bool _ _ _ (integer_not_bool _ Hi)).
    rewrite (const_int_integer _ _ Hi), wrap_zero.
    destruct (has_dtype_int _ _ Hi Hx) as [z [-> Hz]]; cbn [lax_add].
    rewrite Z.add_0_l, Z.add_0_r, (wrap_in_range _ _ Hi Hz); split; reflexivity.
  - rewrite (init_val_const_int _ _ Hcan (inexact_not_bool _ Hf)).
    rewrite (reduction_op_not_bool _ _ _ (inexact_not_bool _ Hf)).
    rewrite (const_int_inexact _ _ Hf).
    destruct (has_dtype_inexact _ _ Hf Hx) as [y [-> Hy]]; cbn [lax_add].
    destruct (fadd_zero _ _ Hf Hy) as [-> ->]; split; reflexivity.
Qed.

Lemma wrap_one (d : DType) : is_integer d = true -> wrap d 1 = 1%Z.
Proof. destruct d; try discriminate; reflexivity. Qed.

Lemma prod_identity (cd : DType) :
  backend_identity lax_mul (Some lax_bitwise_and) (PyInt 1) cd.
Proof.
  intros ac x Hac Hcan Hx; subst cd.
  destruct (dtype_kind (dtype ac)) as [Hb | [Hi | Hf]].
  - rewrite (init_val_bool _ _ Hb), (reduction_op_bool _ _ _ Hb).
    destruct (has_dtype_bool _ _ Hb Hx) as [b ->]; simpl.
    rewrite andb_true_r; split; reflexivity.
  - rewrite (init_val_const_int _ _ Hcan (integer_not_bool _ Hi)).
    rewrite (reduction_op_not_bool _ _ _ (integer_not_bool _ Hi)).
    rewrite (const_int_integer _ _ Hi), (wrap_one _ Hi).
    destruct (has_dtype_int _ _ Hi Hx) as [z [-> Hz]]; cbn [lax_mul].
    rewrite Z.mul_1_l, Z.mul_1_r, (wrap_in_range _ _ Hi Hz); split; reflexivity.
  - rewrite (init_val_const_int _ _ Hcan (inexact_not_bool _ Hf)).
    rewrite (reduction_op_not_bool _ _ _ (inexact_not_bool _ Hf)).
    rewrite (const_int_inexact _ _ Hf).
    destruct (has_dtype_inexact _ _ Hf Hx) as [y [-> Hy]]; cbn [lax_mul].
    destruct (fmul_one _ _ Hf Hy) as [-> ->]; split; reflexivity.
Qed.

Lemma max_identity (cd : DType) :
  is_complexfloating cd = false -> backend_identity lax_max None (PyInf true) cd.
Proof.
  intros Hnc ac x Hac Hcan Hx; subst cd.
  destruct (dtype_kind (dtype ac)) as [Hb | [Hi | Hf]].
  - rewrite (init_val_bool _ _ Hb), (reduction_op_bool _ _ _ Hb).
    destruct (has_dtype_bool _ _ Hb Hx) as [b ->]; simpl.
    rewrite orb_false_r; split; reflexivity.
  - rewrite (init_val_integer_inf _ _ Hcan Hi).
    rewrite (reduction_op_not_bool _ _ _ (integer_not_bool _ Hi)).
    destruct (has_dtype_int _ _ Hi Hx) as [z [-> Hz]]; cbn [lax_max].
    rewrite Z.max_r, Z.max_l by lia; split; reflexivity.
  - pose proof (not_complex_inexact_is_floating _ Hf Hnc) as Hfl.
    rewrite (init_val_floating_inf _ _ Hcan Hfl).
    rewrite (reduction_op_not_bool _ _ _ (inexact_not_bool _ Hf)).
    destruct (has_dtype_inexact _ _ Hf Hx) as [y [-> Hy]]; cbn [lax_max].
    destruct (fmax_lowest _ _ Hfl Hy) as [-> ->]; split; reflexivity.
Qed.

Lemma min_identity (cd : DType) :
  is_complexfloating cd = false -> backend_identity lax_min None (PyInf false) cd.
Proof.
  intros Hnc ac x Hac Hcan Hx; subst cd.
  destruct (dtype_kind (dtype ac)) as [Hb | [Hi | Hf]].
  - rewrite (init_val_bool _ _ Hb), (reduction_op_bool _ _ _ Hb).
    destruct (has_dtype_bool _ _ Hb Hx) as [b ->]; simpl.
    rewrite andb_true_r; split; reflexivity.
  - rewrite (init_val_integer_inf _ _ Hcan Hi).
    rewrite (reduction_op_not_bool _ _ _ (integer_not_bool _ Hi)).
    destruct (has_dtype_int _ _ Hi Hx) as [z [-> Hz]]; cbn [lax_min].
    rewrite Z.min_r, Z.min_l by lia; split; reflexivity.
  - pose proof (not_complex_inexact_is_floating _ Hf Hnc) as Hfl.
    rewrite (init_val_floating_inf _ _ Hcan Hfl).
    rewrite (reduction_op_not_bool _ _ _ (inexact_not_bool _ Hf)).
    destruct (has_dtype_inexact _ _ Hf Hx) as [y [-> Hy]]; cbn [lax_min].
    destruct (fmin_highest _ _ Hfl Hy) as [-> ->]; split; reflexivity.
Qed.


Lemma where_dtype_canonical (c : Array) (x y : operand) (r : Array) :
  _where c x y = Ok r -> canonicalize_dtype (dtype r) = dtype r.
Proof.
  unfold _where.
  destruct (broadcast_shapes (operand_shape x) (operand_shape y)); [|discriminate].
  destruct (broadcast_shapes (shape c) l); [|discriminate].
  intros H; inversion H; subst r; cbn [dtype]; apply canonicalize_dtype_idem.
Qed.

(** A non-scalar [initial] is rejected on every path through [_reduction]. *)
Lemma reduction_rejects_nonscalar_initial
    (a : Array) (name : string) (op : ReductionOp) (init_val : pyval)
    (has_identity : bool) (preproc : option (Array -> Array))
    (bool_op : option ReductionOp) (upcast : bool) (axis : Axis)
    (dtype_ : option DType) (out : option Array) (keepdims : bool)
    (ini : Array) (where_ : option Array)
    (pr : option (Array -> list dim -> Array)) (promote : bool) :
  ndim ini <> 0 ->
  is_ok (_reduction a name op init_val has_identity preproc bool_op upcast axis
           dtype_ out keepdims (Some ini) where_ pr promote) = false.
Proof.
  intros Hn; unfold _reduction.
  destruct (is_some out); [reflexivity|].
  cbn [is_none is_some negb andb].
  destruct (_reduction_dims _ axis) as [[pd dims]|e]; cbn [bind]; [|reflexivity].
  match goal with
  | |- is_ok (bind ?m _) = false => destruct m as [aw|e]; cbn [bind]; [|reflexivity]
  end.
  assert (Hs : negb (List.length (shape (convert_element_type ini (dtype aw))) =? 0) = true).
  { cbn [shape convert_element_type]; unfold ndim in Hn.
    destruct (List.length (shape ini)); [contradiction | reflexivity]. }
  destruct (negb (List.length pd =? List.length dims)).
  - destruct pr; cbn [bind]; [|reflexivity]. rewrite Hs; reflexivity.
  - cbn [bind]; rewrite Hs; reflexivity.
Qed.

(** A scalar [initial] is combined with the result of the backend reduce. *)
Lemma reduction_combines_initial
    (a : Array) (name : string) (op : ReductionOp) (init_val : pyval)
    (has_identity : bool) (preproc : option (Array -> Array))
    (bool_op : option ReductionOp) (upcast : bool) (axis : Axis)
    (dtype_ : option DType) (keepdims : bool)
    (ini : Array) (where_ : option Array)
    (pr : option (Array -> list dim -> Array)) (promote : bool) :
  ndim ini = 0 ->
  combines_initial_after_reduce
    (_reduction a name op init_val has_identity preproc bool_op upcast axis
       dtype_ None keepdims (Some ini) where_ pr promote)
    (match preproc with Some f => f a | None => a end)
    op bool_op init_val upcast promote axis dtype_ keepdims ini where_.
Proof.
  intros Hn pd dims aw Hd Hl Hm.
  rewrite (reduction_positional a name op init_val has_identity preproc bool_op upcast
             axis dtype_ keepdims (Some ini) where_ pr promote pd dims
             eq_refl Hd Hl eq_refl).
  rewrite Hm; cbn [bind].
  assert (Hc : canonicalize_dtype (dtype aw) = dtype aw).
  { destruct where_ as [w|].
    - eapply where_dtype_canonical; exact Hm.
    - inversion Hm; subst aw; cbn [dtype convert_element_type].
      apply canonicalize_dtype_idem. }
  clear Hm Hd.
  destruct ini as [di si ii pi]; unfold ndim in Hn; cbn [shape] in Hn.
  destruct si; [clear Hn | discriminate].
  cbn [shape convert_element_type List.length Nat.eqb negb].
  unfold lax_binop at 1 2.
  cbn [dtype shape convert_element_type lax_reduce].
  rewrite !Hc, !dtype_eqb_refl; cbn [negb lax_broadcast_shape].
  eexists; split; [reflexivity|]; split; [|reflexivity].
  intros idx Hin; cbn [item shape].
  f_equal.
  - unfold bread; cbn [shape item convert_element_type].
    match goal with
    | |- context [shape_eqb [] ?s] => destruct (shape_eqb [] s) eqn:He
    end.
    + apply shape_eqb_eq in He; cbn [shape] in Hin; rewrite <- He in Hin.
      inversion Hin; reflexivity.
    + reflexivity.
  - unfold bread; cbn [shape]; rewrite shape_eqb_refl; reflexivity.
Qed.


(** C1. For [sum], [prod], [max] and [min] called with an [initial] value:
    a non-scalar [initial] is rejected; a scalar one is combined by the
    operator with the result of the backend reduce, after it; and the value
    the backend receives as its initial value does not depend on [initial]:
    it is a two-sided identity of the operator at the computation dtype
    (for [max] and [min], at the dtypes that are ordered: not the complex
    ones). *)
Theorem initial_is_combined_after_backend_reduce :
  forall (a : Array) (axis : Axis) (dtype_ : option DType) (keepdims : bool)
         (ini : Array) (where_ : option Array) (promote : bool),
    (ndim ini <> 0 ->
       is_ok (sum a axis dtype_ None keepdims (Some ini) where_ promote) = false
       /\ is_ok (prod a axis dtype_ None keepdims (Some ini) where_ promote) = false
       /\ is_ok (max a axis None keepdims (Some ini) where_) = false
       /\ is_ok (min a axis None keepdims (Some ini) where_) = false)
    /\ (ndim ini = 0 ->
       combines_initial_after_reduce
         (sum a axis dtype_ None keepdims (Some ini) where_ promote)
         (_cast_to_numeric a) lax_add (Some lax_bitwise_or) (PyInt 0) true promote
         (_ensure_optional_axes axis) dtype_ keepdims ini where_
       /\ combines_initial_after_reduce
         (prod a axis dtype_ None keepdims (Some ini) where_ promote)
         (_cast_to_numeric a) lax_mul (Some lax_bitwise_and) (PyInt 1) true promote
         (_ensure_optional_axes axis) dtype_ keepdims ini where_
       /\ combines_initial_after_reduce
         (max a axis None keepdims (Some ini) where_)
         a lax_max None (PyInf true) false false
         (_ensure_optional_axes axis) None keepdims ini where_
       /\ combines_initial_after_reduce
         (min a axis None keepdims (Some ini) where_)
         a lax_min None (PyInf false) false false
         (_ensure_optional_axes axis) None keepdims ini where_)
    /\ (forall cd,
          backend_identity lax_add (Some lax_bitwise_or) (PyInt 0) cd
          /\ backend_identity lax_mul (Some lax_bitwise_and) (PyInt 1) cd
          /\ (is_complexfloating cd = false ->
              backend_identity lax_max None (PyInf true) cd
              /\ backend_identity lax_min None (PyInf false) cd)).
Proof.
  intros a axis dtype_ keepdims ini where_ promote; split; [|split].
  - intros Hn; unfold sum, prod, max, min, _reduce_sum, _reduce_prod, _reduce_max,
      _reduce_min.
    repeat split; apply reduction_rejects_nonscalar_initial; exact Hn.
  - intros Hn; unfold sum, prod, max, min, _reduce_sum, _reduce_prod, _reduce_max,
      _reduce_min.
    repeat split.
    + apply (reduction_combines_initial a "sum" lax_add (PyInt 0) true
               (Some _cast_to_numeric)); exact Hn.
    + apply (reduction_combines_initial a "prod" lax_mul (PyInt 1) true
               (Some _cast_to_numeric)); exact Hn.
    + apply (reduction_combines_initial a "max" lax_max (PyInf true) false None);
        exact Hn.
    + apply (reduction_combines_initial a "min" lax_min (PyInf false) false None);
        exact Hn.
  - intros cd; split; [apply sum_identity|]; split; [apply prod_identity|].
    intros Hc; split; [apply max_identity | apply min_identity]; exact Hc.
Qed.

(** *** The cumulative sum with an initial zero *)

Lemma promote_not_bool (d : DType) : is_bool (_promote_integer_dtype d) = false.
Proof.
  unfold _promote_integer_dtype, int_, uint.
  destruct (default_dtype_bits_32 config); destruct d; reflexivity.
Qed.

Lemma cumulative_sum_rank1 :
  forall (x : Array) (n : nat),
    canonicalize_dtype (dtype x) = dtype x -> shape x = [n] ->
    exists r c,
      cumulative_sum x None None true = Ok r
      /\ cumsum x AxisNone (Some (_promote_integer_dtype (dtype x))) None = Ok c
      /\ dtype r = dtype c /\ shape r = [S n] /\ shape c = [n]
      /\ item r [0] = const (dtype r) (PyInt 0)
      /\ (forall i, item r [S i] = item c [i])
      /\ (_promote_integer_dtype (dtype x) = dtype x \/ is_bool (dtype x) = true ->
          cumsum x AxisNone None None = Ok c).
Proof.
  intros x n Hc Hs.
  assert (Hnd : ndim (asarray x) = 1) by (unfold ndim; cbn; rewrite Hs; reflexivity).
  assert (Hda : dtype (asarray x) = dtype x) by exact Hc.
  assert (Hnr : ndim (ravel x) = 1) by reflexivity.
  assert (Hca : _canonicalize_axis 0 1 = Ok 0) by reflexivity.
  unfold cumulative_sum, cumsum, _cumsum_with_promotion, _make_cumulative_reduction,
    cumulative_input.
  cbn [is_some is_none negb andb orb _ensure_optional_axes _isscalar].
  rewrite Hnd, Hnr; cbn [Nat.eqb Nat.ltb Nat.leb bind].
  rewrite Hca; cbn [bind Z.of_nat].
  assert (Hps : _isscalar (asarray x) = false) by reflexivity.
  rewrite Hps, Hnd, Hca; cbn [bind].
  rewrite Hda, promote_not_bool; cbn [dtype ravel].
  set (D := canonicalize_dtype (_promote_integer_dtype (dtype x))).
  assert (HD : canonicalize_dtype D = D) by apply canonicalize_dtype_idem.
  unfold concatenate, ndim.
  cbn [dtype shape lax_cumsum lax_cumulative convert_element_type full asarray].
  rewrite !HD.
  rewrite Hs; cbn [set_nth firstn skipn app remove_nth nth List.length Nat.ltb Nat.leb
                   Nat.eqb].
  rewrite dtype_eqb_refl; unfold shape_eqb; cbn [andb].
  destruct (list_eq_dec Nat.eq_dec [] []) as [_|Hne]; [|contradiction].
  do 2 eexists; split; [reflexivity|]; split; [reflexivity|].
  cbn [dtype shape item lax_cumsum lax_cumulative convert_element_type ravel size
       fold_right nth Nat.ltb Nat.leb set_nth firstn skipn app Nat.add].
  rewrite Hs; cbn [fold_right].
  rewrite !HD.
  split; [reflexivity|]; split; [reflexivity|].
  split; [unfold size; rewrite Hs; cbn [fold_right]; rewrite Nat.mul_1_r; reflexivity|].
  split; [reflexivity|]; split.
  - intros i; replace (S i - 1) with i by lia.
    assert (Hit : forall k, convert_item (dtype (asarray x)) D (item (asarray x) [k])
                            = convert_item (dtype x) D (item x (unravel [n] (hd 0 [k])))).
    { intros k; rewrite Hda; cbn [item asarray convert_element_type unravel hd fold_right].
      rewrite Hc, convert_item_same, Nat.div_1_r; reflexivity. }
    rewrite Hit; apply fold_left_ext_step; intros acc k; rewrite Hit; reflexivity.
  - intros [Hp | Hb].
    + destruct (is_bool (dtype x)); [reflexivity|].
      unfold D; rewrite Hp; reflexivity.
    + rewrite Hb; reflexivity.
Qed.

Lemma cumulative_sum_rejects_scalar (x : Array) (axis : option Z)
    (dtype_ : option DType) (include_initial : bool) :
  ndim x = 0 ->
  cumulative_sum x axis dtype_ include_initial
  = Raise (ValueError
      "The input must be non-scalar to take a cumulative sum, however a scalar value or scalar array was given.").
Proof.
  intros H; unfold cumulative_sum.
  assert (Hn : ndim (asarray x) = 0) by exact H.
  rewrite Hn; reflexivity.
Qed.

Lemma cumulative_sum_needs_axis (x : Array) (dtype_ : option DType)
    (include_initial : bool) :
  1 < ndim x ->
  cumulative_sum x None dtype_ include_initial
  = Raise (ValueError
      ("The input array has rank " ++ string_of_nat (ndim x)
       ++ ", however axis was not set to an explicit value. The axis argument is only optional for one-dimensional arrays.")%string).
Proof.
  intros H; unfold cumulative_sum.
  assert (Hn : ndim (asarray x) = ndim x) by reflexivity.
  rewrite Hn.
  destruct (ndim x =? 0) eqn:H0; [apply Nat.eqb_eq in H0; lia|].
  apply Nat.ltb_lt in H; rewrite H; reflexivity.
Qed.

(** C8, as amended. For every rank-1 array [x] of canonical dtype,
    [cumulative_sum(x, include_initial=True)] starts with 0 and continues
    with [cumsum] of [x] computed in the integer-promoted dtype of [x]; that
    is [cumsum(x)] itself when the promotion leaves the dtype of [x] as it is,
    and for booleans.  A rank-0 input is rejected, and so is an input of rank
    above 1 when [axis] is [None]. *)
Theorem cumulative_sum_prepends_zero_to_promoted_cumsum :
  forall (x : Array),
    (forall n, canonicalize_dtype (dtype x) = dtype x -> shape x = [n] ->
       exists r c,
         cumulative_sum x None None true = Ok r
         /\ cumsum x AxisNone (Some (_promote_integer_dtype (dtype x))) None = Ok c
         /\ dtype r = dtype c /\ shape r = [S n] /\ shape c = [n]
         /\ item r [0] = const (dtype r) (PyInt 0)
         /\ (forall i, item r [S i] = item c [i])
         /\ (_promote_integer_dtype (dtype x) = dtype x \/ is_bool (dtype x) = true ->
             cumsum x AxisNone None None = Ok c))
    /\ (ndim x = 0 ->
        forall axis dtype_ include_initial,
          cumulative_sum x axis dtype_ include_initial
          = Raise (ValueError
              "The input must be non-scalar to take a cumulative sum, however a scalar value or scalar array was given."))
    /\ (1 < ndim x ->
        forall dtype_ include_initial,
          is_ok (cumulative_sum x None dtype_ include_initial) = false).
Proof.
  intros x; split; [|split].
  - intros n Hc Hs; apply cumulative_sum_rank1; assumption.
  - intros H axis dtype_ inc; apply cumulative_sum_rejects_scalar; exact H.
  - intros H dtype_ inc; rewrite cumulative_sum_needs_axis by exact H; reflexivity.
Qed.

(** *** Reductions without mask and initial value *)

Lemma fold_left_map {A B C : Type} (f : A -> B -> A) (g : C -> B) (l : list C) (x : A) :
  fold_left f (map g l) x = fold_left (fun acc c => f acc (g c)) l x.
Proof. revert x; induction l as [|c l IH]; intros x; [reflexivity|apply IH]. Qed.

Lemma reduce_item (a init : Array) (op : ReductionOp) (pd oidx : list nat) :
  item (lax_reduce a init op pd) oidx
  = fold_left (op (dtype a)) (reduced_slice a pd oidx) (item init []).
Proof. unfold reduced_slice; rewrite fold_left_map; reflexivity. Qed.

Lemma expand_dims_item (r : Array) (keepdims : bool) (pd sh idx : list nat) :
  NoDup pd -> (forall k, In k pd -> k < List.length sh) ->
  shape r = select_dims (dim_flags (List.length sh) pd) sh false ->
  item (if keepdims then lax_expand_dims r pd else r) idx
  = item r (reduce_index keepdims (List.length sh) pd idx).
Proof.
  intros Hnd Hlt Hr; unfold reduce_index; destruct keepdims; [|reflexivity].
  cbn [item lax_expand_dims]; unfold ndim; rewrite Hr.
  pose proof (select_dims_length (dim_flags (List.length sh) pd) sh
                (dim_flags_length _ _)) as Hl.
  rewrite (dim_flags_count _ _ Hnd Hlt) in Hl; rewrite Hl; reflexivity.
Qed.

Lemma reduction_plain
    (a : Array) (name : string) (op : ReductionOp) (init_val : pyval)
    (has_identity : bool) (preproc : option (Array -> Array))
    (bool_op : option ReductionOp) (upcast : bool) (axis : Axis)
    (dtype_ : option DType) (keepdims : bool)
    (pr : option (Array -> list dim -> Array)) (promote : bool)
    (pd : list nat) (dims : list dim) :
  let a1 := match preproc with Some f => f a | None => a end in
  let rd := reduction_result_dtype promote dtype_ a1 in
  let cd := reduction_computation_dtype upcast rd in
  let ac := convert_element_type a1 cd in
  let op' := reduction_op op bool_op cd in
  let init := _reduction_init_val ac init_val in
  _reduction_dims a1 axis = Ok (pd, dims) ->
  List.length pd = List.length dims ->
  (has_identity = false -> forallb (fun d => 1 <=? nth d (shape a1) 0) pd = true) ->
  exists r,
    _reduction a name op init_val has_identity preproc bool_op upcast axis dtype_
      None keepdims None None pr promote = Ok r
    /\ dtype r = canonicalize_dtype (match dtype_ with Some d => d | None => rd end)
    /\ shape r = reduced_shape keepdims pd (shape a1)
    /\ forall idx,
         item r idx
         = convert_item (dtype ac) (dtype r)
             (fold_left (op' (dtype ac))
                (reduced_slice ac pd (reduce_index keepdims (ndim a1) pd idx))
                (item init [])).
Proof.
  intros a1 rd cd ac op' init Hd Hl Hz.
  destruct (reduction_dims_positions _ _ _ _ Hd) as [Hnd Hlt].
  rewrite (reduction_positional a name op init_val has_identity preproc bool_op upcast
             axis dtype_ keepdims None None pr promote pd dims);
    [ | cbn; rewrite andb_false_r; reflexivity | exact Hd | exact Hl | ].
  - cbn [bind]; eexists; split; [reflexivity|].
    fold a1 rd cd ac op' init.
    split; [reflexivity|]; split.
    + cbn [shape convert_element_type].
      apply reduced_result_shape; [exact Hnd | exact Hlt | reflexivity].
    + intros idx; cbn [item dtype convert_element_type].
      rewrite (expand_dims_item (lax_reduce ac init op' pd) keepdims pd (shape a1) idx Hnd Hlt eq_refl).
      rewrite reduce_item.
      replace (dtype (if keepdims then lax_expand_dims (lax_reduce ac init op' pd) pd
                      else lax_reduce ac init op' pd)) with (dtype ac)
        by (destruct keepdims; reflexivity).
      reflexivity.
  - fold a1; cbn [is_none is_some negb andb].
    destruct has_identity; [reflexivity|].
    rewrite (Hz eq_refl); reflexivity.
Qed.

Lemma reduced_slice_map (a b : Array) (g : scalar -> scalar) (pd oidx : list nat) :
  shape b = shape a -> (forall i, item b i = g (item a i)) ->
  reduced_slice b pd oidx = map g (reduced_slice a pd oidx).
Proof.
  intros Hs Hi; unfold reduced_slice, ndim; rewrite Hs, map_map.
  apply map_ext; intros i; apply Hi.
Qed.

Lemma reduced_slice_In (a : Array) (pd oidx : list nat) (s : scalar) :
  In s (reduced_slice a pd oidx) -> exists i, s = item a i.
Proof.
  unfold reduced_slice; intros H; apply in_map_iff in H.
  destruct H as [i [H _]]; eauto.
Qed.

Lemma fold_bool_and (g : scalar -> scalar) (l : list scalar) (b0 : bool) :
  (forall s, In s l -> g s = SBool (truthy s)) ->
  fold_left (lax_bitwise_and bool_) (map g l) (SBool b0)
  = SBool (b0 && forallb truthy l).
Proof.
  revert b0; induction l as [|s l IH]; intros b0 Hg; cbn [map fold_left forallb].
  - rewrite andb_true_r; reflexivity.
  - rewrite (Hg s (or_introl eq_refl)); cbn [lax_bitwise_and].
    rewrite IH by (intros; apply Hg; right; assumption).
    rewrite andb_assoc; reflexivity.
Qed.

Lemma fold_bool_or (g : scalar -> scalar) (l : list scalar) (b0 : bool) :
  (forall s, In s l -> g s = SBool (truthy s)) ->
  fold_left (lax_bitwise_or bool_) (map g l) (SBool b0)
  = SBool (b0 || existsb truthy l).
Proof.
  revert b0; induction l as [|s l IH]; intros b0 Hg; cbn [map fold_left existsb].
  - rewrite orb_false_r; reflexivity.
  - rewrite (Hg s (or_introl eq_refl)); cbn [lax_bitwise_or].
    rewrite IH by (intros; apply Hg; right; assumption).
    rewrite orb_assoc; reflexivity.
Qed.

Lemma cast_to_bool_item (d : DType) (s : scalar) :
  has_dtype d s = true -> convert_item d bool_ s = SBool (truthy s).
Proof.
  intros H; unfold convert_item, dtype_eqb.
  destruct (dtype_eq_dec d bool_) as [->|_]; [|reflexivity].
  destruct (has_dtype_bool bool_ s eq_refl H) as [b ->]; reflexivity.
Qed.

Lemma truth_reduction
    (name : string) (op : ReductionOp) (v : bool)
    (a : Array) (axis : Axis) (keepdims : bool) (pd : list nat) (dims : list dim) :
  (forall idx, has_dtype (dtype a) (item a idx) = true) ->
  axis_is_positional axis = true ->
  _reduction_dims a axis = Ok (pd, dims) ->
  exists r,
    _reduction a name op (PyBool v) true (Some _cast_to_bool) None false
      (_ensure_optional_axes axis) None None keepdims None None None false = Ok r
    /\ dtype r = bool_
    /\ shape r = reduced_shape keepdims pd (shape a)
    /\ forall idx,
         item r idx
         = fold_left (op bool_)
             (map (fun s => SBool (truthy s))
                (reduced_slice a pd (reduce_index keepdims (ndim a) pd idx)))
             (SBool v).
Proof.
  intros Hv Hp Hd.
  rewrite (ensure_optional_axes_positional _ Hp).
  pose proof (reduction_dims_positional _ _ _ _ Hp Hd) as Hl.
  assert (Hd' : _reduction_dims (_cast_to_bool a) axis = Ok (pd, dims))
    by (rewrite <- Hd; apply reduction_dims_ndim; reflexivity).
  destruct (reduction_plain a name op (PyBool v) true (Some _cast_to_bool) None false
              axis None keepdims None false pd dims Hd' Hl)
    as (r & Hr & Hdt & Hsh & Hit); [discriminate|].
  assert (Hrd : reduction_result_dtype false None (_cast_to_bool a) = bool_).
  { unfold reduction_result_dtype; cbn [is_none is_some negb andb dtype _cast_to_bool
                                         convert_element_type].
    rewrite !canonicalize_bool; reflexivity. }
  exists r; split; [exact Hr|].
  rewrite Hrd in Hdt, Hit; cbn [reduction_computation_dtype andb] in Hit.
  rewrite canonicalize_bool in Hdt.
  split; [exact Hdt|]; split; [exact Hsh|].
  intros idx; rewrite Hit, Hdt.
  cbn [dtype convert_element_type]; rewrite canonicalize_bool, convert_item_same.
  rewrite (reduction_op_bool op None bool_ eq_refl).
  rewrite init_val_bool by (cbn [dtype convert_element_type]; rewrite canonicalize_bool; reflexivity).
  replace (ndim (_cast_to_bool a)) with (ndim a) by reflexivity.
  f_equal.
  rewrite (reduced_slice_map a _ (fun s => convert_item bool_ bool_ (convert_item (dtype a) bool_ s)));
    [ | reflexivity | ].
  - unfold reduced_slice; rewrite !map_map; apply map_ext; intros i.
    rewrite convert_item_same; apply cast_to_bool_item, Hv.
  - intros i; cbn [item dtype convert_element_type _cast_to_bool].
    rewrite !canonicalize_bool; reflexivity.
Qed.

(** X1. On a valid array and positional axes that are in range and distinct,
    [all] and [any] succeed with a boolean result of the reduced shape, whose
    element at every index is the conjunction, respectively the disjunction,
    of the truth values of the reduced slice; on an empty slice [all] is
    [True] and [any] is [False]. *)
Theorem all_any_of_reduced_slice :
  forall (a : Array) (axis : Axis) (keepdims : bool) (pd : list nat) (dims : list dim),
    valid_array a ->
    axis_is_positional axis = true ->
    _reduction_dims a axis = Ok (pd, dims) ->
    exists r_all r_any,
      all a axis None keepdims None = Ok r_all
      /\ any a axis None keepdims None = Ok r_any
      /\ dtype r_all = bool_ /\ dtype r_any = bool_
      /\ shape r_all = reduced_shape keepdims pd (shape a)
      /\ shape r_any = reduced_shape keepdims pd (shape a)
      /\ forall idx,
           let slice := reduced_slice a pd (reduce_index keepdims (ndim a) pd idx) in
           item r_all idx = SBool (forallb truthy slice)
           /\ item r_any idx = SBool (existsb truthy slice).
Proof.
  intros a axis keepdims pd dims [_ Hv] Hp Hd.
  destruct (truth_reduction "all" lax_bitwise_and true a axis keepdims pd dims Hv Hp Hd)
    as (r1 & Hr1 & Hd1 & Hs1 & Hi1).
  destruct (truth_reduction "any" lax_bitwise_or false a axis keepdims pd dims Hv Hp Hd)
    as (r2 & Hr2 & Hd2 & Hs2 & Hi2).
  exists r1, r2; unfold all, _reduce_all, any, _reduce_any.
  do 6 (split; [assumption|]).
  intros idx; cbv zeta; rewrite Hi1, Hi2; split.
  - apply (fold_bool_and (fun s => SBool (truthy s)) _ true); reflexivity.
  - apply (fold_bool_or (fun s => SBool (truthy s)) _ false); reflexivity.
Qed.

(** *** Integer arithmetic modulo the width of the dtype *)

Lemma iinfo_bits_nonneg (d : DType) : (0 <= iinfo_bits d)%Z.
Proof. destruct d; cbn; lia. Qed.

Lemma wrap_mod (d : DType) (x : Z) :
  is_integer d = true -> (wrap d x mod 2 ^ iinfo_bits d = x mod 2 ^ iinfo_bits d)%Z.
Proof.
  intros Hi; unfold wrap.
  pose proof (Z.pow_pos_nonneg 2 (iinfo_bits d) ltac:(lia) (iinfo_bits_nonneg d)) as HM.
  destruct (is_signedinteger d) eqn:Hs.
  - rewrite Zminus_mod_idemp_l; f_equal; lia.
  - unfold is_integer in Hi; rewrite Hs, orb_false_r in Hi; rewrite Hi.
    apply Z.mod_mod; lia.
Qed.

Lemma wrap_of_mod (d : DType) (x y : Z) :
  is_integer d = true ->
  (x mod 2 ^ iinfo_bits d = y mod 2 ^ iinfo_bits d)%Z -> wrap d x = wrap d y.
Proof.
  intros Hi H; unfold wrap.
  pose proof (Z.pow_pos_nonneg 2 (iinfo_bits d) ltac:(lia) (iinfo_bits_nonneg d)) as HM.
  destruct (is_signedinteger d) eqn:Hs.
  - f_equal.
    rewrite <- (Z.add_mod_idemp_l x), <- (Z.add_mod_idemp_l y), H by lia.
    reflexivity.
  - unfold is_integer in Hi; rewrite Hs, orb_false_r in Hi; rewrite Hi; exact H.
Qed.

Lemma wrap_add_cong (d : DType) (x x' y y' : Z) :
  is_integer d = true -> wrap d x = wrap d x' -> wrap d y = wrap d y' ->
  wrap d (x + y) = wrap d (x' + y').
Proof.
  intros Hi Hx Hy; apply wrap_of_mod; [exact Hi|].
  pose proof (Z.pow_pos_nonneg 2 (iinfo_bits d) ltac:(lia) (iinfo_bits_nonneg d)) as HM.
  rewrite (Z.add_mod x), (Z.add_mod x') by lia.
  rewrite <- (wrap_mod d x Hi), <- (wrap_mod d y Hi), Hx, Hy, !wrap_mod by exact Hi.
  reflexivity.
Qed.

Lemma wrap_mul_cong (d : DType) (x x' y y' : Z) :
  is_integer d = true -> wrap d x = wrap d x' -> wrap d y = wrap d y' ->
  wrap d (x * y) = wrap d (x' * y').
Proof.
  intros Hi Hx Hy; apply wrap_of_mod; [exact Hi|].
  pose proof (Z.pow_pos_nonneg 2 (iinfo_bits d) ltac:(lia) (iinfo_bits_nonneg d)) as HM.
  rewrite (Z.mul_mod x), (Z.mul_mod x') by lia.
  rewrite <- (wrap_mod d x Hi), <- (wrap_mod d y Hi), Hx, Hy, !wrap_mod by exact Hi.
  reflexivity.
Qed.

Lemma wrap_idem (d : DType) (x : Z) :
  is_integer d = true -> wrap d (wrap d x) = wrap d x.
Proof. intros Hi; apply wrap_of_mod; [exact Hi | apply wrap_mod, Hi]. Qed.

(** The accumulation of a list of integer elements, each known up to the
    wrap-around, is the wrapped total (product). *)
Lemma fold_int_add (d : DType) (g : scalar -> scalar) (l : list scalar) (t : Z) :
  is_integer d = true ->
  (forall s, In s l -> exists z, g s = SInt z /\ wrap d z = wrap d (s_to_Z s)) ->
  fold_left (lax_add d) (map g l) (SInt (wrap d t)) = SInt (wrap d (t + int_total l)).
Proof.
  intros Hi; revert t; induction l as [|s l IH]; intros t Hg.
  - unfold int_total; cbn; rewrite Z.add_0_r; reflexivity.
  - destruct (Hg s (or_introl eq_refl)) as [z [Hz Hw]].
    cbn [map fold_left]; rewrite Hz; cbn [lax_add].
    rewrite (wrap_add_cong d (wrap d t) t z (s_to_Z s) Hi (wrap_idem d t Hi) Hw).
    rewrite IH by (intros; apply Hg; right; assumption).
    unfold int_total; cbn [map fold_right]; f_equal; f_equal; lia.
Qed.

Lemma fold_int_mul (d : DType) (g : scalar -> scalar) (l : list scalar) (t : Z) :
  is_integer d = true ->
  (forall s, In s l -> exists z, g s = SInt z /\ wrap d z = wrap d (s_to_Z s)) ->
  fold_left (lax_mul d) (map g l) (SInt (wrap d t)) = SInt (wrap d (t * int_product l)).
Proof.
  intros Hi; revert t; induction l as [|s l IH]; intros t Hg.
  - unfold int_product; cbn; rewrite Z.mul_1_r; reflexivity.
  - destruct (Hg s (or_introl eq_refl)) as [z [Hz Hw]].
    cbn [map fold_left]; rewrite Hz; cbn [lax_mul].
    rewrite (wrap_mul_cong d (wrap d t) t z (s_to_Z s) Hi (wrap_idem d t Hi) Hw).
    rewrite IH by (intros; apply Hg; right; assumption).
    unfold int_product; cbn [map fold_right]; f_equal; f_equal; lia.
Qed.

Lemma convert_int_item (d1 cd : DType) (z : Z) :
  is_integer cd = true ->
  exists z', convert_item d1 cd (SInt z) = SInt z' /\ wrap cd z' = wrap cd z.
Proof.
  intros Hi; unfold convert_item; destruct (dtype_eqb d1 cd).
  - exists z; split; reflexivity.
  - unfold cvt; rewrite (integer_not_bool _ Hi), Hi.
    exists (wrap cd z); split; [reflexivity | apply wrap_idem, Hi].
Qed.

Lemma numeric_item (d cd : DType) (s : scalar) :
  is_bool d || is_integer d = true -> has_dtype d s = true -> is_integer cd = true ->
  exists z,
    convert_item (weak_result d (PyInt 0)) cd
      (convert_item d (weak_result d (PyInt 0)) s) = SInt z
    /\ wrap cd z = wrap cd (s_to_Z s).
Proof.
  intros Hk Hs Hi; destruct (is_bool d) eqn:Hb.
  - destruct (has_dtype_bool d s Hb Hs) as [b ->].
    unfold weak_result; rewrite Hb.
    assert (Hc : convert_item d default_int (SBool b) = SInt (if b then 1 else 0)%Z).
    { unfold convert_item, dtype_eqb.
      destruct (dtype_eq_dec d default_int) as [E|_].
      - rewrite E, default_int_not_bool in Hb; discriminate.
      - unfold cvt; rewrite default_int_not_bool.
        unfold is_integer; rewrite default_int_signed, orb_true_r; reflexivity. }
    rewrite Hc; apply convert_int_item, Hi.
  - cbn [orb] in Hk; destruct (has_dtype_int d s Hk Hs) as [z [-> _]].
    unfold weak_result; rewrite Hb, convert_item_same.
    apply convert_int_item, Hi.
Qed.

Lemma numeric_result_dtype (d : DType) :
  is_bool d || is_integer d = true ->
  reduction_result_dtype true None
    {| dtype := weak_result d (PyInt 0); shape := []; item := fun _ => SBool true;
       py_scalar := false |}
  = canonicalize_dtype (_promote_integer_dtype d)
  /\ is_integer (canonicalize_dtype (_promote_integer_dtype d)) = true.
Proof.
  unfold reduction_result_dtype; cbn [is_none is_some negb andb dtype].
  policy_cases d; cbn; intros H; try discriminate H; split; reflexivity.
Qed.

Lemma numeric_reduction
    (name : string) (op : ReductionOp) (bool_op : ReductionOp) (z0 : Z)
    (total : list scalar -> Z)
    (pr : option (Array -> list dim -> Array))
    (a : Array) (axis : Axis) (keepdims : bool) (pd : list nat) (dims : list dim) :
  (forall d g l, is_integer d = true ->
     (forall s, In s l -> exists z, g s = SInt z /\ wrap d z = wrap d (s_to_Z s)) ->
     fold_left (op d) (map g l) (SInt (wrap d z0)) = SInt (wrap d (total l))) ->
  valid_array a ->
  is_bool (dtype a) || is_integer (dtype a) = true ->
  axis_is_positional axis = true ->
  _reduction_dims a axis = Ok (pd, dims) ->
  exists r,
    _reduction a name op (PyInt z0) true (Some _cast_to_numeric) (Some bool_op) true
      (_ensure_optional_axes axis) None None keepdims None None pr true = Ok r
    /\ dtype r = canonicalize_dtype (_promote_integer_dtype (dtype a))
    /\ shape r = reduced_shape keepdims pd (shape a)
    /\ forall idx,
         item r idx
         = SInt (wrap (dtype r)
                   (total (reduced_slice a pd (reduce_index keepdims (ndim a) pd idx)))).
Proof.
  intros Hfold [Hcan Hv] Hk Hp Hd.
  rewrite (ensure_optional_axes_positional _ Hp).
  pose proof (reduction_dims_positional _ _ _ _ Hp Hd) as Hl.
  assert (Hd' : _reduction_dims (_cast_to_numeric a) axis = Ok (pd, dims)).
  { rewrite <- Hd; apply reduction_dims_ndim; unfold ndim.
    rewrite shape_cast_to_numeric; reflexivity. }
  destruct (reduction_plain a name op (PyInt z0) true (Some _cast_to_numeric)
              (Some bool_op) true axis None keepdims pr true pd dims Hd' Hl)
    as (r & Hr & Hdt & Hsh & Hit); [discriminate|].
  destruct (numeric_result_dtype (dtype a) Hk) as [Hrd HiD].
  assert (Hrd' : reduction_result_dtype true None (_cast_to_numeric a)
                 = canonicalize_dtype (_promote_integer_dtype (dtype a))).
  { rewrite <- Hrd; unfold reduction_result_dtype; cbn [is_none is_some negb andb dtype].
    rewrite dtype_cast_to_numeric; reflexivity. }
  set (D := canonicalize_dtype (_promote_integer_dtype (dtype a))) in *.
  assert (HcD : canonicalize_dtype D = D) by apply canonicalize_dtype_idem.
  assert (Hcd : reduction_computation_dtype true D = D).
  { unfold reduction_computation_dtype.
    destruct (is_inexact D) eqn:E; [|reflexivity].
    rewrite (inexact_not_integer _ E) in HiD; discriminate. }
  rewrite Hrd', HcD in Hdt; rewrite Hrd', Hcd in Hit.
  exists r; split; [exact Hr|]; split; [exact Hdt|]; split.
  - rewrite Hsh, shape_cast_to_numeric; reflexivity.
  - intros idx; rewrite Hit, Hdt.
    cbn [dtype convert_element_type]; rewrite HcD, convert_item_same.
    rewrite (reduction_op_not_bool op (Some bool_op) D (integer_not_bool _ HiD)).
    rewrite init_val_const_int;
      [ | cbn [dtype convert_element_type]; rewrite HcD; exact HcD
        | cbn [dtype convert_element_type]; rewrite HcD; apply integer_not_bool, HiD ].
    cbn [dtype convert_element_type]; rewrite HcD, (const_int_integer D z0 HiD).
    replace (ndim (_cast_to_numeric a)) with (ndim a)
      by (unfold ndim; rewrite shape_cast_to_numeric; reflexivity).
    rewrite (reduced_slice_map a _
               (fun s => convert_item (weak_result (dtype a) (PyInt 0)) D
                           (convert_item (dtype a) (weak_result (dtype a) (PyInt 0)) s))).
    + apply Hfold; [exact HiD|].
      intros s Hs; destruct (reduced_slice_In _ _ _ _ Hs) as [i ->].
      apply numeric_item; [exact Hk | apply Hv | exact HiD].
    + cbn [shape convert_element_type]; apply shape_cast_to_numeric.
    + intros i; cbn [item dtype convert_element_type].
      rewrite dtype_cast_to_numeric, item_cast_to_numeric, HcD; reflexivity.
Qed.

(** X2. On a valid boolean or integer array and positional axes that are in
    range and distinct, [sum] and [prod] succeed in the promoted integer
    dtype, and the element at every index is the exact integer total,
    respectively product, of the reduced slice (booleans counting 0 and 1),
    wrapped around at the width of that dtype: an overflow is never an error
    and never saturates. *)
Theorem integer_sum_and_prod_wrap_around :
  forall (a : Array) (axis : Axis) (keepdims : bool) (pd : list nat) (dims : list dim),
    valid_array a ->
    is_bool (dtype a) || is_integer (dtype a) = true ->
    axis_is_positional axis = true ->
    _reduction_dims a axis = Ok (pd, dims) ->
    exists s p,
      sum a axis None None keepdims None None true = Ok s
      /\ prod a axis None None keepdims None None true = Ok p
      /\ dtype s = canonicalize_dtype (_promote_integer_dtype (dtype a))
      /\ dtype p = canonicalize_dtype (_promote_integer_dtype (dtype a))
      /\ shape s = reduced_shape keepdims pd (shape a)
      /\ shape p = reduced_shape keepdims pd (shape a)
      /\ forall idx,
           let slice := reduced_slice a pd (reduce_index keepdims (ndim a) pd idx) in
           item s idx = SInt (wrap (dtype s) (int_total slice))
           /\ item p idx = SInt (wrap (dtype p) (int_product slice)).
Proof.
  intros a axis keepdims pd dims Hv Hk Hp Hd.
  destruct (numeric_reduction "sum" lax_add lax_bitwise_or 0 int_total (Some lax_psum)
              a axis keepdims pd dims) as (s & Hs & Hds & Hss & His); try assumption.
  { intros d g l Hi Hg; rewrite (fold_int_add d g l 0 Hi Hg); reflexivity. }
  destruct (numeric_reduction "prod" lax_mul lax_bitwise_and 1 int_product None
              a axis keepdims pd dims) as (p & Hp' & Hdp & Hsp & Hip); try assumption.
  { intros d g l Hi Hg; rewrite (fold_int_mul d g l 1 Hi Hg).
    rewrite Z.mul_1_l; reflexivity. }
  exists s, p; unfold sum, _reduce_sum, prod, _reduce_prod.
  do 6 (split; [assumption|]).
  intros idx; cbv zeta; split; [apply His | apply Hip].
Qed.

(** *** Integer extrema *)

Lemma select_dims_flagged (f : nat -> bool) (l : list nat) (s : nat) (x : nat) :
  In x (select_dims (map f (seq s (List.length l))) l true) ->
  exists k, f (s + k) = true /\ k < List.length l /\ x = nth k l 0.
Proof.
  revert s; induction l as [|n l IH]; intros s H; [contradiction|].
  cbn [List.length seq map select_dims] in H.
  destruct (f s) eqn:E; cbn [Bool.eqb] in H.
  - destruct H as [<-|H].
    + exists 0; rewrite Nat.add_0_r; cbn; repeat split; [exact E | lia].
    + destruct (IH _ H) as (k & Hk & Hlt & ->).
      exists (S k); rewrite Nat.add_succ_r; cbn; repeat split; [exact Hk | lia].
  - destruct (IH _ H) as (k & Hk & Hlt & ->).
    exists (S k); rewrite Nat.add_succ_r; cbn; repeat split; [exact Hk | lia].
Qed.

Lemma indices_nonempty (sh : list nat) :
  (forall n, In n sh -> 1 <= n) -> indices sh <> [].
Proof.
  induction sh as [|n sh IH]; intros H; [discriminate|].
  cbn [indices].
  assert (Hn : 1 <= n) by (apply H; left; reflexivity).
  destruct n as [|n]; [lia|].
  cbn [seq flat_map].
  destruct (indices sh) as [|i r] eqn:E.
  - exfalso; apply IH; [intros; apply H; right; assumption | reflexivity].
  - discriminate.
Qed.

Lemma reduced_slice_nonempty (a : Array) (pd oidx : list nat) :
  (forall d, In d pd -> 1 <= nth d (shape a) 0) -> reduced_slice a pd oidx <> [].
Proof.
  intros H; unfold reduced_slice.
  assert (Hi : indices (select_dims (dim_flags (ndim a) pd) (shape a) true) <> []).
  { apply indices_nonempty; intros n Hn; unfold dim_flags, ndim in Hn.
    destruct (select_dims_flagged _ _ _ _ Hn) as (k & Hk & _ & ->).
    apply H, mem_nat_In; exact Hk. }
  destruct (indices _); [contradiction | discriminate].
Qed.

Lemma fold_int_max_from (d : DType) (l : list scalar) (u : Z) :
  (forall s, In s l -> exists z, s = SInt z) ->
  exists m, fold_left (lax_max d) l (SInt u) = SInt m
            /\ (u <= m)%Z /\ (m = u \/ In (SInt m) l)
            /\ forall z, In (SInt z) l -> (z <= m)%Z.
Proof.
  revert u; induction l as [|s l IH]; intros u H.
  - exists u; cbn; repeat split; [lia | left; reflexivity | contradiction].
  - destruct (H s (or_introl eq_refl)) as [z ->].
    cbn [fold_left lax_max].
    destruct (IH (Z.max u z)) as (m & Hm & Hum & Hor & Hub);
      [intros; apply H; right; assumption|].
    exists m; repeat split; [exact Hm | lia | | ].
    + destruct Hor as [->|Hi]; [|right; right; exact Hi].
      destruct (Z.max_spec u z) as [[_ ->]|[_ ->]];
        [right; left; reflexivity | left; reflexivity].
    + intros z' [E|Hz']; [injection E as <-; lia | apply Hub, Hz'].
Qed.

Lemma fold_int_min_from (d : DType) (l : list scalar) (u : Z) :
  (forall s, In s l -> exists z, s = SInt z) ->
  exists m, fold_left (lax_min d) l (SInt u) = SInt m
            /\ (m <= u)%Z /\ (m = u \/ In (SInt m) l)
            /\ forall z, In (SInt z) l -> (m <= z)%Z.
Proof.
  revert u; induction l as [|s l IH]; intros u H.
  - exists u; cbn; repeat split; [lia | left; reflexivity | contradiction].
  - destruct (H s (or_introl eq_refl)) as [z ->].
    cbn [fold_left lax_min].
    destruct (IH (Z.min u z)) as (m & Hm & Hum & Hor & Hub);
      [intros; apply H; right; assumption|].
    exists m; repeat split; [exact Hm | lia | | ].
    + destruct Hor as [->|Hi]; [|right; right; exact Hi].
      destruct (Z.min_spec u z) as [[_ ->]|[_ ->]];
        [left; reflexivity | right; left; reflexivity].
    + intros z' [E|Hz']; [injection E as <-; lia | apply Hub, Hz'].
Qed.

Lemma fold_int_maximum (d : DType) (l : list scalar) :
  l <> [] ->
  (forall s, In s l -> exists z, s = SInt z /\ (iinfo_min d <= z <= iinfo_max d)%Z) ->
  exists m, fold_left (lax_max d) l (SInt (iinfo_min d)) = SInt m /\ is_int_maximum m l.
Proof.
  intros Hne H.
  destruct (fold_int_max_from d l (iinfo_min d)) as (m & Hm & Hum & Hor & Hub).
  { intros s Hs; destruct (H s Hs) as [z [-> _]]; eauto. }
  exists m; split; [exact Hm|]; split; [|exact Hub].
  destruct Hor as [->|Hi]; [|exact Hi].
  destruct l as [|s l]; [contradiction|].
  destruct (H s (or_introl eq_refl)) as [z [-> Hz]].
  pose proof (Hub z (or_introl eq_refl)).
  assert (z = iinfo_min d) by lia; subst z; left; reflexivity.
Qed.

Lemma fold_int_minimum (d : DType) (l : list scalar) :
  l <> [] ->
  (forall s, In s l -> exists z, s = SInt z /\ (iinfo_min d <= z <= iinfo_max d)%Z) ->
  exists m, fold_left (lax_min d) l (SInt (iinfo_max d)) = SInt m /\ is_int_minimum m l.
Proof.
  intros Hne H.
  destruct (fold_int_min_from d l (iinfo_max d)) as (m & Hm & Hum & Hor & Hub).
  { intros s Hs; destruct (H s Hs) as [z [-> _]]; eauto. }
  exists m; split; [exact Hm|]; split; [|exact Hub].
  destruct Hor as [->|Hi]; [|exact Hi].
  destruct l as [|s l]; [contradiction|].
  destruct (H s (or_introl eq_refl)) as [z [-> Hz]].
  pose proof (Hub z (or_introl eq_refl)).
  assert (z = iinfo_max d) by lia; subst z; left; reflexivity.
Qed.

Lemma integer_extremum
    (name : string) (op : ReductionOp) (neg : bool) (P : Z -> list scalar -> Prop)
    (pr : option (Array -> list dim -> Array))
    (a : Array) (axis : Axis) (keepdims : bool) (pd : list nat) (dims : list dim) :
  (forall d l, l <> [] ->
     (forall s, In s l -> exists z, s = SInt z /\ (iinfo_min d <= z <= iinfo_max d)%Z) ->
     exists m, fold_left (op d) l (SInt (if neg then iinfo_min d else iinfo_max d))
               = SInt m /\ P m l) ->
  valid_array a ->
  is_integer (dtype a) = true ->
  axis_is_positional axis = true ->
  _reduction_dims a axis = Ok (pd, dims) ->
  (forall d, In d pd -> 1 <= nth d (shape a) 0) ->
  exists r,
    _reduction a name op (PyInf neg) false None None false
      (_ensure_optional_axes axis) None None keepdims None None pr false = Ok r
    /\ dtype r = dtype a
    /\ shape r = reduced_shape keepdims pd (shape a)
    /\ forall idx,
         exists m, item r idx = SInt m
                   /\ P m (reduced_slice a pd (reduce_index keepdims (ndim a) pd idx)).
Proof.
  intros Hfold [Hcan Hv] Hi Hp Hd Hne.
  rewrite (ensure_optional_axes_positional _ Hp).
  pose proof (reduction_dims_positional _ _ _ _ Hp Hd) as Hl.
  destruct (reduction_plain a name op (PyInf neg) false None None false axis None
              keepdims pr false pd dims Hd Hl)
    as (r & Hr & Hdt & Hsh & Hit).
  { intros _; apply forallb_forall; intros d Hin; apply Nat.leb_le, Hne, Hin. }
  assert (Hrd : reduction_result_dtype false None a = dtype a)
    by (unfold reduction_result_dtype; cbn [is_none is_some negb andb]; exact Hcan).
  rewrite Hrd, Hcan in Hdt; rewrite Hrd in Hit.
  cbn [reduction_computation_dtype andb] in Hit.
  exists r; split; [exact Hr|]; split; [exact Hdt|]; split; [exact Hsh|].
  intros idx; rewrite Hit, Hdt.
  cbn [dtype convert_element_type]; rewrite Hcan, convert_item_same.
  rewrite (reduction_op_not_bool op None (dtype a) (integer_not_bool _ Hi)).
  rewrite init_val_integer_inf;
    [ | cbn [dtype convert_element_type]; rewrite Hcan; exact Hcan
      | cbn [dtype convert_element_type]; rewrite Hcan; exact Hi ].
  cbn [dtype convert_element_type]; rewrite Hcan.
  rewrite (reduced_slice_map a _ (fun s => s));
    [ | reflexivity
      | intros i; cbn [item dtype convert_element_type];
        rewrite Hcan; apply convert_item_same ].
  rewrite map_id.
  apply Hfold; [apply reduced_slice_nonempty, Hne|].
  intros s Hs; destruct (reduced_slice_In _ _ _ _ Hs) as [i ->].
  apply has_dtype_int; [exact Hi | apply Hv].
Qed.

(** X3. On a valid integer array and positional axes that are in range,
    distinct and of size at least 1, [max] and [min] succeed in the dtype of
    the input, and the element at every index is the greatest, respectively
    the least, element of the reduced slice: the infinite identity of the
    backend reduce, saturated to the bounds of the integer dtype, never
    shows in the result. *)
Theorem integer_max_min_of_reduced_slice :
  forall (a : Array) (axis : Axis) (keepdims : bool) (pd : list nat) (dims : list dim),
    valid_array a ->
    is_integer (dtype a) = true ->
    axis_is_positional axis = true ->
    _reduction_dims a axis = Ok (pd, dims) ->
    (forall d, In d pd -> 1 <= nth d (shape a) 0) ->
    exists hi lo,
      max a axis None keepdims None None = Ok hi
      /\ min a axis None keepdims None None = Ok lo
      /\ dtype hi = dtype a /\ dtype lo = dtype a
      /\ shape hi = reduced_shape keepdims pd (shape a)
      /\ shape lo = reduced_shape keepdims pd (shape a)
      /\ forall idx,
           let slice := reduced_slice a pd (reduce_index keepdims (ndim a) pd idx) in
           exists m n,
             item hi idx = SInt m /\ is_int_maximum m slice
             /\ item lo idx = SInt n /\ is_int_minimum n slice.
Proof.
  intros a axis keepdims pd dims Hv Hi Hp Hd Hne.
  destruct (integer_extremum "max" lax_max true is_int_maximum (Some lax_pmax)
              a axis keepdims pd dims) as (hi & Hhi & Hdh & Hsh & Hih); try assumption.
  { intros d l; apply fold_int_maximum. }
  destruct (integer_extremum "min" lax_min false is_int_minimum (Some lax_pmin)
              a axis keepdims pd dims) as (lo & Hlo & Hdl & Hsl & Hil); try assumption.
  { intros d l; apply fold_int_minimum. }
  exists hi, lo; unfold max, _reduce_max, min, _reduce_min.
  do 6 (split; [assumption|]).
  intros idx; cbv zeta.
  destruct (Hih idx) as (m & Hm & HM), (Hil idx) as (n & Hn & HN).
  exists m, n; repeat split; assumption || apply HM || apply HN.
Qed.

(** *** Counting *)

Lemma int_total_truth (l : list scalar) :
  int_total (map (fun s => SBool (truthy s)) l) = Z.of_nat (count_truthy l).
Proof.
  unfold int_total, count_truthy; induction l as [|s l IH]; [reflexivity|].
  cbn [map fold_right filter s_to_Z]; rewrite IH.
  destruct (truthy s); cbn [List.length]; lia.
Qed.

Lemma canonical_int64 :
  canonicalize_dtype (canonicalize_dtype int64) = canonicalize_dtype int64
  /\ is_integer (canonicalize_dtype int64) = true
  /\ is_signedinteger (canonicalize_dtype int64) = true.
Proof. unfold canonicalize_dtype; destruct (enable_x64 config); repeat split. Qed.

(** X4. On positional axes that are in range and distinct, [count_nonzero]
    succeeds for an array of any dtype, with a result in the canonical 64-bit
    signed integer dtype and of the reduced shape, whose element at every
    index is the number of elements of the reduced slice that differ from
    zero (wrapped around at the width of the result dtype, hence exact
    whenever the count fits). *)
Theorem count_nonzero_counts_reduced_slice :
  forall (a : Array) (axis : Axis) (keepdims : bool) (pd : list nat) (dims : list dim),
    axis_is_positional axis = true ->
    _reduction_dims a axis = Ok (pd, dims) ->
    exists r,
      count_nonzero a axis keepdims = Ok r
      /\ dtype r = canonicalize_dtype int64
      /\ shape r = reduced_shape keepdims pd (shape a)
      /\ forall idx,
           let n := count_truthy
                      (reduced_slice a pd (reduce_index keepdims (ndim a) pd idx)) in
           item r idx = SInt (wrap (dtype r) (Z.of_nat n))
           /\ ((Z.of_nat n <= iinfo_max (dtype r))%Z -> item r idx = SInt (Z.of_nat n)).
Proof.
  intros a axis keepdims pd dims Hp Hd.
  destruct canonical_int64 as (HcD & HiD & HsD).
  set (D := canonicalize_dtype int64) in *.
  unfold count_nonzero, sum, _reduce_sum.
  rewrite (ensure_optional_axes_positional _ Hp).
  pose proof (reduction_dims_positional _ _ _ _ Hp Hd) as Hl.
  assert (Hd' : _reduction_dims (_cast_to_numeric (ne_zero a)) axis = Ok (pd, dims)).
  { rewrite <- Hd; apply reduction_dims_ndim; unfold ndim.
    rewrite shape_cast_to_numeric; reflexivity. }
  destruct (reduction_plain (ne_zero a) "sum" lax_add (PyInt 0) true (Some _cast_to_numeric)
              (Some lax_bitwise_or) true axis (Some D) keepdims (Some lax_psum) true
              pd dims Hd' Hl)
    as (r & Hr & Hdt & Hsh & Hit); [discriminate|].
  assert (Hrd : reduction_result_dtype true (Some D) (_cast_to_numeric (ne_zero a)) = D)
    by (unfold reduction_result_dtype; cbn [is_none is_some negb andb]; exact HcD).
  assert (Hcd : reduction_computation_dtype true D = D).
  { unfold reduction_computation_dtype.
    destruct (is_inexact D) eqn:E; [|reflexivity].
    rewrite (inexact_not_integer _ E) in HiD; discriminate. }
  rewrite HcD in Hdt; rewrite Hrd, Hcd in Hit.
  assert (Hitem : forall idx,
            item r idx
            = SInt (wrap D (Z.of_nat (count_truthy
                 (reduced_slice a pd (reduce_index keepdims (ndim a) pd idx)))))).
  { intros idx; rewrite Hit, Hdt.
    cbn [dtype convert_element_type]; rewrite HcD, convert_item_same.
    rewrite (reduction_op_not_bool lax_add (Some lax_bitwise_or) D (integer_not_bool _ HiD)).
    rewrite init_val_const_int;
      [ | cbn [dtype convert_element_type]; rewrite HcD; exact HcD
        | cbn [dtype convert_element_type]; rewrite HcD; apply integer_not_bool, HiD ].
    cbn [dtype convert_element_type]; rewrite HcD, (const_int_integer D 0 HiD).
    replace (ndim (_cast_to_numeric (ne_zero a))) with (ndim a)
      by (unfold ndim; rewrite shape_cast_to_numeric; reflexivity).
    rewrite (reduced_slice_map a _
               (fun s => convert_item default_int D
                           (convert_item bool_ default_int (SBool (truthy s))))).
    - rewrite <- int_total_truth.
      rewrite <- (map_map (fun s => SBool (truthy s))
                    (fun b => convert_item default_int D (convert_item bool_ default_int b))).
      rewrite (fold_int_add D _ _ 0 HiD); [reflexivity|].
      intros s Hs; apply in_map_iff in Hs; destruct Hs as [s0 [<- _]].
      apply (numeric_item bool_ D (SBool (truthy s0)) eq_refl eq_refl HiD).
    - cbn [shape convert_element_type]; rewrite shape_cast_to_numeric; reflexivity.
    - intros i; cbn [item dtype convert_element_type].
      rewrite dtype_cast_to_numeric, item_cast_to_numeric, HcD; reflexivity. }
  exists r; split; [exact Hr|]; split; [exact Hdt|]; split.
  - rewrite Hsh, shape_cast_to_numeric; reflexivity.
  - intros idx; cbv zeta; rewrite Hitem, Hdt; split; [reflexivity|].
    intros Hfit; f_equal; apply wrap_in_range; [exact HiD|].
    split; [|exact Hfit].
    unfold iinfo_min; rewrite HsD.
    pose proof (Z.pow_pos_nonneg 2 (iinfo_bits D - 1) ltac:(lia)) as Hpos.
    assert (0 <= iinfo_bits D - 1)%Z
      by (unfold D, canonicalize_dtype; destruct (enable_x64 config); cbn; lia).
    lia.
Qed.

Lemma valid_vector (d : DType) (l : list scalar) :
  canonicalize_dtype d = d ->
  has_dtype d (const d (PyInt 0)) = true ->
  forallb (has_dtype d) l = true ->
  valid_array (vector d l).
Proof.
  intros Hc H0 Hl; split; [exact Hc|]; intros idx; cbn [dtype item vector].
  generalize (hd 0 idx); induction l as [|s l IH]; intros [|n]; cbn [nth];
    try exact H0; cbn [forallb] in Hl; apply andb_true_iff in Hl;
    destruct Hl as [Hs Hl]; [exact Hs | apply IH, Hl].
Qed.

(** *** The axis argument *)

Lemma reduction_axis_ext
    (a : Array) (name : string) (op : ReductionOp) (init_val : pyval)
    (has_identity : bool) (preproc : option (Array -> Array))
    (bool_op : option ReductionOp) (upcast : bool) (axis1 axis2 : Axis)
    (dtype_ : option DType) (out : option Array) (keepdims : bool)
    (initial where_ : option Array)
    (pr : option (Array -> list dim -> Array)) (promote : bool) :
  _reduction_dims (match preproc with Some f => f a | None => a end) axis1
  = _reduction_dims (match preproc with Some f => f a | None => a end) axis2 ->
  _reduction a name op init_val has_identity preproc bool_op upcast axis1 dtype_ out
    keepdims initial where_ pr promote
  = _reduction a name op init_val has_identity preproc bool_op upcast axis2 dtype_ out
      keepdims initial where_ pr promote.
Proof. intros H; unfold _reduction; rewrite H; reflexivity. Qed.

Lemma canonicalize_axis_negative (i : Z) (n : nat) :
  (- Z.of_nat n <= i < 0)%Z ->
  _canonicalize_axis i n = _canonicalize_axis (i + Z.of_nat n) n
  /\ _canonicalize_axis i n = Ok (Z.to_nat (i + Z.of_nat n)).
Proof.
  intros H; unfold _canonicalize_axis.
  replace (- Z.of_nat n <=? i)%Z with true by (symmetry; apply Z.leb_le; lia).
  replace (i <? Z.of_nat n)%Z with true by (symmetry; apply Z.ltb_lt; lia).
  replace (- Z.of_nat n <=? i + Z.of_nat n)%Z with true by (symmetry; apply Z.leb_le; lia).
  replace (i + Z.of_nat n <? Z.of_nat n)%Z with true by (symmetry; apply Z.ltb_lt; lia).
  replace (i <? 0)%Z with true by (symmetry; apply Z.ltb_lt; lia).
  replace (i + Z.of_nat n <? 0)%Z with false by (symmetry; apply Z.ltb_ge; lia).
  split; reflexivity.
Qed.

Lemma reduction_dims_negative (a : Array) (i : Z) :
  (- Z.of_nat (ndim a) <= i < 0)%Z ->
  _reduction_dims a (AxisOne (AxInt i))
  = _reduction_dims a (AxisOne (AxInt (i + Z.of_nat (ndim a)))).
Proof.
  intros H; unfold _reduction_dims; cbn [mapM _canonicalize_axis_allow_named].
  destruct (canonicalize_axis_negative i (ndim a) H) as [E1 E2].
  rewrite <- E1, E2; reflexivity.
Qed.

(** X5. A negative axis counts from the end: for [-ndim(a) <= i < 0], every
    reduction and every cumulative reduction called with [axis=i] returns
    exactly what it returns with [axis=i + ndim(a)], whatever the other
    arguments are. *)
Theorem negative_axis_counts_from_the_end :
  forall (a : Array) (i : Z),
    (- Z.of_nat (ndim a) <= i < 0)%Z ->
    let neg := AxisOne (AxInt i) in
    let pos := AxisOne (AxInt (i + Z.of_nat (ndim a))) in
    (forall dtype_ out keepdims initial where_ promote,
        sum a neg dtype_ out keepdims initial where_ promote
        = sum a pos dtype_ out keepdims initial where_ promote
        /\ prod a neg dtype_ out keepdims initial where_ promote
           = prod a pos dtype_ out keepdims initial where_ promote)
    /\ (forall out keepdims initial where_,
          max a neg out keepdims initial where_ = max a pos out keepdims initial where_
          /\ min a neg out keepdims initial where_ = min a pos out keepdims initial where_)
    /\ (forall out keepdims where_,
          all a neg out keepdims where_ = all a pos out keepdims where_
          /\ any a neg out keepdims where_ = any a pos out keepdims where_)
    /\ (forall dtype_ out,
          _isscalar a = false ->
          cumsum a neg dtype_ out = cumsum a pos dtype_ out
          /\ cumprod a neg dtype_ out = cumprod a pos dtype_ out
          /\ nancumsum a neg dtype_ out = nancumsum a pos dtype_ out
          /\ nancumprod a neg dtype_ out = nancumprod a pos dtype_ out).
Proof.
  intros a i H neg pos.
  assert (Hn : forall b, ndim b = ndim a ->
                 _reduction_dims b neg = _reduction_dims b pos).
  { intros b Hb; unfold neg, pos; rewrite <- Hb; apply reduction_dims_negative.
    rewrite Hb; exact H. }
  assert (Hnum : ndim (_cast_to_numeric a) = ndim a)
    by (unfold ndim; rewrite shape_cast_to_numeric; reflexivity).
  assert (Hc : forall name red fill_nan fill_value dtype_ out,
            _isscalar a = false ->
            _make_cumulative_reduction name red fill_nan fill_value false a neg dtype_ out
            = _make_cumulative_reduction name red fill_nan fill_value false a pos dtype_ out).
  { intros name red fill_nan fill_value dtype_ out Hs.
    unfold _make_cumulative_reduction, cumulative_input, neg, pos.
    cbn [_ensure_optional_axes]; rewrite Hs.
    destruct (canonicalize_axis_negative i (ndim a) H) as [E _]; rewrite E.
    reflexivity. }
  split; [|split; [|split]].
  - intros; split; apply reduction_axis_ext; apply Hn; exact Hnum.
  - intros; split; apply reduction_axis_ext; apply Hn; reflexivity.
  - intros; split; apply reduction_axis_ext; apply Hn; reflexivity.
  - intros dtype_ out Hs; repeat split; apply Hc; exact Hs.
Qed.

Lemma mapM_Permutation {A B : Type} (f : A -> result B) (l1 l2 : list A) (c1 : list B) :
  Permutation l1 l2 -> mapM f l1 = Ok c1 ->
  exists c2, mapM f l2 = Ok c2 /\ Permutation c1 c2.
Proof.
  intros HP; revert c1; induction HP as [|x l l' HP IH|x y l|l l' l'' HP1 IH1 HP2 IH2];
    intros c1 H.
  - exists c1; split; [exact H | apply Permutation_refl].
  - cbn [mapM] in *; destruct (f x) as [b|e]; [|discriminate H]; cbn [bind] in *.
    destruct (mapM f l) as [c|e]; [|discriminate H]; cbn [bind] in H.
    injection H as <-; destruct (IH c eq_refl) as (c2 & -> & Hc).
    exists (b :: c2); split; [reflexivity | apply perm_skip, Hc].
  - cbn [mapM] in *; destruct (f y) as [b|e]; [|discriminate H]; cbn [bind] in *.
    destruct (f x) as [b'|e]; [|discriminate H]; cbn [bind] in *.
    destruct (mapM f l) as [c|e]; [|discriminate H]; cbn [bind] in *.
    injection H as <-; exists (b' :: b :: c); split; [reflexivity | apply perm_swap].
  - destruct (IH1 c1 H) as (c2 & H2 & Hc2); destruct (IH2 c2 H2) as (c3 & H3 & Hc3).
    exists c3; split; [exact H3 | eapply Permutation_trans; eassumption].
Qed.

Lemma NoDup_nodup_dims (l : list dim) : NoDup l -> nodup_dims l = l.
Proof.
  induction 1 as [|x l Hx Hl IH]; [reflexivity|]; cbn [nodup_dims].
  destruct (existsb (dim_eqb x) l) eqn:E.
  - apply existsb_dim_In in E; contradiction.
  - rewrite IH; reflexivity.
Qed.

Lemma positional_Permutation (c1 c2 : list dim) :
  Permutation c1 c2 -> Permutation (positional c1) (positional c2).
Proof.
  induction 1 as [|x l l' HP IH|x y l|l l' l'' HP1 IH1 HP2 IH2].
  - apply Permutation_refl.
  - destruct x; cbn [positional]; [apply perm_skip|]; exact IH.
  - destruct x, y; cbn [positional];
      first [apply perm_swap | apply Permutation_refl].
  - eapply Permutation_trans; eassumption.
Qed.

Lemma dim_flags_Permutation (n : nat) (p1 p2 : list nat) :
  Permutation p1 p2 -> dim_flags n p1 = dim_flags n p2.
Proof.
  intros HP; unfold dim_flags; apply map_ext; intros k.
  destruct (mem_nat k p1) eqn:E1, (mem_nat k p2) eqn:E2; try reflexivity.
  - apply mem_nat_In in E1; apply (Permutation_in _ HP), mem_nat_In in E1; congruence.
  - apply mem_nat_In in E2; apply (Permutation_in _ (Permutation_sym HP)), mem_nat_In in E2.
    congruence.
Qed.

Lemma forallb_Permutation {A : Type} (f : A -> bool) (l1 l2 : list A) :
  Permutation l1 l2 -> forallb f l1 = forallb f l2.
Proof.
  induction 1 as [|x l l' HP IH|x y l|l l' l'' HP1 IH1 HP2 IH2]; cbn [forallb].
  - reflexivity.
  - rewrite IH; reflexivity.
  - destruct (f x), (f y); reflexivity.
  - congruence.
Qed.

Lemma reduction_dims_Permutation (a : Array) (l1 l2 : list axis_item)
    (pd1 : list nat) (dims1 : list dim) :
  Permutation l1 l2 ->
  _reduction_dims a (AxisSeq l1) = Ok (pd1, dims1) ->
  exists pd2 dims2,
    _reduction_dims a (AxisSeq l2) = Ok (pd2, dims2)
    /\ Permutation pd1 pd2 /\ Permutation dims1 dims2.
Proof.
  intros HP H; unfold _reduction_dims in *.
  destruct (mapM _ l1) as [c1|e] eqn:E1; [|discriminate H]; cbn [bind] in H.
  destruct (mapM_Permutation _ _ _ _ HP E1) as (c2 & -> & Hc); cbn [bind].
  destruct (List.length c1 =? List.length (nodup_dims c1)) eqn:El;
    [|discriminate H]; cbn [negb] in H; injection H as <- <-.
  apply Nat.eqb_eq, nodup_dims_NoDup in El.
  rewrite (NoDup_nodup_dims c2) by (apply (Permutation_NoDup Hc), El).
  rewrite Nat.eqb_refl; cbn [negb].
  do 2 eexists; split; [reflexivity|]; split;
    [apply positional_Permutation, Hc | exact Hc].
Qed.

Lemma lax_reduce_Permutation (a init : Array) (op : ReductionOp) (p1 p2 : list nat) :
  Permutation p1 p2 -> lax_reduce a init op p1 = lax_reduce a init op p2.
Proof.
  intros HP; unfold lax_reduce; rewrite (dim_flags_Permutation _ _ _ HP); reflexivity.
Qed.

Lemma lax_expand_dims_Permutation (r : Array) (p1 p2 : list nat) :
  Permutation p1 p2 -> lax_expand_dims r p1 = lax_expand_dims r p2.
Proof.
  intros HP; unfold lax_expand_dims.
  rewrite (Permutation_length HP), (dim_flags_Permutation _ _ _ HP); reflexivity.
Qed.

Lemma reduction_axis_Permutation
    (a : Array) (name : string) (op : ReductionOp) (init_val : pyval)
    (has_identity : bool) (preproc : option (Array -> Array))
    (bool_op : option ReductionOp) (upcast : bool) (l1 l2 : list axis_item)
    (dtype_ : option DType) (out : option Array) (keepdims : bool)
    (initial where_ : option Array)
    (pr : option (Array -> list dim -> Array)) (promote : bool)
    (pd : list nat) (dims : list dim) :
  Permutation l1 l2 ->
  axis_is_positional (AxisSeq l1) = true ->
  _reduction_dims (match preproc with Some f => f a | None => a end) (AxisSeq l1)
  = Ok (pd, dims) ->
  _reduction a name op init_val has_identity preproc bool_op upcast (AxisSeq l1) dtype_
    out keepdims initial where_ pr promote
  = _reduction a name op init_val has_identity preproc bool_op upcast (AxisSeq l2) dtype_
      out keepdims initial where_ pr promote.
Proof.
  intros HP Hp Hd.
  destruct (reduction_dims_Permutation _ _ _ _ _ HP Hd) as (pd2 & dims2 & Hd2 & Hpd & Hdims).
  pose proof (reduction_dims_positional _ _ _ _ Hp Hd) as Hl.
  assert (Hl2 : List.length pd2 = List.length dims2)
    by (rewrite <- (Permutation_length Hpd), <- (Permutation_length Hdims); exact Hl).
  unfold _reduction; rewrite Hd, Hd2; cbn [bind].
  rewrite (forallb_Permutation _ _ _ Hpd), Hl, Hl2, !Nat.eqb_refl; cbn [negb].
  destruct (is_some out); [reflexivity|].
  destruct (is_none initial && negb has_identity && is_some where_); [reflexivity|].
  destruct (is_none initial && negb has_identity && negb (forallb _ pd2)); [reflexivity|].
  match goal with
  | |- bind ?w _ = bind ?w _ => destruct w as [aw|e]; [|reflexivity]
  end.
  cbn [bind]; rewrite (lax_reduce_Permutation _ _ _ _ _ Hpd).
  match goal with
  | |- bind ?w _ = bind ?w _ => destruct w as [res|e]; [|reflexivity]
  end.
  cbn [bind]; rewrite (lax_expand_dims_Permutation _ _ _ Hpd); reflexivity.
Qed.

(** X6. The order in which the axes are listed does not matter: for a tuple
    of positional axes that is in range and without duplicates, every
    reduction returns exactly the same result for every permutation of the
    tuple, whatever the other arguments are. *)
Theorem axis_order_is_irrelevant :
  forall (a : Array) (l1 l2 : list axis_item) (pd : list nat) (dims : list dim),
    Permutation l1 l2 ->
    axis_is_positional (AxisSeq l1) = true ->
    _reduction_dims a (AxisSeq l1) = Ok (pd, dims) ->
    (forall dtype_ out keepdims initial where_ promote,
        sum a (AxisSeq l1) dtype_ out keepdims initial where_ promote
        = sum a (AxisSeq l2) dtype_ out keepdims initial where_ promote
        /\ prod a (AxisSeq l1) dtype_ out keepdims initial where_ promote
           = prod a (AxisSeq l2) dtype_ out keepdims initial where_ promote)
    /\ (forall out keepdims initial where_,
          max a (AxisSeq l1) out keepdims initial where_
          = max a (AxisSeq l2) out keepdims initial where_
          /\ min a (AxisSeq l1) out keepdims initial where_
             = min a (AxisSeq l2) out keepdims initial where_)
    /\ (forall out keepdims where_,
          all a (AxisSeq l1) out keepdims where_ = all a (AxisSeq l2) out keepdims where_
          /\ any a (AxisSeq l1) out keepdims where_
             = any a (AxisSeq l2) out keepdims where_).
Proof.
  intros a l1 l2 pd dims HP Hp Hd.
  assert (Hn : forall b, ndim b = ndim a ->
                 _reduction_dims b (AxisSeq l1) = Ok (pd, dims))
    by (intros b Hb; rewrite <- Hd; apply reduction_dims_ndim, Hb).
  assert (Hnum : ndim (_cast_to_numeric a) = ndim a)
    by (unfold ndim; rewrite shape_cast_to_numeric; reflexivity).
  split; [|split].
  - intros; split;
      apply (reduction_axis_Permutation _ _ _ _ _ _ _ _ l1 l2 _ _ _ _ _ _ _ pd dims HP Hp);
      apply Hn; exact Hnum.
  - intros; split;
      apply (reduction_axis_Permutation _ _ _ _ _ _ _ _ l1 l2 _ _ _ _ _ _ _ pd dims HP Hp);
      apply Hn; reflexivity.
  - intros; split;
      apply (reduction_axis_Permutation _ _ _ _ _ _ _ _ l1 l2 _ _ _ _ _ _ _ pd dims HP Hp);
      apply Hn; reflexivity.
Qed.

Lemma canonicalize_axis_out_of_bounds (i : Z) (n : nat) :
  (i < - Z.of_nat n \/ Z.of_nat n <= i)%Z ->
  _canonicalize_axis i n
  = Raise (ValueError ("axis " ++ string_of_Z i
                       ++ " is out of bounds for array of dimension "
                       ++ string_of_nat n)%string).
Proof.
  intros H; unfold _canonicalize_axis.
  destruct ((- Z.of_nat n <=? i)%Z && (i <? Z.of_nat n)%Z) eqn:E; [|reflexivity].
  apply andb_true_iff in E; destruct E as [E1 E2].
  apply Z.leb_le in E1; apply Z.ltb_lt in E2; lia.
Qed.

(** X7. An axis outside [-ndim(a), ndim(a)) is rejected by every reduction
    with the ValueError of the axis canonicalization, which names the axis
    and the rank, whatever the other arguments are ([out] apart, and the mask
    of [max] and [min], which are checked first). *)
Theorem out_of_range_axis_is_rejected :
  forall (a : Array) (i : Z),
    (i < - Z.of_nat (ndim a) \/ Z.of_nat (ndim a) <= i)%Z ->
    let e := ValueError ("axis " ++ string_of_Z i
                         ++ " is out of bounds for array of dimension "
                         ++ string_of_nat (ndim a))%string in
    (forall dtype_ keepdims initial where_ promote,
        sum a (AxisOne (AxInt i)) dtype_ None keepdims initial where_ promote = Raise e
        /\ prod a (AxisOne (AxInt i)) dtype_ None keepdims initial where_ promote = Raise e)
    /\ (forall keepdims initial,
          max a (AxisOne (AxInt i)) None keepdims initial None = Raise e
          /\ min a (AxisOne (AxInt i)) None keepdims initial None = Raise e)
    /\ (forall keepdims where_,
          all a (AxisOne (AxInt i)) None keepdims where_ = Raise e
          /\ any a (AxisOne (AxInt i)) None keepdims where_ = Raise e).
Proof.
  intros a i H e.
  assert (Hn : forall b, ndim b = ndim a ->
                 _reduction_dims b (AxisOne (AxInt i)) = Raise e).
  { intros b Hb; unfold _reduction_dims; cbn [mapM _canonicalize_axis_allow_named].
    rewrite Hb, (canonicalize_axis_out_of_bounds i (ndim a) H); reflexivity. }
  assert (Hnum : ndim (_cast_to_numeric a) = ndim a)
    by (unfold ndim; rewrite shape_cast_to_numeric; reflexivity).
  split; [|split].
  - intros; split; apply reduction_dims_error;
      try (apply Hn; exact Hnum); destruct initial, where_; reflexivity.
  - intros; split; apply reduction_dims_error;
      try (apply Hn; reflexivity); destruct initial; reflexivity.
  - intros; split; apply reduction_dims_error;
      try (apply Hn; reflexivity); reflexivity.
Qed.




(** *** The last element of a cumulative sum *)








(** *** Reductions that skip NaN *)

Hypothesis f_of_Z_valid :
  forall d z, is_inexact d = true -> (z = 0 \/ z = 1)%Z -> fvalid d (f_of_Z d z) = true.

Hypothesis fcvt_one :
  forall d1 d2, is_inexact d1 = true -> is_inexact d2 = true ->
    fcvt d1 d2 (f_of_Z d1 1) = f_of_Z d2 1.

(** The input of a NaN-skipping reduction: where the array holds a NaN, the
    value [fill] of the 0-d array [c]. *)
Lemma nan_fill (a c : Array) (fill : scalar) :
  canonicalize_dtype (dtype a) = dtype a ->
  dtype c = dtype a -> shape c = [] -> (forall idx, item c idx = fill) ->
  exists a',
    _where (_isnan a) (OArr c) (OArr a) = Ok a'
    /\ dtype a' = dtype a /\ shape a' = shape a
    /\ forall idx, item a' idx = if s_isnan (item a idx) then fill else item a idx.
Proof.
  intros Hc Hdc Hsc Hic; unfold _where; cbn [operand_shape promote_operands].
  rewrite Hsc, broadcast_shapes_nil_l.
  replace (shape (_isnan a)) with (shape a) by reflexivity.
  rewrite broadcast_shapes_refl, Hdc, dtype_eqb_refl, Hc.
  eexists; split; [reflexivity|]; cbn [dtype shape item].
  split; [reflexivity|]; split; [reflexivity|]; intros idx.
  replace (bread (_isnan a) (shape a) idx) with (SBool (s_isnan (item a idx)))
    by (symmetry; apply (bread_same (_isnan a))).
  cbn [truthy operand_item]; rewrite Hdc, !convert_item_same, bread_same.
  destruct (s_isnan (item a idx)); [|reflexivity].
  unfold bread; destruct (shape_eqb (shape c) (shape a)); apply Hic.
Qed.

Lemma nan_fill_init (a : Array) (v : pyval) :
  canonicalize_dtype (dtype a) = dtype a ->
  exists a',
    _where (_isnan a) (OArr (_reduction_init_val a v)) (OArr a) = Ok a'
    /\ dtype a' = dtype a /\ shape a' = shape a
    /\ forall idx,
         item a' idx
         = if s_isnan (item a idx) then item (_reduction_init_val a v) [] else item a idx.
Proof.
  intros Hc; apply nan_fill; [exact Hc | | reflexivity | reflexivity].
  rewrite dtype_init_val; exact Hc.
Qed.

Lemma inexact_accumulation_dtype (d : DType) :
  canonicalize_dtype d = d -> is_inexact d = true ->
  canonicalize_dtype (_promote_integer_dtype d) = d
  /\ reduction_computation_dtype true d = _upcast_f16 d
  /\ canonicalize_dtype (_upcast_f16 d) = _upcast_f16 d
  /\ is_inexact (_upcast_f16 d) = true.
Proof.
  policy_cases d; cbn; intros Hc Hi; try discriminate Hc; try discriminate Hi;
    repeat split.
Qed.

Lemma const_conversion (d1 d2 : DType) (z : Z) :
  is_inexact d1 = true -> is_inexact d2 = true -> (z = 0 \/ z = 1)%Z ->
  convert_item d1 d2 (const d1 (PyInt z)) = const d2 (PyInt z).
Proof.
  intros H1 H2 Hz; rewrite !const_int_inexact by assumption.
  unfold convert_item, dtype_eqb; destruct (dtype_eq_dec d1 d2) as [->|_]; [reflexivity|].
  unfold cvt; rewrite (inexact_not_bool _ H2), (inexact_not_integer _ H2).
  destruct Hz as [-> | ->]; [rewrite fcvt_zero | rewrite fcvt_one]; auto.
Qed.

Lemma fold_constant (op : scalar -> scalar -> scalar) (c : scalar) (l : list scalar) :
  op c c = c -> (forall s, In s l -> s = c) -> fold_left op l c = c.
Proof.
  intros Hop; induction l as [|s l IH]; intros H; [reflexivity|].
  cbn [fold_left]; rewrite (H s (or_introl eq_refl)), Hop.
  apply IH; intros; apply H; right; assumption.
Qed.

Lemma nan_skipping_reduction
    (name : string) (op bool_op : ReductionOp) (z0 : Z)
    (pr : option (Array -> list dim -> Array))
    (a : Array) (axis : Axis) (keepdims : bool) (pd : list nat) (dims : list dim) :
  (z0 = 0 \/ z0 = 1)%Z ->
  (forall d, is_inexact d = true ->
     op d (const d (PyInt z0)) (const d (PyInt z0)) = const d (PyInt z0)) ->
  valid_array a ->
  is_inexact (dtype a) = true ->
  axis_is_positional axis = true ->
  _reduction_dims a axis = Ok (pd, dims) ->
  let d := dtype a in
  let cd := _upcast_f16 d in
  exists r,
    _nan_reduction a name
      (fun a axis dtype_ out keepdims initial where_ =>
         _reduction a name op (PyInt z0) true (Some _cast_to_numeric) (Some bool_op) true
           (_ensure_optional_axes axis) dtype_ out keepdims initial where_ pr true)
      (PyInt z0) false axis keepdims None None None None = Ok r
    /\ dtype r = d
    /\ shape r = reduced_shape keepdims pd (shape a)
    /\ forall idx,
         let slice := reduced_slice a pd (reduce_index keepdims (ndim a) pd idx) in
         item r idx
         = convert_item cd d
             (fold_left (op cd)
                (map (fun x => convert_item d cd (nan_to d (PyInt z0) x)) slice)
                (const cd (PyInt z0)))
         /\ (forallb s_isnan slice = true -> item r idx = const d (PyInt z0)).
Proof.
  intros Hz0 Hop [Hc Hv] Hi Hp Hd d cd.
  assert (Hc' : canonicalize_dtype d = d) by exact Hc.
  destruct (inexact_accumulation_dtype d Hc Hi) as (Hrd & Hcd & Hccd & Hicd).
  fold cd in Hcd, Hccd, Hicd.
  unfold _nan_reduction; rewrite Hi; cbn [negb].
  destruct (nan_fill_init a (PyInt z0) Hc) as (a' & -> & Hda & Hsa & Hia).
  cbn [bind]; rewrite (ensure_optional_axes_positional _ Hp).
  pose proof (reduction_dims_positional _ _ _ _ Hp Hd) as Hl.
  assert (Hnb : is_bool (dtype a') = false)
    by (rewrite Hda; apply inexact_not_bool, Hi).
  assert (Hcast : _cast_to_numeric a' = a')
    by (unfold _cast_to_numeric; rewrite Hnb; reflexivity).
  assert (Hd' : _reduction_dims (_cast_to_numeric a') axis = Ok (pd, dims)).
  { rewrite Hcast, <- Hd; apply reduction_dims_ndim; unfold ndim; rewrite Hsa.
    reflexivity. }
  destruct (reduction_plain a' name op (PyInt z0) true (Some _cast_to_numeric)
              (Some bool_op) true axis None keepdims pr true pd dims Hd' Hl)
    as (r & Hr & Hdt & Hsh & Hit); [discriminate|].
  rewrite Hcast in Hdt, Hsh, Hit.
  assert (Hrd' : reduction_result_dtype true None a' = d)
    by (unfold reduction_result_dtype; cbn [is_none is_some negb andb];
        rewrite Hda; exact Hrd).
  rewrite Hrd', Hc' in Hdt; rewrite Hrd', Hcd in Hit.
  rewrite Hr; cbn [bind].
  exists r; split; [reflexivity|]; split; [exact Hdt|]; split;
    [rewrite Hsh, Hsa; reflexivity|].
  assert (Hnbc : is_bool cd = false) by (apply inexact_not_bool, Hicd).
  assert (Hitem : forall idx,
            item r idx
            = convert_item cd d
                (fold_left (op cd)
                   (map (fun x => convert_item d cd (nan_to d (PyInt z0) x))
                      (reduced_slice a pd (reduce_index keepdims (ndim a) pd idx)))
                   (const cd (PyInt z0)))).
  { intros idx; rewrite Hit, Hdt; cbn [dtype convert_element_type].
    rewrite Hccd, (reduction_op_not_bool op (Some bool_op) cd Hnbc).
    rewrite init_val_const_int;
      [ | cbn [dtype convert_element_type]; rewrite Hccd; exact Hccd
        | cbn [dtype convert_element_type]; rewrite Hccd; exact Hnbc ].
    cbn [dtype convert_element_type]; rewrite Hccd.
    replace (ndim a') with (ndim a) by (unfold ndim; rewrite Hsa; reflexivity).
    rewrite (reduced_slice_map a _ (fun x => convert_item d cd (nan_to d (PyInt z0) x)));
      [reflexivity | cbn [shape convert_element_type]; exact Hsa | ].
    intros i; cbn [item dtype convert_element_type]; rewrite Hccd, Hda, Hia.
    unfold nan_to; rewrite init_val_const_int;
      [reflexivity | exact Hc | apply inexact_not_bool, Hi]. }
  intros idx; cbv zeta; split; [apply Hitem|].
  intros Hall; rewrite Hitem.
  rewrite fold_constant.
  - apply const_conversion; assumption.
  - apply Hop, Hicd.
  - intros s Hs; apply in_map_iff in Hs; destruct Hs as [x [<- Hx]].
    rewrite forallb_forall in Hall; unfold nan_to; rewrite (Hall x Hx).
    apply const_conversion; assumption.
Qed.

(** X11. On a valid array of an inexact dtype and positional axes that are
    in range and distinct, [nansum] and [nanprod] succeed in the dtype of the
    input; each element accumulates the reduced slice with every NaN replaced
    by 0, respectively 1 (in float32 when the dtype is a 16-bit float), and a
    slice that holds only NaN, or nothing, gives exactly 0, respectively 1,
    never NaN. *)
Theorem nansum_nanprod_skip_nan :
  forall (a : Array) (axis : Axis) (keepdims : bool) (pd : list nat) (dims : list dim),
    valid_array a ->
    is_inexact (dtype a) = true ->
    axis_is_positional axis = true ->
    _reduction_dims a axis = Ok (pd, dims) ->
    let d := dtype a in
    let cd := _upcast_f16 d in
    exists s p,
      nansum a axis None None keepdims None None = Ok s
      /\ nanprod a axis None None keepdims None None = Ok p
      /\ dtype s = d /\ dtype p = d
      /\ shape s = reduced_shape keepdims pd (shape a)
      /\ shape p = reduced_shape keepdims pd (shape a)
      /\ forall idx,
           let slice := reduced_slice a pd (reduce_index keepdims (ndim a) pd idx) in
           item s idx
           = convert_item cd d
               (fold_left (lax_add cd)
                  (map (fun x => convert_item d cd (nan_to d (PyInt 0) x)) slice)
                  (const cd (PyInt 0)))
           /\ item p idx
              = convert_item cd d
                  (fold_left (lax_mul cd)
                     (map (fun x => convert_item d cd (nan_to d (PyInt 1) x)) slice)
                     (const cd (PyInt 1)))
           /\ (forallb s_isnan slice = true ->
               item s idx = const d (PyInt 0) /\ item p idx = const d (PyInt 1)).
Proof.
  intros a axis keepdims pd dims Hv Hi Hp Hd d cd.
  destruct (nan_skipping_reduction "sum" lax_add lax_bitwise_or 0 (Some lax_psum)
              a axis keepdims pd dims) as (s & Hs & Hds & Hss & His);
    try assumption; [left; reflexivity | |].
  { intros d0 Hd0; rewrite (const_int_inexact d0 0 Hd0); cbn [lax_add].
    destruct (fadd_zero d0 (f_of_Z d0 0) Hd0) as [-> _]; [|reflexivity].
    apply f_of_Z_valid; [exact Hd0 | left; reflexivity]. }
  destruct (nan_skipping_reduction "prod" lax_mul lax_bitwise_and 1 None
              a axis keepdims pd dims) as (p & Hp' & Hdp & Hsp & Hip);
    try assumption; [right; reflexivity | |].
  { intros d0 Hd0; rewrite (const_int_inexact d0 1 Hd0); cbn [lax_mul].
    destruct (fmul_one d0 (f_of_Z d0 1) Hd0) as [-> _]; [|reflexivity].
    apply f_of_Z_valid; [exact Hd0 | right; reflexivity]. }
  exists s, p; unfold nansum, nanprod.
  split; [exact Hs|]; split; [exact Hp'|].
  do 4 (split; [assumption|]).
  intros idx; cbv zeta.
  destruct (His idx) as [H1 H2], (Hip idx) as [H3 H4].
  split; [exact H1|]; split; [exact H3|].
  intros Hall; split; [apply H2 | apply H4]; exact Hall.
Qed.

(** *** Extrema that skip NaN *)

Hypothesis float_bounds_valid :
  forall d, is_floating d = true ->
    fvalid d (float_lowest d) = true /\ fvalid d (float_highest d) = true.

Hypothesis fmax_fmin_valid :
  forall d x y, is_floating d = true -> fvalid d x = true -> fvalid d y = true ->
    fvalid d (fmax d x y) = true /\ fvalid d (fmin d x y) = true.

Lemma fold_skip_identity (op : scalar -> scalar -> scalar) (e : scalar)
    (P : scalar -> Prop) (l : list scalar) (acc : scalar) :
  (forall x, P x -> op x e = x) ->
  (forall x y, P x -> P y -> P (op x y)) ->
  P acc -> (forall s, In s l -> P s) ->
  fold_left op (map (fun s => if s_isnan s then e else s) l) acc
  = fold_left op (filter not_nan l) acc.
Proof.
  intros Hid Hcl; revert acc; induction l as [|s l IH]; intros acc Hacc Hl;
    [reflexivity|].
  cbn [map fold_left filter]; unfold not_nan at 1.
  destruct (s_isnan s); cbn [negb fold_left].
  - rewrite (Hid acc Hacc); apply IH; [exact Hacc | intros; apply Hl; right; assumption].
  - apply IH; [apply Hcl; [exact Hacc | apply Hl; left; reflexivity]
              | intros; apply Hl; right; assumption].
Qed.

Lemma filter_not_nan_nil (l : list scalar) :
  filter not_nan l = [] <-> forallb s_isnan l = true.
Proof.
  induction l as [|s l IH]; cbn [filter forallb]; [tauto|].
  unfold not_nan at 1; destruct (s_isnan s); cbn [negb andb]; [exact IH|].
  split; discriminate.
Qed.

Lemma const_nan (d : DType) : is_inexact d = true -> const d PyNaN = SFl fnan.
Proof.
  intros H; unfold const, np_array.
  rewrite (inexact_not_bool _ H), (inexact_not_integer _ H); reflexivity.
Qed.

Lemma lax_max_laws (d : DType) :
  is_floating d = true -> extremum_laws lax_max d (SFl (float_lowest d)).
Proof.
  intros Hf; pose proof (floating_is_inexact _ Hf) as Hi; split.
  - cbn [has_dtype]; rewrite Hi; apply float_bounds_valid, Hf.
  - intros x y Hx Hy.
    destruct (has_dtype_inexact _ _ Hi Hx) as [x' [-> Hx']].
    destruct (has_dtype_inexact _ _ Hi Hy) as [y' [-> Hy']].
    cbn [lax_max has_dtype]; rewrite Hi; cbn [andb].
    destruct (fmax_lowest d x' Hf Hx') as [-> ->].
    split; [reflexivity|]; split; [reflexivity|].
    apply (fmax_fmin_valid d x' y' Hf Hx' Hy').
Qed.

Lemma lax_min_laws (d : DType) :
  is_floating d = true -> extremum_laws lax_min d (SFl (float_highest d)).
Proof.
  intros Hf; pose proof (floating_is_inexact _ Hf) as Hi; split.
  - cbn [has_dtype]; rewrite Hi; apply float_bounds_valid, Hf.
  - intros x y Hx Hy.
    destruct (has_dtype_inexact _ _ Hi Hx) as [x' [-> Hx']].
    destruct (has_dtype_inexact _ _ Hi Hy) as [y' [-> Hy']].
    cbn [lax_min has_dtype]; rewrite Hi; cbn [andb].
    destruct (fmin_highest d x' Hf Hx') as [-> ->].
    split; [reflexivity|]; split; [reflexivity|].
    apply (fmax_fmin_valid d x' y' Hf Hx' Hy').
Qed.

Lemma fold_valid (op : ReductionOp) (d : DType) (e : scalar) (l : list scalar)
    (acc : scalar) :
  extremum_laws op d e -> has_dtype d acc = true ->
  (forall s, In s l -> has_dtype d s = true) ->
  has_dtype d (fold_left (op d) l acc) = true.
Proof.
  intros [_ Hl]; revert acc; induction l as [|s l IH]; intros acc Hacc H; [exact Hacc|].
  cbn [fold_left]; apply IH; [|intros; apply H; right; assumption].
  apply (Hl acc s Hacc (H s (or_introl eq_refl))).
Qed.

(** The backend reduce of an extremum over the NaN-filled input is the
    extremum of the elements that are not NaN, if there is one. *)
Lemma nan_filled_extremum (op : ReductionOp) (d : DType) (e : scalar) (l : list scalar) :
  extremum_laws op d e ->
  (forall s, In s l -> has_dtype d s = true) ->
  fold_left (op d) (map (fun s => if s_isnan s then e else s) l) e
  = match list_reduce (op d) (filter not_nan l) with
    | Some m => m
    | None => e
    end
  /\ has_dtype d (fold_left (op d) (map (fun s => if s_isnan s then e else s) l) e) = true.
Proof.
  intros Hlaws Hl; pose proof Hlaws as [He Hop].
  assert (Hkept : forall s, In s (filter not_nan l) -> has_dtype d s = true)
    by (intros s Hs; apply filter_In in Hs; apply Hl, Hs).
  rewrite (fold_skip_identity (op d) e (fun x => has_dtype d x = true));
    [ | intros x Hx; apply (Hop x x Hx Hx)
      | intros x y Hx Hy; apply (Hop x y Hx Hy)
      | exact He | exact Hl ].
  split; [|apply (fold_valid op d e); assumption].
  destruct (filter not_nan l) as [|x r]; [reflexivity|].
  cbn [list_reduce fold_left].
  destruct (Hop x x (Hkept x (or_introl eq_refl)) (Hkept x (or_introl eq_refl)))
    as [-> _]; reflexivity.
Qed.

Lemma forallb_map {A B : Type} (f : B -> bool) (g : A -> B) (l : list A) :
  forallb f (map g l) = forallb (fun x => f (g x)) l.
Proof. induction l as [|x l IH]; cbn; [reflexivity | rewrite IH; reflexivity]. Qed.

(** Whether every element of the reduced slice is NaN, as [all(isnan(a))]
    computes it. *)
Lemma all_isnan (a : Array) (axis : Axis) (keepdims : bool) (pd : list nat)
    (dims : list dim) :
  axis_is_positional axis = true ->
  _reduction_dims a axis = Ok (pd, dims) ->
  exists r,
    all (_isnan a) axis None keepdims None = Ok r
    /\ dtype r = bool_
    /\ shape r = reduced_shape keepdims pd (shape a)
    /\ forall idx,
         item r idx
         = SBool (forallb s_isnan
                    (reduced_slice a pd (reduce_index keepdims (ndim a) pd idx))).
Proof.
  intros Hp Hd.
  destruct (truth_reduction "all" lax_bitwise_and true (_isnan a) axis keepdims pd dims)
    as (r & Hr & Hdt & Hsh & Hit); [reflexivity | exact Hp | exact Hd |].
  exists r; unfold all, _reduce_all; split; [exact Hr|]; split; [exact Hdt|].
  split; [exact Hsh|]; intros idx; rewrite Hit.
  rewrite (fold_bool_and (fun s => SBool (truthy s)) _ true) by reflexivity.
  replace (ndim (_isnan a)) with (ndim a) by reflexivity.
  rewrite (reduced_slice_map a (_isnan a) (fun s => SBool (s_isnan s)))
    by reflexivity.
  rewrite forallb_map; reflexivity.
Qed.

Lemma floating_result_dtype (d : DType) :
  canonicalize_dtype d = d ->
  reduction_computation_dtype false (canonicalize_dtype d) = d.
Proof. intros Hc; unfold reduction_computation_dtype; cbn [andb]; exact Hc. Qed.

Lemma nan_extremum
    (nname name : string) (op : ReductionOp) (neg : bool)
    (pr : Array -> list dim -> Array)
    (a : Array) (axis : Axis) (keepdims : bool) (pd : list nat) (dims : list dim) :
  let d := dtype a in
  let e := SFl (if neg then float_lowest d else float_highest d) in
  extremum_laws op d e ->
  valid_array a ->
  is_floating d = true ->
  axis_is_positional axis = true ->
  _reduction_dims a axis = Ok (pd, dims) ->
  (forall k, In k pd -> 1 <= nth k (shape a) 0) ->
  exists r,
    _nan_reduction a nname
      (fun a axis _ out keepdims initial where_ =>
         _reduction a name op (PyInf neg) false None None false
           (_ensure_optional_axes axis) None out keepdims initial where_ (Some pr) false)
      (PyInf neg) true axis keepdims None None None None = Ok r
    /\ dtype r = d
    /\ shape r = reduced_shape keepdims pd (shape a)
    /\ forall idx,
         item r idx
         = match list_reduce (op d)
                   (filter not_nan
                      (reduced_slice a pd (reduce_index keepdims (ndim a) pd idx))) with
           | Some m => m
           | None => SFl fnan
           end.
Proof.
  intros d e Hlaws Hv Hf Hp Hd Hne; pose proof Hv as [Hc Hval].
  assert (Hc' : canonicalize_dtype d = d) by exact Hc.
  pose proof (floating_is_inexact _ Hf) as Hi.
  unfold _nan_reduction; replace (is_inexact (dtype a)) with true by (symmetry; exact Hi).
  cbn [negb].
  destruct (nan_fill_init a (PyInf neg) Hc) as (a' & -> & Hda & Hsa & Hia).
  rewrite (init_val_floating_inf a neg Hc Hf) in Hia; fold d e in Hia.
  cbn [bind]; rewrite (ensure_optional_axes_positional _ Hp).
  pose proof (reduction_dims_positional _ _ _ _ Hp Hd) as Hl.
  assert (Hd' : _reduction_dims a' axis = Ok (pd, dims)).
  { rewrite <- Hd; apply reduction_dims_ndim; unfold ndim; rewrite Hsa; reflexivity. }
  destruct (reduction_plain a' name op (PyInf neg) false None None false axis None
              keepdims (Some pr) false pd dims Hd' Hl)
    as (r0 & Hr0 & Hdt0 & Hsh0 & Hit0).
  { intros _; apply forallb_forall; intros k Hk; rewrite Hsa.
    apply Nat.leb_le, Hne, Hk. }
  assert (Hrd : reduction_result_dtype false None a' = d)
    by (unfold reduction_result_dtype; cbn [is_none is_some negb andb];
        rewrite Hda; exact Hc).
  rewrite Hrd, Hc' in Hdt0; rewrite Hrd in Hit0.
  cbn [reduction_computation_dtype andb] in Hit0.
  rewrite Hr0; cbn [bind].
  destruct (all_isnan a axis keepdims pd dims Hp Hd) as (n & -> & Hdn & Hsn & Hin).
  cbn [bind].
  unfold _where; cbn [operand_shape promote_operands shape _lax_const scalar_array dtype].
  rewrite broadcast_shapes_nil_l, Hsn, Hsh0, Hsa, broadcast_shapes_refl.
  eexists; split; [reflexivity|]; cbn [dtype shape item].
  rewrite Hc, Hdt0; fold d; rewrite dtype_eqb_refl, Hc'.
  split; [reflexivity|]; split; [reflexivity|]; intros idx.
  assert (Hbn : bread n (reduced_shape keepdims pd (shape a)) idx = item n idx)
    by (rewrite <- Hsn; apply bread_same).
  assert (Hb0 : bread r0 (reduced_shape keepdims pd (shape a)) idx = item r0 idx)
    by (rewrite <- Hsa, <- Hsh0; apply bread_same).
  rewrite Hbn, Hin; cbn [truthy operand_item dtype _lax_const scalar_array].
  rewrite Hc, Hdt0; fold d; rewrite !convert_item_same, Hb0.
  assert (Hfold : item r0 idx
                  = fold_left (op d)
                      (map (fun s => if s_isnan s then e else s)
                         (reduced_slice a pd (reduce_index keepdims (ndim a) pd idx))) e).
  { rewrite Hit0, Hdt0; cbn [dtype convert_element_type].
    rewrite Hc', convert_item_same.
    rewrite (reduction_op_not_bool op None d (inexact_not_bool _ Hi)).
    rewrite init_val_floating_inf;
      [ | cbn [dtype convert_element_type]; rewrite Hc'; exact Hc'
        | cbn [dtype convert_element_type]; rewrite Hc'; exact Hf ].
    cbn [dtype convert_element_type]; rewrite Hc'; fold e.
    replace (ndim a') with (ndim a) by (unfold ndim; rewrite Hsa; reflexivity).
    rewrite (reduced_slice_map a _ (fun s => if s_isnan s then e else s));
      [reflexivity | cbn [shape convert_element_type]; exact Hsa | ].
    intros i; cbn [item dtype convert_element_type].
    rewrite Hc', Hda, convert_item_same; apply Hia. }
  set (slice := reduced_slice a pd (reduce_index keepdims (ndim a) pd idx)) in *.
  destruct (nan_filled_extremum op d e slice Hlaws) as [Hred _].
  { intros s Hs; destruct (reduced_slice_In _ _ _ _ Hs) as [i ->]; apply Hval. }
  destruct (forallb s_isnan slice) eqn:Hall.
  - apply filter_not_nan_nil in Hall; rewrite Hall; cbn [list_reduce].
    unfold bread; destruct (shape_eqb _ _);
      cbn [item _lax_const scalar_array]; rewrite Hc; apply const_nan, Hi.
  - rewrite Hfold, Hred.
    destruct (filter not_nan slice) as [|x l] eqn:Hk; [|reflexivity].
    apply filter_not_nan_nil in Hk; congruence.
Qed.

(** X12. On a valid array of a floating dtype and positional axes that are
    in range, distinct and of size at least 1, [nanmax] and [nanmin] succeed
    in the dtype of the input; the element at every index is the maximum,
    respectively the minimum, of the elements of the reduced slice that are
    not NaN, and NaN when every element of the slice is NaN. *)
Theorem nanmax_nanmin_skip_nan :
  forall (a : Array) (axis : Axis) (keepdims : bool) (pd : list nat) (dims : list dim),
    valid_array a ->
    is_floating (dtype a) = true ->
    axis_is_positional axis = true ->
    _reduction_dims a axis = Ok (pd, dims) ->
    (forall k, In k pd -> 1 <= nth k (shape a) 0) ->
    exists hi lo,
      nanmax a axis None keepdims None None = Ok hi
      /\ nanmin a axis None keepdims None None = Ok lo
      /\ dtype hi = dtype a /\ dtype lo = dtype a
      /\ shape hi = reduced_shape keepdims pd (shape a)
      /\ shape lo = reduced_shape keepdims pd (shape a)
      /\ forall idx,
           let kept := filter not_nan
                         (reduced_slice a pd (reduce_index keepdims (ndim a) pd idx)) in
           item hi idx = match list_reduce (lax_max (dtype a)) kept with
                         | Some m => m
                         | None => SFl fnan
                         end
           /\ item lo idx = match list_reduce (lax_min (dtype a)) kept with
                            | Some m => m
                            | None => SFl fnan
                            end.
Proof.
  intros a axis keepdims pd dims Hv Hf Hp Hd Hne.
  destruct (nan_extremum "nanmax" "max" lax_max true lax_pmax a axis keepdims pd dims
              (lax_max_laws _ Hf) Hv Hf Hp Hd Hne) as (hi & Hhi & Hdh & Hsh & Hih).
  destruct (nan_extremum "nanmin" "min" lax_min false lax_pmin a axis keepdims pd dims
              (lax_min_laws _ Hf) Hv Hf Hp Hd Hne) as (lo & Hlo & Hdl & Hsl & Hil).
  exists hi, lo; unfold nanmax, nanmin, max, min, _reduce_max, _reduce_min.
  cbn [is_none is_some negb].
  do 6 (split; [assumption|]).
  intros idx; cbv zeta; split; [apply Hih | apply Hil].
Qed.

Lemma nan_extremum_with_initial
    (nname name : string) (op : ReductionOp) (neg : bool)
    (pr : Array -> list dim -> Array)
    (a : Array) (axis : Axis) (keepdims : bool) (pd : list nat) (dims : list dim)
    (d0 : DType) (v : scalar) :
  let d := dtype a in
  let e := SFl (if neg then float_lowest d else float_highest d) in
  let c := convert_item d0 d v in
  extremum_laws op d e ->
  valid_array a ->
  is_floating d = true ->
  axis_is_positional axis = true ->
  _reduction_dims a axis = Ok (pd, dims) ->
  has_dtype d c = true ->
  exists r,
    _nan_reduction a nname
      (fun a axis _ out keepdims initial where_ =>
         _reduction a name op (PyInf neg) false None None false
           (_ensure_optional_axes axis) None out keepdims initial where_ (Some pr) false)
      (PyInf neg) false axis keepdims None None (Some (scalar_array d0 v)) None = Ok r
    /\ dtype r = d
    /\ shape r = reduced_shape keepdims pd (shape a)
    /\ forall idx,
         item r idx
         = match list_reduce (op d)
                   (filter not_nan
                      (reduced_slice a pd (reduce_index keepdims (ndim a) pd idx))) with
           | Some m => op d c m
           | None => c
           end.
Proof.
  intros d e c Hlaws Hv Hf Hp Hd Hcv; pose proof Hv as [Hc Hval].
  assert (Hc' : canonicalize_dtype d = d) by exact Hc.
  pose proof (floating_is_inexact _ Hf) as Hi.
  unfold _nan_reduction; replace (is_inexact (dtype a)) with true by (symmetry; exact Hi).
  cbn [negb].
  destruct (nan_fill_init a (PyInf neg) Hc) as (a' & -> & Hda & Hsa & Hia).
  rewrite (init_val_floating_inf a neg Hc Hf) in Hia; fold d e in Hia.
  cbn [bind]; rewrite (ensure_optional_axes_positional _ Hp).
  pose proof (reduction_dims_positional _ _ _ _ Hp Hd) as Hl.
  assert (Hd' : _reduction_dims a' axis = Ok (pd, dims)).
  { rewrite <- Hd; apply reduction_dims_ndim; unfold ndim; rewrite Hsa; reflexivity. }
  destruct (reduction_dims_positions _ _ _ _ Hd') as [Hnd Hlt].
  rewrite (reduction_positional a' name op (PyInf neg) false None None false axis None
             keepdims (Some (scalar_array d0 v)) None (Some pr) false pd dims
             eq_refl Hd' Hl eq_refl).
  assert (Hrd : reduction_result_dtype false None a' = d)
    by (unfold reduction_result_dtype; cbn [is_none is_some negb andb];
        rewrite Hda; exact Hc).
  rewrite Hrd; cbn [reduction_computation_dtype andb bind].
  cbn [shape convert_element_type scalar_array List.length Nat.eqb negb].
  rewrite (reduction_op_not_bool op None d (inexact_not_bool _ Hi)).
  unfold lax_binop; cbn [dtype shape convert_element_type lax_reduce scalar_array].
  eexists; split;
    [rewrite !Hc', dtype_eqb_refl; cbn [negb lax_broadcast_shape bind]; reflexivity|].
  cbn [dtype shape item convert_element_type].
  split; [destruct keepdims; cbn [dtype lax_expand_dims]; exact Hc'|].
  split.
  { rewrite <- Hsa.
    apply (reduced_result_shape _ keepdims pd (shape a') Hnd Hlt); reflexivity. }
  intros idx.
  match goal with
  | |- convert_item (dtype (if keepdims then lax_expand_dims ?r pd else ?r)) _
         (item _ idx) = _ =>
      replace (dtype (if keepdims then lax_expand_dims r pd else r)) with d
        by (destruct keepdims; reflexivity);
      rewrite Hc', convert_item_same;
      rewrite (expand_dims_item r keepdims pd (shape a') idx Hnd Hlt eq_refl)
  end.
  cbn [item].
  set (j := reduce_index keepdims (List.length (shape a')) pd idx).
  match goal with
  | |- op d (bread ?x ?S j) (bread ?y ?S j) = _ =>
      replace (bread x S j) with c
        by (unfold bread; destruct (shape_eqb _ _);
            cbn [item dtype convert_element_type scalar_array];
            rewrite ?Hc'; reflexivity);
      replace (bread y S j)
        with (fold_left (op d)
                (map (fun s => if s_isnan s then e else s) (reduced_slice a pd j)) e)
  end.
  - destruct (nan_filled_extremum op d e (reduced_slice a pd j) Hlaws) as [Hred _].
    { intros s Hs; destruct (reduced_slice_In _ _ _ _ Hs) as [i ->]; apply Hval. }
    assert (Hj : j = reduce_index keepdims (ndim a) pd idx)
      by (unfold j, ndim; rewrite Hsa; reflexivity).
    rewrite Hred, Hj.
    destruct (list_reduce (op d)
                (filter not_nan
                   (reduced_slice a pd (reduce_index keepdims (ndim a) pd idx))));
      [reflexivity|].
    destruct Hlaws as [He Hop]; apply (Hop c c Hcv Hcv).
  - symmetry.
    match goal with
    | |- bread ?y ?S j = _ => change S with (shape y); rewrite (bread_same y j)
    end.
    rewrite (reduce_item (convert_element_type a' d)).
    cbn [dtype convert_element_type]; rewrite Hc'.
    rewrite init_val_floating_inf;
      [ | cbn [dtype convert_element_type]; rewrite Hc'; exact Hc'
        | cbn [dtype convert_element_type]; rewrite Hc'; exact Hf ].
    cbn [dtype convert_element_type]; rewrite Hc'; fold e.
    rewrite (reduced_slice_map a _ (fun s => if s_isnan s then e else s));
      [reflexivity | cbn [shape convert_element_type]; exact Hsa | ].
    intros i; cbn [item dtype convert_element_type].
    rewrite Hc', Hda, convert_item_same; apply Hia.
Qed.

(** X13. With a scalar [initial] value, [nanmax] and [nanmin] on a valid
    array of a floating dtype never fail on positional axes that are in range
    and distinct, whatever the sizes: the element at every index combines the
    converted [initial] with the maximum, respectively the minimum, of the
    elements of the reduced slice that are not NaN; a slice that holds only
    NaN, or nothing, yields [initial], not NaN. *)
Theorem nanmax_nanmin_with_initial :
  forall (a : Array) (axis : Axis) (keepdims : bool) (pd : list nat) (dims : list dim)
         (d0 : DType) (v : scalar),
    valid_array a ->
    is_floating (dtype a) = true ->
    axis_is_positional axis = true ->
    _reduction_dims a axis = Ok (pd, dims) ->
    let d := dtype a in
    let c := convert_item d0 d v in
    has_dtype d c = true ->
    exists hi lo,
      nanmax a axis None keepdims (Some (scalar_array d0 v)) None = Ok hi
      /\ nanmin a axis None keepdims (Some (scalar_array d0 v)) None = Ok lo
      /\ dtype hi = d /\ dtype lo = d
      /\ shape hi = reduced_shape keepdims pd (shape a)
      /\ shape lo = reduced_shape keepdims pd (shape a)
      /\ forall idx,
           let slice := reduced_slice a pd (reduce_index keepdims (ndim a) pd idx) in
           item hi idx = match list_reduce (lax_max d) (filter not_nan slice) with
                         | Some m => lax_max d c m
                         | None => c
                         end
           /\ item lo idx = match list_reduce (lax_min d) (filter not_nan slice) with
                            | Some m => lax_min d c m
                            | None => c
                            end
           /\ (forallb s_isnan slice = true -> item hi idx = c /\ item lo idx = c).
Proof.
  intros a axis keepdims pd dims d0 v Hv Hf Hp Hd d c Hcv.
  destruct (nan_extremum_with_initial "nanmax" "max" lax_max true lax_pmax a axis keepdims
              pd dims d0 v (lax_max_laws _ Hf) Hv Hf Hp Hd Hcv)
    as (hi & Hhi & Hdh & Hsh & Hih).
  destruct (nan_extremum_with_initial "nanmin" "min" lax_min false lax_pmin a axis keepdims
              pd dims d0 v (lax_min_laws _ Hf) Hv Hf Hp Hd Hcv)
    as (lo & Hlo & Hdl & Hsl & Hil).
  exists hi, lo; unfold nanmax, nanmin, max, min, _reduce_max, _reduce_min.
  cbn [is_none is_some negb].
  do 6 (split; [assumption|]).
  intros idx; cbv zeta; split; [apply Hih|]; split; [apply Hil|].
  intros Hall; apply filter_not_nan_nil in Hall.
  rewrite Hih, Hil, Hall; split; reflexivity.
Qed.

(** *** The shape of a cumulative reduction *)

Lemma nan_fill_const (a : Array) (v : pyval) :
  exists a',
    _where (_isnan a) (OArr (_lax_const a v)) (OArr a) = Ok a' /\ shape a' = shape a.
Proof.
  unfold _where; cbn [operand_shape shape _lax_const scalar_array].
  rewrite broadcast_shapes_nil_l.
  replace (shape (_isnan a)) with (shape a) by reflexivity.
  rewrite broadcast_shapes_refl; eexists; split; reflexivity.
Qed.

Lemma cumulative_shape (name : string) (op : ReductionOp) (fill_nan : bool)
    (fill_value : pyval) (promote : bool) (a : Array) (axis : Axis)
    (dtype_ : option DType) (a0 : Array) (k : nat) :
  cumulative_input a (_ensure_optional_axes axis) = Ok (a0, k) ->
  exists r,
    _make_cumulative_reduction name (lax_cumulative op) fill_nan fill_value promote
      a axis dtype_ None = Ok r
    /\ shape r = shape a0.
Proof.
  intros H; unfold _make_cumulative_reduction; cbn [is_some]; rewrite H; cbn [bind].
  destruct fill_nan.
  - destruct (nan_fill_const a0 fill_value) as (a' & -> & Hs); cbn [bind].
    eexists; split; [reflexivity|].
    destruct dtype_ as [d|]; [destruct (is_bool d)|];
      cbn [shape convert_element_type lax_cumulative]; exact Hs.
  - cbn [bind]; eexists; split; [reflexivity|].
    destruct dtype_ as [d|]; [destruct (is_bool d)|]; reflexivity.
Qed.

(** X14. Each of [cumsum], [cumprod], [nancumsum] and [nancumprod] succeeds
    with [axis=None] on every input and every [dtype], returning the 1-D
    array of the [size(a)] accumulated elements of the flattened input (a
    0-d input gives one element); with an integer axis in range, on an input
    that is not a Python scalar, it succeeds and keeps the shape of the
    input; and an axis out of range is rejected with the ValueError of the
    axis canonicalization. *)
Theorem cumulative_reductions_flatten_or_keep_shape :
  forall (f : Array -> Axis -> option DType -> option Array -> result Array)
         (a : Array) (dtype_ : option DType),
    In f [cumsum; cumprod; nancumsum; nancumprod] ->
    (exists r, f a AxisNone dtype_ None = Ok r /\ shape r = [size a])
    /\ (forall i k,
          _isscalar a = false -> _canonicalize_axis i (ndim a) = Ok k ->
          exists r, f a (AxisOne (AxInt i)) dtype_ None = Ok r /\ shape r = shape a)
    /\ (forall i,
          _isscalar a = false ->
          (i < - Z.of_nat (ndim a) \/ Z.of_nat (ndim a) <= i)%Z ->
          f a (AxisOne (AxInt i)) dtype_ None
          = Raise (ValueError ("axis " ++ string_of_Z i
                               ++ " is out of bounds for array of dimension "
                               ++ string_of_nat (ndim a))%string)).
Proof.
  intros f a dtype_ Hf.
  assert (Hgen : forall name op fill_nan fill_value,
            f = _make_cumulative_reduction name (lax_cumulative op) fill_nan fill_value
                  false ->
            (exists r, f a AxisNone dtype_ None = Ok r /\ shape r = [size a])
            /\ (forall i k,
                  _isscalar a = false -> _canonicalize_axis i (ndim a) = Ok k ->
                  exists r, f a (AxisOne (AxInt i)) dtype_ None = Ok r
                            /\ shape r = shape a)
            /\ (forall i,
                  _isscalar a = false ->
                  (i < - Z.of_nat (ndim a) \/ Z.of_nat (ndim a) <= i)%Z ->
                  f a (AxisOne (AxInt i)) dtype_ None
                  = Raise (ValueError ("axis " ++ string_of_Z i
                                       ++ " is out of bounds for array of dimension "
                                       ++ string_of_nat (ndim a))%string))).
  { intros name op fill_nan fill_value ->; split; [|split].
    - apply (cumulative_shape name op fill_nan fill_value false a AxisNone dtype_
               (ravel a) 0); reflexivity.
    - intros i k Hs Hk.
      apply (cumulative_shape name op fill_nan fill_value false a (AxisOne (AxInt i))
               dtype_ a k).
      unfold cumulative_input; cbn [_ensure_optional_axes]; rewrite Hs, Hk; reflexivity.
    - intros i Hs Hi; unfold _make_cumulative_reduction, cumulative_input.
      cbn [_ensure_optional_axes is_some]; rewrite Hs.
      rewrite (canonicalize_axis_out_of_bounds i (ndim a) Hi); reflexivity. }
  destruct Hf as [<-|[<-|[<-|[<-|[]]]]].
  - apply (Hgen "cumsum"%string lax_add false (PyInt 0)); reflexivity.
  - apply (Hgen "cumprod"%string lax_mul false (PyInt 0)); reflexivity.
  - apply (Hgen "nancumsum"%string lax_add true (PyInt 0)); reflexivity.
  - apply (Hgen "nancumprod"%string lax_mul true (PyInt 1)); reflexivity.
Qed.

(** *** Kept dimensions *)

Lemma broadcast_rev_ones (l1 l2 : list nat) :
  Forall2 (fun n m => m = n \/ m = 1) l1 l2 -> broadcast_rev l1 l2 = Some l1.
Proof.
  induction 1 as [|n m l1 l2 Hnm _ IH]; [reflexivity|].
  cbn [broadcast_rev]; rewrite IH.
  destruct Hnm as [-> | ->]; [rewrite Nat.eqb_refl; reflexivity|].
  destruct (n =? 1) eqn:E; [apply Nat.eqb_eq in E; subst n; reflexivity|reflexivity].
Qed.

Lemma keepdims_shape_ones (flags : list bool) (sh : list nat) :
  List.length flags = List.length sh ->
  Forall2 (fun n m => m = n \/ m = 1) sh (keepdims_shape flags sh).
Proof.
  revert sh; induction flags as [|f flags IH]; intros [|n sh] H; try discriminate H;
    cbn [keepdims_shape]; constructor.
  - destruct f; [right | left]; reflexivity.
  - apply IH; injection H as H; exact H.
Qed.

Lemma Forall2_rev_ones (l1 l2 : list nat) :
  Forall2 (fun n m => m = n \/ m = 1) l1 l2 ->
  Forall2 (fun n m => m = n \/ m = 1) (rev l1) (rev l2).
Proof.
  induction 1 as [|n m l1 l2 Hnm _ IH]; [constructor|].
  cbn [rev]; apply Forall2_app; [exact IH | constructor; [exact Hnm | constructor]].
Qed.

(** The result of a reduction with kept dimensions broadcasts against the
    input. *)
Lemma keepdims_broadcasts (pd sh : list nat) :
  broadcast_shapes sh (reduced_shape true pd sh) = Some sh.
Proof.
  unfold broadcast_shapes, reduced_shape.
  rewrite (broadcast_rev_ones (rev sh));
    [cbn [option_map]; rewrite rev_involutive; reflexivity|].
  apply Forall2_rev_ones, keepdims_shape_ones, dim_flags_length.
Qed.

Lemma reduction_keepdims
    (a : Array) (name : string) (op : ReductionOp) (init_val : pyval)
    (has_identity : bool) (preproc : option (Array -> Array))
    (bool_op : option ReductionOp) (upcast : bool) (axis : Axis)
    (dtype_ : option DType) (out : option Array) (initial where_ : option Array)
    (pr : option (Array -> list dim -> Array)) (promote : bool)
    (pd : list nat) (dims : list dim) :
  let a1 := match preproc with Some f => f a | None => a end in
  let run keepdims :=
    _reduction a name op init_val has_identity preproc bool_op upcast axis dtype_ out
      keepdims initial where_ pr promote in
  _reduction_dims a1 axis = Ok (pd, dims) ->
  match run false with
  | Raise e => run true = Raise e
  | Ok r =>
      exists r',
        run true = Ok r' /\ dtype r' = dtype r
        /\ (List.length pd = List.length dims ->
            where_ = None \/ (exists w, where_ = Some w /\ shape w = shape a1) ->
            shape r = reduced_shape false pd (shape a1)
            /\ shape r' = reduced_shape true pd (shape a1))
        /\ forall idx,
             item r' idx
             = item r (select_dims (dim_flags (ndim r + List.length pd) pd) idx false)
  end.
Proof.
  intros a1 run Hd; unfold run, _reduction; fold a1; rewrite Hd; cbn [bind].
  destruct (is_some out); [reflexivity|].
  destruct (is_none initial && negb has_identity && is_some where_); [reflexivity|].
  destruct (is_none initial && negb has_identity && negb (forallb _ pd)); [reflexivity|].
  set (rd := canonicalize_dtype _).
  set (cd := if upcast && is_inexact rd then _upcast_f16 rd else rd).
  set (ac := convert_element_type a1 cd).
  set (op' := if negb (dtype_eqb cd bool_) then op
              else match bool_op with Some b => b | None => op end).
  set (init := _reduction_init_val ac init_val).
  destruct (match where_ with Some w => _where w (OArr ac) (OArr init) | None => Ok ac end)
    as [aw|e] eqn:Haw; [|reflexivity].
  cbn [bind].
  destruct (if negb (List.length pd =? List.length dims)
            then match pr with
                 | Some pr0 => Ok (pr0 aw dims)
                 | None => Raise (NotImplementedError
                     ("Named reductions not implemented for jnp." ++ name ++ "()")%string)
                 end
            else Ok (lax_reduce aw init op' pd)) as [res|e] eqn:Hres; [|reflexivity].
  cbn [bind].
  destruct (match initial with
            | Some initial0 =>
                if negb (List.length (shape (convert_element_type initial0 (dtype aw))) =? 0)
                then Raise (ValueError
                       ("initial value must be a scalar. Got array of shape "
                        ++ show_shape (shape (convert_element_type initial0 (dtype aw)))))
                else lax_binop op' (convert_element_type initial0 (dtype aw)) res
            | None => Ok res
            end) as [res'|e] eqn:Hres'; [|reflexivity].
  cbn [bind]; eexists; split; [reflexivity|].
  cbn [dtype shape item convert_element_type lax_expand_dims].
  split; [reflexivity|]; split; [|reflexivity].
  intros Hl Hw.
  destruct (reduction_dims_positions _ _ _ _ Hd) as [Hnd Hlt].
  rewrite Hl, Nat.eqb_refl in Hres; cbn [negb] in Hres; injection Hres as <-.
  assert (Hsaw : shape aw = shape a1).
  { destruct Hw as [-> | [w [-> Hsw]]].
    - cbv beta iota in Haw; injection Haw as <-; reflexivity.
    - cbv beta iota in Haw; unfold _where in Haw; cbn [operand_shape shape] in Haw.
      replace (shape init) with (@nil nat) in Haw by reflexivity.
      replace (shape ac) with (shape a1) in Haw by reflexivity.
      rewrite broadcast_shapes_nil_r, Hsw, broadcast_shapes_refl in Haw.
      injection Haw as <-; reflexivity. }
  assert (Hs' : shape res' = select_dims (dim_flags (List.length (shape a1)) pd)
                               (shape a1) false).
  { destruct initial as [ini|];
      [|injection Hres' as <-; cbn [shape lax_reduce]; unfold ndim; rewrite Hsaw;
        reflexivity].
    cbn [shape convert_element_type] in Hres'.
    destruct (shape ini) as [|n0 s0] eqn:Hsi; [|discriminate Hres'].
    cbn [List.length Nat.eqb negb] in Hres'.
    unfold lax_binop in Hres'; destruct (negb _) in Hres'; [discriminate Hres'|].
    cbn [shape lax_reduce convert_element_type] in Hres'.
    rewrite Hsi, Hsaw in Hres'; unfold ndim in Hres'; rewrite Hsaw in Hres'.
    cbn [lax_broadcast_shape] in Hres'.
    injection Hres' as <-; reflexivity. }
  split; [exact Hs'|].
  apply (reduced_result_shape res' true pd (shape a1) Hnd Hlt Hs').
Qed.

(** X15. [keepdims] only reshapes: for every reduction and every choice of
    the other arguments, on axes that are valid, the call with
    [keepdims=True] fails exactly when the call with [keepdims=False] fails,
    with the same error; otherwise both results have the same dtype, the
    element of the kept-dimensions result at an index is the element of the
    plain result at that index without its reduced positions, and (for
    positional axes and a mask of the shape of the input) the
    kept-dimensions result has size 1 at the reduced positions and
    broadcasts against the input. *)
Theorem keepdims_only_reshapes :
  forall (a : Array) (axis : Axis) (dtype_ : option DType) (out initial : option Array)
         (where_ : option Array) (promote : bool) (pd : list nat) (dims : list dim),
    axis_is_positional axis = true ->
    _reduction_dims a axis = Ok (pd, dims) ->
    where_ = None \/ (exists w, where_ = Some w /\ shape w = shape a) ->
    let related (run : bool -> result Array) :=
      match run false with
      | Raise e => run true = Raise e
      | Ok r =>
          exists r',
            run true = Ok r' /\ dtype r' = dtype r
            /\ shape r = reduced_shape false pd (shape a)
            /\ shape r' = reduced_shape true pd (shape a)
            /\ broadcast_shapes (shape a) (shape r') = Some (shape a)
            /\ forall idx, item r' idx = item r (reduce_index true (ndim a) pd idx)
      end in
    related (fun k => sum a axis dtype_ out k initial where_ promote)
    /\ related (fun k => prod a axis dtype_ out k initial where_ promote)
    /\ related (fun k => max a axis out k initial where_)
    /\ related (fun k => min a axis out k initial where_)
    /\ related (fun k => all a axis out k where_)
    /\ related (fun k => any a axis out k where_).
Proof.
  intros a axis dtype_ out initial where_ promote pd dims Hp Hd Hw related.
  pose proof (reduction_dims_positional _ _ _ _ Hp Hd) as Hl.
  destruct (reduction_dims_positions _ _ _ _ Hd) as [Hnd Hlt].
  assert (Hgen : forall name op init_val has_identity preproc bool_op upcast dt ini pr prom,
            (forall b, shape (match preproc with Some f => f b | None => b end) = shape b) ->
            related (fun k =>
              _reduction a name op init_val has_identity preproc bool_op upcast
                (_ensure_optional_axes axis) dt out k ini where_ pr prom)).
  { intros name op init_val has_identity preproc bool_op upcast dt ini pr prom Hpre.
    rewrite (ensure_optional_axes_positional _ Hp).
    assert (Hd1 : _reduction_dims (match preproc with Some f => f a | None => a end) axis
                  = Ok (pd, dims)).
    { rewrite <- Hd; apply reduction_dims_ndim; unfold ndim; rewrite Hpre; reflexivity. }
    pose proof (reduction_keepdims a name op init_val has_identity preproc bool_op upcast
                  axis dt out ini where_ pr prom pd dims Hd1) as H.
    cbv beta zeta in H; unfold related; cbv beta; revert H.
    destruct (_reduction a name op init_val has_identity preproc bool_op upcast axis
                dt out false ini where_ pr prom) as [r|e]; intros H; [|exact H].
    destruct H as (r' & Hr' & Hdt & Hsh & Hit).
    rewrite Hpre in Hsh.
    destruct (Hsh Hl Hw) as [Hs Hs'].
    exists r'; split; [exact Hr'|]; split; [exact Hdt|]; split; [exact Hs|].
    split; [exact Hs'|]; split; [rewrite Hs'; apply keepdims_broadcasts|].
    intros idx; rewrite Hit; unfold reduce_index, ndim; rewrite Hs.
    pose proof (select_dims_length (dim_flags (List.length (shape a)) pd) (shape a)
                  (dim_flags_length _ _)) as Hlen.
    rewrite (dim_flags_count (List.length (shape a)) pd Hnd Hlt) in Hlen.
    unfold reduced_shape; rewrite Hlen; reflexivity. }
  repeat split.
  - apply (Hgen "sum"%string lax_add (PyInt 0) true (Some _cast_to_numeric)
             (Some lax_bitwise_or) true dtype_ initial (Some lax_psum) promote).
    intros b; apply shape_cast_to_numeric.
  - apply (Hgen "prod"%string lax_mul (PyInt 1) true (Some _cast_to_numeric)
             (Some lax_bitwise_and) true dtype_ initial None promote).
    intros b; apply shape_cast_to_numeric.
  - apply (Hgen "max"%string lax_max (PyInf true) false None None false None initial
             (Some lax_pmax) false); reflexivity.
  - apply (Hgen "min"%string lax_min (PyInf false) false None None false None initial
             (Some lax_pmin) false); reflexivity.
  - apply (Hgen "all"%string lax_bitwise_and (PyBool true) true (Some _cast_to_bool)
             None false None None None false); reflexivity.
  - apply (Hgen "any"%string lax_bitwise_or (PyBool false) true (Some _cast_to_bool)
             None false None None None false); reflexivity.
Qed.

(** *** The dtype of a result *)

Lemma reduction_dtype
    (a : Array) (name : string) (op : ReductionOp) (init_val : pyval)
    (has_identity : bool) (preproc : option (Array -> Array))
    (bool_op : option ReductionOp) (upcast : bool) (axis : Axis)
    (dtype_ : option DType) (out : option Array) (keepdims : bool)
    (initial where_ : option Array)
    (pr : option (Array -> list dim -> Array)) (promote : bool) (r : Array) :
  _reduction a name op init_val has_identity preproc bool_op upcast axis dtype_ out
    keepdims initial where_ pr promote = Ok r ->
  dtype r
  = canonicalize_dtype
      match dtype_ with
      | Some d => d
      | None =>
          reduction_result_dtype promote None
            (match preproc with Some f => f a | None => a end)
      end.
Proof.
  unfold _reduction; intros H.
  destruct (is_some out); [discriminate H|].
  destruct (is_none initial && negb has_identity && is_some where_); [discriminate H|].
  destruct (_reduction_dims _ axis) as [[p ds]|e]; [|discriminate H].
  cbn [bind] in H.
  destruct (is_none initial && negb has_identity && negb (forallb _ p));
    [discriminate H|].
  match type of H with bind ?w _ = _ => destruct w as [aw|e]; [|discriminate H] end.
  cbn [bind] in H.
  match type of H with bind ?w _ = _ => destruct w as [res|e]; [|discriminate H] end.
  cbn [bind] in H.
  match type of H with bind ?w _ = _ => destruct w as [res'|e]; [|discriminate H] end.
  cbn [bind] in H; injection H as <-.
  cbn [dtype convert_element_type]; destruct dtype_; reflexivity.
Qed.


(** *** Peak to peak *)

(** X17. [ptp] on a valid integer array and positional axes that are in
    range, distinct and of size at least 1 succeeds in the dtype of the
    input, and each element is the difference of the greatest and the least
    element of the reduced slice, wrapped around at the width of the dtype
    (so it can be negative for a signed dtype); on a zero-size reduced axis
    it raises the ValueError of [max]; a boolean input is rejected by the
    subtraction; and [out] is not supported. *)
Theorem ptp_is_max_minus_min :
  forall (a : Array) (axis : Axis) (keepdims : bool) (pd : list nat) (dims : list dim),
    axis_is_positional axis = true ->
    _reduction_dims a axis = Ok (pd, dims) ->
    (valid_array a -> is_integer (dtype a) = true ->
     (forall d, In d pd -> 1 <= nth d (shape a) 0) ->
     exists r,
       ptp a axis None keepdims = Ok r
       /\ dtype r = dtype a
       /\ shape r = reduced_shape keepdims pd (shape a)
       /\ forall idx,
            let slice := reduced_slice a pd (reduce_index keepdims (ndim a) pd idx) in
            exists m n,
              is_int_maximum m slice /\ is_int_minimum n slice
              /\ item r idx = SInt (wrap (dtype a) (m - n)))
    /\ ((exists d, In d pd /\ nth d (shape a) 0 = 0) ->
        ptp a axis None keepdims
        = Raise (ValueError
            "zero-size array to reduction operation max which has no identity"))
    /\ (canonicalize_dtype (dtype a) = bool_ ->
        is_ok (ptp a axis None keepdims) = false)
    /\ (forall o,
          ptp a axis (Some o) keepdims
          = Raise (NotImplementedError "The 'out' argument to jnp.ptp is not supported.")).
Proof.
  intros a axis keepdims pd dims Hp Hd; split; [|split; [|split]].
  - intros Hv Hi Hne.
    destruct (integer_extremum "max" lax_max true is_int_maximum (Some lax_pmax)
                a axis keepdims pd dims) as (hi & Hhi & Hdh & Hsh & Hih); try assumption.
    { intros d l; apply fold_int_maximum. }
    destruct (integer_extremum "min" lax_min false is_int_minimum (Some lax_pmin)
                a axis keepdims pd dims) as (lo & Hlo & Hdl & Hsl & Hil); try assumption.
    { intros d l; apply fold_int_minimum. }
    assert (Hptp : ptp a axis None keepdims = lax_sub_arrays hi lo).
    { unfold ptp, _ptp, amax, amin, max, min, _reduce_max, _reduce_min.
      cbn [is_some]; rewrite !(ensure_optional_axes_positional _ Hp) in *.
      rewrite Hhi; cbn [bind]; rewrite Hlo; reflexivity. }
    rewrite Hptp.
    unfold lax_sub_arrays; rewrite Hdh, (integer_not_bool _ Hi).
    unfold lax_binop; rewrite Hdh, Hdl, dtype_eqb_refl; cbn [negb].
    assert (Hb : lax_broadcast_shape (shape hi) (shape lo) = Some (shape hi)).
    { rewrite Hsl, <- Hsh; unfold lax_broadcast_shape.
      destruct (shape hi) as [|n s] eqn:E; [reflexivity|].
      rewrite Nat.eqb_refl; apply broadcast_shapes_refl. }
    rewrite Hb; eexists; split; [reflexivity|]; cbn [dtype shape item].
    split; [reflexivity|]; split; [exact Hsh|].
    intros idx; cbv zeta.
    destruct (Hih idx) as (m & Hm & HM), (Hil idx) as (n & Hn & HN).
    exists m, n; split; [exact HM|]; split; [exact HN|].
    rewrite bread_same.
    replace (bread lo (shape hi) idx) with (item lo idx)
      by (rewrite Hsh, <- Hsl; symmetry; apply bread_same).
    rewrite Hm, Hn; reflexivity.
  - intros [d [Hin Hz]]; unfold ptp, _ptp, amax, max, _reduce_max; cbn [is_some].
    rewrite !(ensure_optional_axes_positional _ Hp).
    rewrite (reduction_without_identity_zero_size a "max" lax_max (PyInf true) axis
               keepdims (Some lax_pmax) pd dims Hd); [reflexivity|].
    apply forallb_false_exists; exists d; split; [exact Hin|].
    rewrite Hz; reflexivity.
  - intros Hb; unfold ptp, _ptp, amax, amin; cbn [is_some].
    destruct (max a _ None keepdims None None) as [x|e] eqn:Hx; [|reflexivity].
    cbn [bind].
    destruct (min a _ None keepdims None None) as [y|e] eqn:Hy; [|reflexivity].
    cbn [bind]; unfold lax_sub_arrays.
    assert (Hdx : dtype x = bool_).
    { unfold max, _reduce_max in Hx; apply reduction_dtype in Hx; rewrite Hx.
      unfold reduction_result_dtype; cbn [is_none is_some negb andb].
      rewrite canonicalize_dtype_idem; exact Hb. }
    rewrite Hdx; reflexivity.
  - intros o; reflexivity.
Qed.

(** *** The number of reduced elements *)

Lemma indices_length (sh : list nat) :
  List.length (indices sh) = fold_right Nat.mul 1 sh.
Proof.
  induction sh as [|n sh IH]; [reflexivity|]; cbn [indices fold_right].
  rewrite <- IH.
  assert (H : forall l0 : list nat,
            List.length (flat_map (fun i => map (cons i) (indices sh)) l0)
            = List.length l0 * List.length (indices sh)).
  { induction l0 as [|i l0 IHl]; [reflexivity|]; cbn [flat_map List.length].
    rewrite length_app, length_map, IHl; reflexivity. }
  rewrite H, length_seq; reflexivity.
Qed.

Lemma select_dims_filter (f : nat -> bool) (l : list nat) (s : nat) :
  select_dims (map f (seq s (List.length l))) l true
  = map (fun k => nth (k - s) l 0) (filter f (seq s (List.length l))).
Proof.
  revert s; induction l as [|n l IH]; intros s; [reflexivity|].
  cbn [List.length seq map select_dims filter].
  assert (Hrest : map (fun k => nth (k - S s) l 0) (filter f (seq (S s) (List.length l)))
                  = map (fun k => nth (k - s) (n :: l) 0)
                      (filter f (seq (S s) (List.length l)))).
  { apply map_ext_in; intros k Hk; apply filter_In in Hk; destruct Hk as [Hk _].
    apply in_seq in Hk; replace (k - s) with (S (k - S s)) by lia; reflexivity. }
  destruct (f s); cbn [Bool.eqb map]; rewrite IH, Hrest; [|reflexivity].
  rewrite Nat.sub_diag; reflexivity.
Qed.

Lemma product_Permutation (g : nat -> nat) (l1 l2 : list nat) :
  Permutation l1 l2 ->
  fold_right Nat.mul 1 (map g l1) = fold_right Nat.mul 1 (map g l2).
Proof.
  induction 1 as [|x l l' HP IH|x y l|l l' l'' HP1 IH1 HP2 IH2]; cbn [map fold_right].
  - reflexivity.
  - rewrite IH; reflexivity.
  - lia.
  - congruence.
Qed.

Lemma reduced_slice_length (a : Array) (pd oidx : list nat) :
  NoDup pd -> (forall k, In k pd -> k < ndim a) ->
  List.length (reduced_slice a pd oidx)
  = fold_right Nat.mul 1 (map (fun k => nth k (shape a) 0) pd).
Proof.
  intros Hnd Hlt; unfold reduced_slice; rewrite length_map, indices_length.
  unfold dim_flags, ndim; rewrite select_dims_filter.
  rewrite (map_ext (fun k => nth (k - 0) (shape a) 0) (fun k => nth k (shape a) 0))
    by (intros k; rewrite Nat.sub_0_r; reflexivity).
  apply product_Permutation, NoDup_Permutation.
  - apply NoDup_filter, seq_NoDup.
  - exact Hnd.
  - intros k; rewrite filter_In, in_seq, mem_nat_In; split; [tauto|].
    intros Hk; split; [|exact Hk]; specialize (Hlt k Hk); unfold ndim in Hlt; lia.
Qed.

Lemma tuple_index_canonical (sh : list nat) (i : Z) (k : nat) :
  _canonicalize_axis i (List.length sh) = Ok k -> tuple_index sh i = Ok (nth k sh 0).
Proof.
  unfold _canonicalize_axis, tuple_index; cbv zeta.
  destruct ((- Z.of_nat (List.length sh) <=? i)%Z && (i <? Z.of_nat (List.length sh))%Z);
    [|discriminate].
  intros H; injection H as <-; reflexivity.
Qed.

Lemma axis_size_loop_positional (sh : list nat) (l : list axis_item) (c : list dim)
    (acc : nat) :
  forallb (fun x => match x with AxInt _ => true | AxName _ => false end) l = true ->
  mapM (fun x => _canonicalize_axis_allow_named x (List.length sh)) l = Ok c ->
  _axis_size_loop sh l acc
  = Ok (acc * fold_right Nat.mul 1 (map (fun k => nth k sh 0) (positional c))).
Proof.
  revert c acc; induction l as [|x l IH]; intros c acc Hf H.
  - injection H as <-; cbn; rewrite Nat.mul_1_r; reflexivity.
  - destruct x as [i|s]; [|discriminate Hf]; cbn [forallb andb] in Hf.
    cbn [mapM _canonicalize_axis_allow_named] in H.
    destruct (_canonicalize_axis i (List.length sh)) as [k|e] eqn:Ek; [|discriminate H].
    cbn [bind] in H.
    destruct (mapM _ l) as [c'|e] eqn:El; [|discriminate H]; cbn [bind] in H.
    injection H as <-; cbn [_axis_size_loop].
    rewrite (tuple_index_canonical sh i k Ek); cbn [bind positional map fold_right].
    rewrite (IH c' _ Hf eq_refl); f_equal; lia.
Qed.

Lemma size_is_full_slice (a : Array) (oidx : list nat) :
  size a = List.length (reduced_slice a (seq 0 (ndim a)) oidx).
Proof.
  rewrite reduced_slice_length;
    [ | apply seq_NoDup | intros k Hk; apply in_seq in Hk; lia ].
  unfold size, ndim; generalize (shape a); intros sh; symmetry.
  assert (H : forall (pre : list nat),
            map (fun k => nth k (pre ++ sh) 0) (seq (List.length pre) (List.length sh))
            = sh).
  { induction sh as [|n sh IH]; intros pre; [reflexivity|].
    cbn [List.length seq map]; rewrite app_nth2, Nat.sub_diag by lia.
    cbn [nth]; f_equal.
    specialize (IH (pre ++ [n])); rewrite length_app, <- app_assoc in IH.
    cbn [List.length app] in IH; rewrite Nat.add_1_r in IH; exact IH. }
  specialize (H []); cbn [app List.length] in H; rewrite H; reflexivity.
Qed.

(** The count [mean] and [var] divide by is the number of elements of each
    reduced slice. *)
Lemma reduced_count_is_slice_length (a : Array) (axis : Axis) (pd : list nat)
    (dims : list dim) (oidx : list nat) :
  axis_is_positional axis = true ->
  _reduction_dims a axis = Ok (pd, dims) ->
  reduced_count a (_ensure_optional_axes axis)
  = Ok (List.length (reduced_slice a pd oidx)).
Proof.
  intros Hp Hd; rewrite (ensure_optional_axes_positional _ Hp).
  destruct (reduction_dims_positions _ _ _ _ Hd) as [Hnd Hlt].
  rewrite (reduced_slice_length a pd oidx Hnd Hlt).
  destruct axis as [|x|l].
  - cbn [reduced_count]; cbn in Hd; injection Hd as <- _.
    rewrite (size_is_full_slice a oidx), reduced_slice_length;
      [reflexivity | apply seq_NoDup | intros k Hk; apply in_seq in Hk; lia].
  - unfold reduced_count, _axis_size; cbv beta iota zeta; unfold _reduction_dims in Hd.
    destruct (mapM _ [x]) as [c|e] eqn:Ec; [|discriminate Hd]; cbn [bind] in Hd.
    destruct (negb _); [discriminate Hd|]; injection Hd as <- _.
    rewrite (axis_size_loop_positional (shape a) [x] c 1); [|destruct x; [reflexivity|discriminate Hp]|exact Ec].
    rewrite Nat.mul_1_l; reflexivity.
  - unfold reduced_count, _axis_size; cbv beta iota zeta; unfold _reduction_dims in Hd.
    destruct (mapM _ l) as [c|e] eqn:Ec; [|discriminate Hd]; cbn [bind] in Hd.
    destruct (negb _); [discriminate Hd|]; injection Hd as <- _.
    rewrite (axis_size_loop_positional (shape a) l c 1 Hp Ec).
    rewrite Nat.mul_1_l; reflexivity.
Qed.

Lemma sum_plain (a : Array) (axis : Axis) (dtype_ : option DType) (keepdims : bool)
    (promote : bool) (pd : list nat) (dims : list dim) :
  axis_is_positional axis = true ->
  _reduction_dims a axis = Ok (pd, dims) ->
  exists s,
    sum a axis dtype_ None keepdims None None promote = Ok s
    /\ dtype s = canonicalize_dtype
                   match dtype_ with
                   | Some d => d
                   | None => reduction_result_dtype promote None (_cast_to_numeric a)
                   end
    /\ shape s = reduced_shape keepdims pd (shape a).
Proof.
  intros Hp Hd; unfold sum, _reduce_sum.
  rewrite (ensure_optional_axes_positional _ Hp).
  pose proof (reduction_dims_positional _ _ _ _ Hp Hd) as Hl.
  assert (Hd' : _reduction_dims (_cast_to_numeric a) axis = Ok (pd, dims)).
  { rewrite <- Hd; apply reduction_dims_ndim; unfold ndim.
    rewrite shape_cast_to_numeric; reflexivity. }
  destruct (reduction_plain a "sum" lax_add (PyInt 0) true (Some _cast_to_numeric)
              (Some lax_bitwise_or) true axis dtype_ keepdims (Some lax_psum) promote
              pd dims Hd' Hl) as (s & Hs & Hdt & Hsh & _); [discriminate|].
  exists s; split; [exact Hs|]; split.
  - rewrite (reduction_dtype _ _ _ _ _ _ _ _ _ _ _ _ _ _ _ _ _ Hs); reflexivity.
  - rewrite Hsh, shape_cast_to_numeric; reflexivity.
Qed.

Lemma broadcast_with_scalar (s : list nat) : lax_broadcast_shape s [] = Some s.
Proof. destruct s; reflexivity. Qed.

Lemma mean_plain :
  forall (a : Array) (axis : Axis) (dtype_ : option DType) (keepdims : bool)
         (pd : list nat) (dims : list dim),
    axis_is_positional axis = true ->
    _reduction_dims a axis = Ok (pd, dims) ->
    let rdt := match dtype_ with
               | None => to_inexact_dtype (canonicalize_dtype (dtype a))
               | Some d => canonicalize_dtype d
               end in
    let cd := if is_inexact rdt then _upcast_f16 rdt else rdt in
    exists s r,
      sum a axis (Some cd) None keepdims None None true = Ok s
      /\ mean a axis dtype_ None keepdims None = Ok r
      /\ dtype s = canonicalize_dtype cd
      /\ dtype r = canonicalize_dtype rdt
      /\ shape r = reduced_shape keepdims pd (shape a)
      /\ forall idx,
           let n := List.length
                      (reduced_slice a pd (reduce_index keepdims (ndim a) pd idx)) in
           item r idx
           = convert_item (dtype s) (dtype r)
               (lax_div (dtype s) (item s idx)
                  (convert_item default_int (dtype s) (SInt (Z.of_nat n)))).
Proof.
  intros a axis dtype_ keepdims pd dims Hp Hd rdt cd.
  destruct (sum_plain a axis (Some cd) keepdims true pd dims Hp Hd)
    as (s & Hs & Hds & Hss).
  exists s.
  assert (Hnorm : forall oidx,
            match _ensure_optional_axes axis with
            | AxisNone => Ok (pynum_array (PInt (Z.of_nat (size a))))
            | _ => n <- _axis_size a (_ensure_optional_axes axis) ;;
                   Ok (pynum_array (PInt (Z.of_nat n)))
            end
            = Ok (pynum_array
                    (PInt (Z.of_nat (List.length (reduced_slice a pd oidx)))))).
  { intros oidx.
    pose proof (reduced_count_is_slice_length a axis pd dims oidx Hp Hd) as Hc.
    unfold reduced_count in Hc.
    destruct (_ensure_optional_axes axis); [injection Hc as ->; reflexivity| |];
      rewrite Hc; reflexivity. }
  assert (Hlen : forall o1 o2,
            List.length (reduced_slice a pd o1) = List.length (reduced_slice a pd o2)).
  { destruct (reduction_dims_positions _ _ _ _ Hd) as [Hnd Hlt].
    intros o1 o2; rewrite !reduced_slice_length by assumption; reflexivity. }
  assert (Hmean : mean a axis dtype_ None keepdims None
                  = (q <- lax_binop lax_div s
                            (convert_element_type
                               (pynum_array
                                  (PInt (Z.of_nat (List.length (reduced_slice a pd [])))))
                               cd) ;;
                     Ok (astype q rdt))).
  { unfold mean, _mean; cbn [is_some andb]; fold rdt; fold cd.
    rewrite (Hnorm []); cbn [bind].
    rewrite (ensure_optional_axes_positional _ Hp), Hs; reflexivity. }
  rewrite Hmean; unfold lax_binop.
  cbn [dtype shape convert_element_type pynum_array].
  rewrite Hds, dtype_eqb_refl, broadcast_with_scalar; cbn [negb bind].
  eexists; split; [exact Hs|]; split; [reflexivity|].
  cbn [dtype shape item astype convert_element_type].
  split; [reflexivity|]; split; [reflexivity|]; split; [exact Hss|].
  intros idx; cbv zeta; rewrite bread_same.
  rewrite (Hlen (reduce_index keepdims (ndim a) pd idx) []).
  f_equal; f_equal.
  unfold bread; destruct (shape_eqb _ _); reflexivity.
Qed.


(** X19. An integer axis out of range is reported by [mean] and [var]
    (without a mask) as the IndexError of the shape lookup, not as the
    ValueError of the axis canonicalization that [sum] raises: the number of
    reduced elements is computed before any reduction is attempted. *)
Theorem mean_reports_bad_axis_as_index_error :
  forall (a : Array) (i : Z),
    (i < - Z.of_nat (ndim a) \/ Z.of_nat (ndim a) <= i)%Z ->
    (forall dtype_ keepdims,
        mean a (AxisOne (AxInt i)) dtype_ None keepdims None
        = Raise (IndexError "tuple index out of range"))
    /\ (forall ddof keepdims,
          var a (AxisOne (AxInt i)) None None ddof keepdims None None
          = Raise (IndexError "tuple index out of range"))
    /\ (forall keepdims,
          sum a (AxisOne (AxInt i)) None None keepdims None None true
          = Raise (ValueError ("axis " ++ string_of_Z i
                               ++ " is out of bounds for array of dimension "
                               ++ string_of_nat (ndim a))%string)).
Proof.
  intros a i H.
  assert (Ht : forall sh, List.length sh = ndim a ->
                 tuple_index sh i = Raise (IndexError "tuple index out of range")).
  { intros sh Hsh; unfold tuple_index; cbv zeta; rewrite Hsh.
    destruct ((- Z.of_nat (ndim a) <=? i)%Z && (i <? Z.of_nat (ndim a))%Z) eqn:E;
      [|reflexivity].
    apply andb_true_iff in E; destruct E as [E1 E2].
    apply Z.leb_le in E1; apply Z.ltb_lt in E2; lia. }
  split; [|split].
  - intros dtype_ keepdims; unfold mean, _mean, _axis_size.
    cbn [is_some _ensure_optional_axes _axis_size_loop].
    rewrite (Ht (shape a) eq_refl); reflexivity.
  - intros ddof keepdims; unfold var, _var, _var_terms.
    cbn [is_some _ensure_optional_axes].
    assert (Hpt : exists cd dt, _var_promote_types (dtype a) None = Ok (cd, dt)).
    { unfold _var_promote_types; destruct (negb (is_inexact (dtype a))); eauto. }
    destruct Hpt as (cd & dt & ->); cbn [bind].
    unfold mean, _mean, _axis_size.
    cbn [is_some _ensure_optional_axes _axis_size_loop shape astype convert_element_type].
    rewrite (Ht (shape a) eq_refl); reflexivity.
  - intros keepdims; apply reduction_dims_error; [reflexivity|].
    assert (Hn : forall b, ndim b = ndim a ->
                   _reduction_dims b (AxisOne (AxInt i))
                   = Raise (ValueError
                              ("axis " ++ string_of_Z i
                               ++ " is out of bounds for array of dimension "
                               ++ string_of_nat (ndim a))%string)).
    { intros b Hb; unfold _reduction_dims; cbn [mapM _canonicalize_axis_allow_named].
      rewrite Hb, (canonicalize_axis_out_of_bounds i (ndim a) H); reflexivity. }
    apply Hn; unfold ndim; rewrite shape_cast_to_numeric; reflexivity.
Qed.

(** *** The variance *)

Lemma keepdims_shape_length (flags : list bool) (sh : list nat) :
  List.length flags = List.length sh ->
  List.length (keepdims_shape flags sh) = List.length sh.
Proof.
  revert sh; induction flags as [|f flags IH]; intros [|n sh] H; try discriminate H;
    cbn [keepdims_shape List.length]; [reflexivity|].
  rewrite IH by (injection H as H; exact H); reflexivity.
Qed.

Lemma lax_keepdims_broadcasts (pd sh : list nat) :
  lax_broadcast_shape sh (reduced_shape true pd sh) = Some sh.
Proof.
  assert (Hl : List.length (reduced_shape true pd sh) = List.length sh)
    by (unfold reduced_shape; apply keepdims_shape_length, dim_flags_length).
  pose proof (keepdims_broadcasts pd sh) as Hb.
  unfold lax_broadcast_shape.
  destruct sh as [|n sh].
  - destruct (reduced_shape true pd []); [reflexivity | discriminate Hl].
  - destruct (reduced_shape true pd (n :: sh)) as [|m r]; [reflexivity|].
    rewrite Hl, Nat.eqb_refl; exact Hb.
Qed.

Lemma bread_scalar (a : Array) (sh idx : list nat) :
  shape a = [] -> (forall i, item a i = item a []) -> bread a sh idx = item a [].
Proof.
  intros Hs Hi; unfold bread; destruct (shape_eqb _ _); apply Hi.
Qed.

Lemma var_last_line (num nrm : Array) (dt : DType) :
  dtype nrm = dtype num -> shape nrm = [] -> (forall i, item nrm i = item nrm []) ->
  exists r,
    (q <- lax_binop lax_div num nrm ;;
     _where (gt_zero nrm) (OArr (astype q dt)) (OPy PyNaN)) = Ok r
    /\ shape r = shape num
    /\ dtype r = canonicalize_dtype (weak_result (canonicalize_dtype dt) PyNaN)
    /\ forall idx,
         item r idx
         = if s_gt (item nrm []) (const (dtype nrm) (PyInt 0))
           then convert_item (canonicalize_dtype dt) (dtype r)
                  (convert_item (dtype num) (canonicalize_dtype dt)
                     (lax_div (dtype num) (item num idx) (item nrm [])))
           else const (dtype r) PyNaN.
Proof.
  intros Hdt Hsh Hit.
  unfold lax_binop; rewrite Hdt, dtype_eqb_refl, Hsh, broadcast_with_scalar.
  cbn [negb bind]; unfold _where.
  cbn [operand_shape astype convert_element_type shape].
  rewrite broadcast_shapes_nil_r.
  replace (shape (gt_zero nrm)) with (@nil nat) by (symmetry; exact Hsh).
  rewrite broadcast_shapes_nil_l.
  eexists; split; [reflexivity|]; split; [reflexivity|]; split; [reflexivity|].
  intros idx; cbn [dtype shape item].
  rewrite (bread_scalar (gt_zero nrm) (shape num) idx Hsh)
    by (intros i; cbn [gt_zero lax_pred item]; rewrite (Hit i); reflexivity).
  cbn [gt_zero lax_pred item truthy operand_item dtype shape astype
       convert_element_type].
  rewrite ?Hdt.
  destruct (s_gt _ _); [|reflexivity].
  f_equal; unfold astype, convert_element_type, bread; cbn [shape item dtype].
  rewrite !shape_eqb_refl; do 2 f_equal.
  destruct (shape_eqb _ _); apply Hit.
Qed.

Lemma var_plain :
  forall (a : Array) (axis : Axis) (dtype_ : option DType) (ddof : pynum)
         (keepdims : bool) (pd : list nat) (dims : list dim) (cd dt : DType),
    axis_is_positional axis = true ->
    _reduction_dims a axis = Ok (pd, dims) ->
    _var_promote_types (dtype a) dtype_ = Ok (cd, dt) ->
    exists num nrm r,
      _var_terms a axis dtype_ None ddof keepdims None = Ok (num, nrm, dt)
      /\ var a axis dtype_ None ddof keepdims None None = Ok r
      /\ shape r = reduced_shape keepdims pd (shape a)
      /\ shape nrm = []
      /\ dtype nrm = dtype num
      /\ dtype nrm = canonicalize_dtype
                       (if is_complexfloating cd
                        then _complex_elem_type (canonicalize_dtype cd) else cd)
      /\ dtype r = canonicalize_dtype (weak_result (canonicalize_dtype dt) PyNaN)
      /\ forall idx,
           let n := List.length
                      (reduced_slice a pd (reduce_index keepdims (ndim a) pd idx)) in
           item nrm []
           = lax_sub (dtype nrm)
               (convert_item default_int (dtype nrm) (SInt (Z.of_nat n)))
               (convert_item (dtype (pynum_array ddof)) (dtype nrm)
                  (item (pynum_array ddof) []))
           /\ item r idx
              = if s_gt (item nrm []) (const (dtype nrm) (PyInt 0))
                then convert_item (canonicalize_dtype dt) (dtype r)
                       (convert_item (dtype num) (canonicalize_dtype dt)
                          (lax_div (dtype num) (item num idx) (item nrm [])))
                else const (dtype r) PyNaN.
Proof.
  intros a axis dtype_ ddof keepdims pd dims cd dt Hp Hd Hpt.
  set (a' := astype a cd).
  assert (Hd' : _reduction_dims a' axis = Ok (pd, dims))
    by (rewrite <- Hd; apply reduction_dims_ndim; reflexivity).
  destruct (mean_plain a' axis (Some cd) true pd dims Hp Hd')
    as (s0 & m & _ & Hm & _ & Hdm & Hsm & _).
  assert (Hc : exists c, lax_binop lax_sub a' m = Ok c
                         /\ dtype c = canonicalize_dtype cd /\ shape c = shape a).
  { unfold lax_binop; rewrite Hdm, Hsm.
    cbn [a' astype convert_element_type dtype shape].
    rewrite canonicalize_dtype_idem, dtype_eqb_refl, lax_keepdims_broadcasts.
    cbn [negb]; eexists; split; [reflexivity|]; split; reflexivity. }
  destruct Hc as (c & Hc & Hdc & Hsc).
  set (centered := if is_complexfloating cd then lax_abs2 c else lax_square c).
  set (cd2 := if is_complexfloating cd then dtype centered else cd).
  assert (Hscen : shape centered = shape a)
    by (unfold centered; destruct (is_complexfloating cd); exact Hsc).
  assert (Hdcen : _reduction_dims centered axis = Ok (pd, dims))
    by (rewrite <- Hd; apply reduction_dims_ndim; unfold ndim; rewrite Hscen; reflexivity).
  destruct (sum_plain centered axis (Some cd2) keepdims true pd dims Hp Hdcen)
    as (num & Hnum & Hdnum & Hsnum).
  rewrite Hscen in Hsnum.
  destruct (reduction_dims_positions _ _ _ _ Hd) as [Hnd Hlt].
  assert (Hcount : forall oidx,
            match axis with
            | AxisNone => Ok (size a')
            | _ => _axis_size a' axis
            end = Ok (List.length (reduced_slice a pd oidx))).
  { intros oidx.
    pose proof (reduced_count_is_slice_length a' axis pd dims oidx Hp Hd') as Hr.
    rewrite (ensure_optional_axes_positional _ Hp) in Hr.
    unfold reduced_count in Hr.
    rewrite (reduced_slice_length a pd oidx Hnd Hlt).
    rewrite (reduced_slice_length a' pd oidx Hnd Hlt) in Hr.
    destruct axis; exact Hr. }
  set (N := List.length (reduced_slice a pd [])).
  pose (nrm := {| dtype := canonicalize_dtype cd2;
                 shape := [];
                 item := fun _ : list nat =>
                   lax_sub (canonicalize_dtype cd2)
                     (convert_item default_int (canonicalize_dtype cd2)
                        (SInt (Z.of_nat N)))
                     (convert_item (dtype (pynum_array ddof)) (canonicalize_dtype cd2)
                        (item (pynum_array ddof) []));
                 py_scalar := false |}).
  assert (Hterms : _var_terms a axis dtype_ None ddof keepdims None = Ok (num, nrm, dt)).
  { unfold _var_terms; cbn [is_some]; rewrite Hpt; cbn [bind]; fold a'.
    rewrite Hm; cbn [bind]; rewrite Hc; cbn [bind]; fold centered; fold cd2.
    rewrite (Hcount []); cbn [bind]; fold N.
    unfold lax_binop; cbn [convert_element_type dtype shape].
    rewrite dtype_eqb_refl; cbn [negb lax_broadcast_shape bind].
    rewrite Hnum; cbn [bind].
    unfold nrm; do 3 f_equal.
    destruct ddof; reflexivity. }
  exists num, nrm.
  assert (Hdn : dtype nrm = dtype num) by (rewrite Hdnum; reflexivity).
  destruct (var_last_line num nrm dt Hdn eq_refl (fun _ => eq_refl))
    as (r & Hr & Hsr & Hdr & Hir).
  exists r; split; [exact Hterms|]; split.
  { unfold var, _var; rewrite (ensure_optional_axes_positional _ Hp), Hterms.
    exact Hr. }
  split; [rewrite Hsr; exact Hsnum|]; split; [reflexivity|]; split; [exact Hdn|].
  split.
  { cbn [nrm dtype]; unfold cd2, centered.
    destruct (is_complexfloating cd); [|reflexivity].
    cbn [lax_abs2 dtype]; rewrite Hdc; reflexivity. }
  split; [exact Hdr|].
  intros idx; cbv zeta; split; [|apply Hir].
  assert (HN : List.length (reduced_slice a pd (reduce_index keepdims (ndim a) pd idx)) = N)
    by (unfold N; rewrite !reduced_slice_length by assumption; reflexivity).
  rewrite HN; reflexivity.
Qed.



(** The difference of two integers taken in a floating dtype is not positive
    when the first is not greater than the second. *)
Hypothesis fsub_of_Z_not_positive :
  forall d n k, (n <= k)%Z ->
    flt (f_of_Z d 0) (fsub d (f_of_Z d n) (f_of_Z d k)) = false.

Lemma int_to_inexact (d : DType) (z : Z) :
  is_inexact d = true -> convert_item default_int d (SInt z) = SFl (f_of_Z d z).
Proof.
  intros H; unfold convert_item, cvt.
  rewrite (inexact_not_bool _ H), (inexact_not_integer _ H).
  destruct (dtype_eqb default_int d) eqn:E; [|reflexivity].
  apply dtype_eqb_eq in E; subst d; exfalso; revert H.
  unfold default_int, canonicalize_dtype, int_.
  destruct (enable_x64 config), (default_dtype_bits_32 config); discriminate.
Qed.

(** X21. Without degrees of freedom the variance is NaN, not an error: when
    the integer [ddof] is at least the number of elements reduced into each
    output element, [var] (default [dtype], no mask) succeeds and every
    element of its result is NaN, in the real inexact dtype of the result. *)
Theorem var_without_degrees_of_freedom_is_nan :
  forall (a : Array) (axis : Axis) (k : Z) (keepdims : bool)
         (pd : list nat) (dims : list dim),
    axis_is_positional axis = true ->
    _reduction_dims a axis = Ok (pd, dims) ->
    (Z.of_nat (fold_right Nat.mul 1%nat (map (fun d => nth d (shape a) 0%nat) pd)) <= k)%Z ->
    exists r,
      var a axis None None (PInt k) keepdims None None = Ok r
      /\ shape r = reduced_shape keepdims pd (shape a)
      /\ dtype r = canonicalize_dtype
                     (if is_inexact (dtype a) then _complex_elem_type (dtype a)
                      else to_inexact_dtype (dtype a))
      /\ forall idx, item r idx = SFl fnan.
Proof.
  intros a axis k keepdims pd dims Hp Hd Hk.
  set (dt := if is_inexact (dtype a) then _complex_elem_type (dtype a)
             else to_inexact_dtype (dtype a)).
  set (cd := _upcast_f16 (if is_inexact (dtype a) then dtype a
                          else to_inexact_dtype (dtype a))).
  assert (Hpt : _var_promote_types (dtype a) None = Ok (cd, dt))
    by (unfold _var_promote_types, cd, dt; destruct (is_inexact (dtype a)); reflexivity).
  destruct (var_plain a axis None (PInt k) keepdims pd dims cd dt Hp Hd Hpt)
    as (num & nrm & r & _ & Hr & Hsr & _ & _ & Hdn & Hdr & Hir).
  assert (Hin : is_inexact (dtype nrm) = true).
  { rewrite Hdn, canonicalize_is_inexact; unfold cd, canonicalize_dtype.
    destruct (dtype a), (enable_x64 config); reflexivity. }
  assert (Hidt : is_inexact (canonicalize_dtype dt) = true)
    by (rewrite canonicalize_is_inexact; unfold dt; destruct (dtype a); reflexivity).
  assert (Hdr' : dtype r = canonicalize_dtype dt).
  { rewrite Hdr; unfold weak_result; rewrite Hidt; apply canonicalize_dtype_idem. }
  exists r; split; [exact Hr|]; split; [exact Hsr|]; split; [exact Hdr'|].
  intros idx; destruct (Hir idx) as [Hn Hi]; rewrite Hi, Hn.
  cbn [pynum_array dtype item].
  rewrite !(int_to_inexact _ _ Hin), (const_int_inexact _ _ Hin).
  cbn [lax_sub s_gt]; rewrite fsub_of_Z_not_positive.
  - rewrite Hdr'; apply const_nan, Hidt.
  - destruct (reduction_dims_positions _ _ _ _ Hd) as [Hnd Hlt].
    rewrite reduced_slice_length by assumption; exact Hk.
Qed.

End Properties.

(* ------------------------------------------------------------------------- *)
(** ** The properties on the reference runtime *)

#[export] Existing Instance default_lib.
#[export] Existing Instance exact_floats.
#[export] Existing Instance no_collectives.

Lemma zero_size_reduction_without_identity_witness :
  _reduction_dims (vector int32 []) (_ensure_optional_axes AxisNone)
  = Ok ([0], [DPos 0])
  /\ max (vector int32 []) AxisNone None false None None
     = Raise (ValueError "zero-size array to reduction operation max which has no identity").
Proof.
  split; [reflexivity|].
  apply (zero_size_reduction_without_identity
           (vector int32 []) AxisNone false [0] [DPos 0] eq_refl).
  exists 0; split; [left; reflexivity | reflexivity].
Defined.

Lemma valid_bool_vector (l : list bool) : valid_array (vector bool_ (map SBool l)).
Proof.
  split; [reflexivity|]; intros idx; cbn [dtype item vector].
  generalize (hd 0 idx); induction l as [|b l IH]; intros [|n]; simpl; auto.
Qed.

Lemma cumulative_reductions_of_bool_witness :
  let v := vector bool_ (map SBool [true; false; true]) in
  valid_array v /\ dtype v = bool_
  /\ cumulative_input v (_ensure_optional_axes AxisNone) = Ok (ravel v, 0)
  /\ accumulates_bool_in_int cumsum lax_add v AxisNone (ravel v) 0.
Proof.
  intros v; split; [apply valid_bool_vector|].
  split; [reflexivity|]; split; [reflexivity|].
  apply (cumulative_reductions_of_bool v AxisNone (ravel v) 0
           (valid_bool_vector _) eq_refl eq_refl).
Defined.

Lemma exact_fcvt_zero :
  forall d1 d2, is_inexact d1 = true -> is_inexact d2 = true ->
    fcvt d1 d2 (f_of_Z d1 0) = f_of_Z d2 0.
Proof. intros d1 d2; destruct d1, d2; intros H1 H2; try discriminate; reflexivity. Qed.

Lemma masked_sum_is_sum_of_where_witness :
  let a := matrix int32 (map (map SInt) [[1; 3; 4; 2]; [5; 2; 6; 3]; [8; 1; 3; 9]]%Z) in
  let m := matrix bool_ (map (map SBool)
             [[false; false; true; false]; [false; false; true; true];
              [true; true; true; false]]) in
  axis_is_positional (AxisOne (AxInt 1)) = true
  /\ broadcast_shapes (shape m) (shape a) = Some [3; 4]
  /\ List.length [3; 4] = ndim a
  /\ result_eq (sum a (AxisOne (AxInt 1)) None None true None (Some m) true)
       (w <- where_zero m a ;; sum w (AxisOne (AxInt 1)) None None true None None true).
Proof.
  intros a m; split; [reflexivity|]; split; [reflexivity|]; split; [reflexivity|].
  apply (masked_sum_is_sum_of_where exact_fcvt_zero a m (AxisOne (AxInt 1)) true [3; 4]);
    reflexivity.
Defined.

Lemma q_eqb_eq (a b : Q) : q_eqb a b = true -> a = b.
Proof.
  destruct a as [an ad], b as [bn bd]; unfold q_eqb; simpl.
  intros H; apply andb_true_iff in H; destruct H as [H1 H2].
  apply Z.eqb_eq in H1; apply Pos.eqb_eq in H2; congruence.
Qed.

Lemma xround_valid (d : DType) (q q' : Q) :
  xvalid d (XFin q) = true -> (q' == q)%Q -> xround d q' = XFin q.
Proof.
  unfold xvalid, xround; intros H He.
  apply andb_true_iff in H; destruct H as [H1 H2]; apply q_eqb_eq in H1.
  rewrite (Qred_complete _ _ He), H1.
  destruct d; try reflexivity; rewrite H2; reflexivity.
Qed.

Lemma exact_fadd_zero :
  forall d x, is_inexact d = true -> fvalid d x = true ->
    fadd d (f_of_Z d 0) x = x /\ fadd d x (f_of_Z d 0) = x.
Proof.
  intros d x Hd Hx.
  assert (H0 : f_of_Z d 0 = XFin 0) by (destruct d; reflexivity).
  rewrite H0; destruct x as [|n|q]; cbn [fadd exact_floats xadd].
  - split; reflexivity.
  - split; reflexivity.
  - split; apply xround_valid; try exact Hx; ring.
Qed.

Lemma exact_fmul_one :
  forall d x, is_inexact d = true -> fvalid d x = true ->
    fmul d (f_of_Z d 1) x = x /\ fmul d x (f_of_Z d 1) = x.
Proof.
  intros d x Hd Hx.
  assert (H1 : f_of_Z d 1 = XFin 1) by (destruct d; reflexivity).
  rewrite H1; destruct x as [|n|q]; cbn [fmul exact_floats xmul].
  - split; reflexivity.
  - destruct n; split; reflexivity.
  - split; apply xround_valid; try exact Hx; ring.
Qed.

Lemma qabs_bound (q : Q) :
  Qle_bool (Qabs q) 448 = true -> Qle_bool (- 448) q = true /\ Qle_bool q 448 = true.
Proof.
  intros H; apply Qle_bool_iff in H; apply Qabs_Qle_condition in H.
  destruct H as [H1 H2]; split; apply Qle_bool_iff; assumption.
Qed.

Lemma xfin_bound_eq (d : DType) (q b : Q) :
  xvalid d (XFin q) = true -> q_eqb (Qred b) b = true ->
  Qle_bool q b = true -> Qle_bool b q = true -> XFin q = XFin b.
Proof.
  unfold xvalid; intros H Hb H1 H2.
  apply andb_true_iff in H; destruct H as [H _]; apply q_eqb_eq in H.
  apply q_eqb_eq in Hb; apply Qle_bool_iff in H1; apply Qle_bool_iff in H2.
  rewrite <- H, <- Hb; f_equal; apply Qred_complete, Qle_antisym; assumption.
Qed.

Lemma exact_fmax_lowest :
  forall d x, is_floating d = true -> fvalid d x = true ->
    fmax d (float_lowest d) x = x /\ fmax d x (float_lowest d) = x.
Proof.
  intros d x Hd Hx; unfold float_lowest.
  destruct (supports_inf d) eqn:Hs.
  - cbn [finf exact_floats fmax]; unfold xmax.
    destruct x as [|[|]|q]; split; reflexivity.
  - assert (d = float8_e4m3fn) by (destruct d; try discriminate; reflexivity); subst d.
    cbn [finfo_min exact_floats fmax]; unfold xmax.
    destruct x as [|n|q]; [split; reflexivity | discriminate |].
    cbn [xisnan xle].
    cbn in Hx; destruct (qabs_bound q) as [H1 H2];
      [apply andb_true_iff in Hx; apply Hx|].
    rewrite H1; split; [reflexivity|].
    destruct (Qle_bool q (- 448)) eqn:H3; [|reflexivity].
    symmetry; eapply (xfin_bound_eq float8_e4m3fn); [exact Hx | reflexivity | exact H3 | exact H1].
Qed.

Lemma exact_fmin_highest :
  forall d x, is_floating d = true -> fvalid d x = true ->
    fmin d (float_highest d) x = x /\ fmin d x (float_highest d) = x.
Proof.
  intros d x Hd Hx; unfold float_highest.
  destruct (supports_inf d) eqn:Hs.
  - cbn [finf exact_floats fmin]; unfold xmin.
    destruct x as [|[|]|q]; split; reflexivity.
  - assert (d = float8_e4m3fn) by (destruct d; try discriminate; reflexivity); subst d.
    cbn [finfo_max exact_floats fmin]; unfold xmin.
    destruct x as [|n|q]; [split; reflexivity | discriminate |].
    cbn [xisnan xle].
    cbn in Hx; destruct (qabs_bound q) as [H1 H2];
      [apply andb_true_iff in Hx; apply Hx|].
    rewrite H2; split; [|reflexivity].
    destruct (Qle_bool 448 q) eqn:H3; [|reflexivity].
    symmetry; eapply (xfin_bound_eq float8_e4m3fn);
      [exact Hx | reflexivity | exact H2 | exact H3].
Qed.

Lemma initial_is_combined_after_backend_reduce_witness :
  let v := vector int32 (map SInt [1; 2; 3]%Z) in
  let ini := scalar_array int32 (SInt 10) in
  ndim v <> 0 /\ ndim ini = 0
  /\ is_ok (sum v AxisNone None None false (Some v) None true) = false
  /\ combines_initial_after_reduce
       (max v AxisNone None false (Some ini) None)
       v lax_max None (PyInf true) false false
       (_ensure_optional_axes AxisNone) None false ini None.
Proof.
  intros v ini; split; [discriminate|]; split; [reflexivity|]; split.
  - pose proof (initial_is_combined_after_backend_reduce
                  exact_fadd_zero exact_fmul_one exact_fmax_lowest exact_fmin_highest
                  v AxisNone None false v None true) as [H _].
    apply H; discriminate.
  - pose proof (initial_is_combined_after_backend_reduce
                  exact_fadd_zero exact_fmul_one exact_fmax_lowest exact_fmin_highest
                  v AxisNone None false ini None true) as [_ [H _]].
    destruct (H eq_refl) as [_ [_ [H3 _]]]; exact H3.
Defined.

(** On [int8] input the tail of [cumulative_sum] is accumulated in the
    promoted dtype, while [cumsum] wraps around in [int8]. *)
Lemma cumulative_sum_tail_is_not_cumsum :
  let x := vector int8 [SInt 100; SInt 100] in
  exists r c,
    cumulative_sum x None None true = Ok r
    /\ cumsum x AxisNone None None = Ok c
    /\ dtype r = int32 /\ dtype c = int8
    /\ item r [1] = SInt 100 /\ item r [2] = SInt 200
    /\ item c [0] = SInt 100 /\ item c [1] = SInt (-56)
    /\ item r [2] <> item c [1].
Proof.
  intros x.
  pose (is_int := fun (s : scalar) (z : Z) =>
                    match s with SInt a => Z.eqb a z | _ => false end).
  assert (Hint : forall s z, is_int s z = true -> s = SInt z).
  { intros [b|a|f] z H; try discriminate H. apply Z.eqb_eq in H; congruence. }
  assert (H : match cumulative_sum x None None true, cumsum x AxisNone None None with
              | Ok r, Ok c =>
                  dtype_eqb (dtype r) int32 && dtype_eqb (dtype c) int8
                  && is_int (item r [1]) 100%Z && is_int (item r [2]) 200%Z
                  && is_int (item c [0]) 100%Z && is_int (item c [1]) (-56)%Z
              | _, _ => false
              end = true) by (vm_compute; reflexivity).
  revert H.
  destruct (cumulative_sum x None None true) as [r|e]; [|discriminate].
  destruct (cumsum x AxisNone None None) as [c|e]; [|discriminate].
  intros H; repeat (apply andb_prop in H; destruct H as [H ?]).
  exists r, c; repeat (split; [first [reflexivity | apply dtype_eqb_eq; assumption | apply Hint; assumption]|]).
  match goal with
  | Hr : is_int (item r [2]) _ = true, Hc : is_int (item c [1]) _ = true |- _ =>
      rewrite (Hint _ _ Hr), (Hint _ _ Hc); discriminate
  end.
Qed.

Lemma cumulative_sum_prepends_zero_to_promoted_cumsum_witness :
  let x := vector int8 [SInt 100; SInt 100] in
  canonicalize_dtype (dtype x) = dtype x /\ shape x = [2]
  /\ exists r c,
       cumulative_sum x None None true = Ok r
       /\ cumsum x AxisNone (Some (_promote_integer_dtype (dtype x))) None = Ok c
       /\ dtype r = dtype c /\ shape r = [3] /\ shape c = [2]
       /\ item r [0] = const (dtype r) (PyInt 0)
       /\ (forall i, item r [S i] = item c [i])
       /\ (_promote_integer_dtype (dtype x) = dtype x \/ is_bool (dtype x) = true ->
           cumsum x AxisNone None None = Ok c).
Proof.
  intros x; split; [reflexivity|]; split; [reflexivity|].
  destruct (cumulative_sum_prepends_zero_to_promoted_cumsum x) as [H _].
  exact (H 2 eq_refl eq_refl).
Defined.

Lemma all_any_of_reduced_slice_witness :
  let a := vector bool_ (map SBool [true; false; true]) in
  valid_array a /\ axis_is_positional AxisNone = true
  /\ _reduction_dims a AxisNone = Ok ([0], [DPos 0])
  /\ exists r_all r_any,
       all a AxisNone None false None = Ok r_all
       /\ any a AxisNone None false None = Ok r_any
       /\ dtype r_all = bool_ /\ dtype r_any = bool_
       /\ shape r_all = reduced_shape false [0] (shape a)
       /\ shape r_any = reduced_shape false [0] (shape a)
       /\ forall idx,
            let slice := reduced_slice a [0] (reduce_index false (ndim a) [0] idx) in
            item r_all idx = SBool (forallb truthy slice)
            /\ item r_any idx = SBool (existsb truthy slice).
Proof.
  intros a; split; [apply valid_bool_vector|]; split; [reflexivity|].
  split; [reflexivity|].
  exact (all_any_of_reduced_slice a AxisNone false [0] [DPos 0]
           (valid_bool_vector _) eq_refl eq_refl).
Defined.

Lemma integer_sum_and_prod_wrap_around_witness :
  let a := vector int8 [SInt 100; SInt 100] in
  valid_array a /\ is_bool (dtype a) || is_integer (dtype a) = true
  /\ axis_is_positional AxisNone = true
  /\ _reduction_dims a AxisNone = Ok ([0], [DPos 0])
  /\ exists s p,
       sum a AxisNone None None false None None true = Ok s
       /\ prod a AxisNone None None false None None true = Ok p
       /\ dtype s = canonicalize_dtype (_promote_integer_dtype (dtype a))
       /\ dtype p = canonicalize_dtype (_promote_integer_dtype (dtype a))
       /\ shape s = reduced_shape false [0] (shape a)
       /\ shape p = reduced_shape false [0] (shape a)
       /\ forall idx,
            let slice := reduced_slice a [0] (reduce_index false (ndim a) [0] idx) in
            item s idx = SInt (wrap (dtype s) (int_total slice))
            /\ item p idx = SInt (wrap (dtype p) (int_product slice)).
Proof.
  intros a.
  assert (Hv : valid_array a) by (apply valid_vector; reflexivity).
  split; [exact Hv|]; split; [reflexivity|]; split; [reflexivity|].
  split; [reflexivity|].
  exact (integer_sum_and_prod_wrap_around a AxisNone false [0] [DPos 0]
           Hv eq_refl eq_refl eq_refl).
Defined.

Lemma integer_max_min_of_reduced_slice_witness :
  let a := vector int32 [SInt 3; SInt (-7); SInt 5] in
  valid_array a /\ is_integer (dtype a) = true
  /\ axis_is_positional (AxisOne (AxInt (-1))) = true
  /\ _reduction_dims a (AxisOne (AxInt (-1))) = Ok ([0], [DPos 0])
  /\ (forall d, In d [0] -> 1 <= nth d (shape a) 0)
  /\ exists hi lo,
       max a (AxisOne (AxInt (-1))) None true None None = Ok hi
       /\ min a (AxisOne (AxInt (-1))) None true None None = Ok lo
       /\ dtype hi = dtype a /\ dtype lo = dtype a
       /\ shape hi = reduced_shape true [0] (shape a)
       /\ shape lo = reduced_shape true [0] (shape a)
       /\ forall idx,
            let slice := reduced_slice a [0] (reduce_index true (ndim a) [0] idx) in
            exists m n,
              item hi idx = SInt m /\ is_int_maximum m slice
              /\ item lo idx = SInt n /\ is_int_minimum n slice.
Proof.
  intros a.
  assert (Hv : valid_array a) by (apply valid_vector; reflexivity).
  assert (Hne : forall d, In d [0] -> 1 <= nth d (shape a) 0)
    by (intros d [<-|[]]; cbn; lia).
  split; [exact Hv|]; split; [reflexivity|]; split; [reflexivity|].
  split; [reflexivity|]; split; [exact Hne|].
  exact (integer_max_min_of_reduced_slice a (AxisOne (AxInt (-1))) true [0] [DPos 0]
           Hv eq_refl eq_refl eq_refl Hne).
Defined.

Lemma count_nonzero_counts_reduced_slice_witness :
  let a := matrix int32 (map (map SInt) [[1; 0; 4]; [0; 0; 6]]%Z) in
  axis_is_positional (AxisOne (AxInt 1)) = true
  /\ _reduction_dims a (AxisOne (AxInt 1)) = Ok ([1], [DPos 1])
  /\ exists r,
       count_nonzero a (AxisOne (AxInt 1)) false = Ok r
       /\ dtype r = canonicalize_dtype int64
       /\ shape r = reduced_shape false [1] (shape a)
       /\ forall idx,
            let n := count_truthy
                       (reduced_slice a [1] (reduce_index false (ndim a) [1] idx)) in
            item r idx = SInt (wrap (dtype r) (Z.of_nat n))
            /\ ((Z.of_nat n <= iinfo_max (dtype r))%Z -> item r idx = SInt (Z.of_nat n)).
Proof.
  intros a; split; [reflexivity|]; split; [reflexivity|].
  exact (count_nonzero_counts_reduced_slice a (AxisOne (AxInt 1)) false [1] [DPos 1]
           eq_refl eq_refl).
Defined.

Lemma negative_axis_counts_from_the_end_witness :
  let a := matrix int32 (map (map SInt) [[1; 2; 3]; [4; 5; 6]]%Z) in
  (- Z.of_nat (ndim a) <= -1 < 0)%Z
  /\ forall dtype_ out keepdims initial where_ promote,
       sum a (AxisOne (AxInt (-1))) dtype_ out keepdims initial where_ promote
       = sum a (AxisOne (AxInt 1)) dtype_ out keepdims initial where_ promote.
Proof.
  intros a.
  assert (H : (- Z.of_nat (ndim a) <= -1 < 0)%Z) by (cbn; lia).
  split; [exact H|].
  intros dtype_ out keepdims initial where_ promote.
  exact (proj1 (proj1 (negative_axis_counts_from_the_end a (-1) H)
                  dtype_ out keepdims initial where_ promote)).
Defined.

Lemma axis_order_is_irrelevant_witness :
  let a := matrix int32 (map (map SInt) [[1; 2; 3]; [4; 5; 6]]%Z) in
  Permutation [AxInt 0; AxInt 1] [AxInt 1; AxInt 0]
  /\ axis_is_positional (AxisSeq [AxInt 0; AxInt 1]) = true
  /\ _reduction_dims a (AxisSeq [AxInt 0; AxInt 1]) = Ok ([0; 1], [DPos 0; DPos 1])
  /\ forall out keepdims initial where_,
       max a (AxisSeq [AxInt 0; AxInt 1]) out keepdims initial where_
       = max a (AxisSeq [AxInt 1; AxInt 0]) out keepdims initial where_.
Proof.
  intros a.
  assert (HP : Permutation [AxInt 0; AxInt 1] [AxInt 1; AxInt 0]) by apply perm_swap.
  split; [exact HP|]; split; [reflexivity|]; split; [reflexivity|].
  intros out keepdims initial where_.
  exact (proj1 (proj1 (proj2 (axis_order_is_irrelevant a _ _ [0; 1] [DPos 0; DPos 1]
                                HP eq_refl eq_refl))
                  out keepdims initial where_)).
Defined.

Lemma out_of_range_axis_is_rejected_witness :
  let a := vector int32 [SInt 1; SInt 2] in
  (1 < - Z.of_nat (ndim a) \/ Z.of_nat (ndim a) <= 1)%Z
  /\ sum a (AxisOne (AxInt 1)) None None false None None true
     = Raise (ValueError "axis 1 is out of bounds for array of dimension 1").
Proof.
  intros a.
  assert (H : (1 < - Z.of_nat (ndim a) \/ Z.of_nat (ndim a) <= 1)%Z)
    by (right; cbn; lia).
  split; [exact H|].
  exact (proj1 (proj1 (out_of_range_axis_is_rejected a 1 H) None false None None true)).
Defined.




Lemma exact_f_of_Z_valid :
  forall d z, is_inexact d = true -> (z = 0 \/ z = 1)%Z -> fvalid d (f_of_Z d z) = true.
Proof. intros d z Hd [-> | ->]; destruct d; try discriminate Hd; reflexivity. Qed.

Lemma exact_fcvt_one :
  forall d1 d2, is_inexact d1 = true -> is_inexact d2 = true ->
    fcvt d1 d2 (f_of_Z d1 1) = f_of_Z d2 1.
Proof. intros d1 d2; destruct d1, d2; intros H1 H2; try discriminate; reflexivity. Qed.

Lemma nansum_nanprod_skip_nan_witness :
  let a := vector float32 [SFl (XFin 1); SFl XNaN; SFl (XFin 2)] in
  valid_array a /\ is_inexact (dtype a) = true
  /\ axis_is_positional AxisNone = true
  /\ _reduction_dims a AxisNone = Ok ([0], [DPos 0])
  /\ exists s p,
       nansum a AxisNone None None false None None = Ok s
       /\ nanprod a AxisNone None None false None None = Ok p
       /\ dtype s = float32 /\ dtype p = float32.
Proof.
  intros a.
  assert (Hv : valid_array a) by (apply valid_vector; reflexivity).
  split; [exact Hv|]; split; [reflexivity|]; split; [reflexivity|].
  split; [reflexivity|].
  destruct (nansum_nanprod_skip_nan exact_fcvt_zero exact_fadd_zero exact_fmul_one
              exact_f_of_Z_valid exact_fcvt_one
              a AxisNone false [0] [DPos 0] Hv eq_refl eq_refl eq_refl)
    as (s & p & Hs & Hp & Hds & Hdp & _).
  exists s, p; repeat split; assumption.
Defined.

Lemma exact_float_bounds_valid :
  forall d, is_floating d = true ->
    fvalid d (float_lowest d) = true /\ fvalid d (float_highest d) = true.
Proof. intros d Hd; destruct d; try discriminate Hd; split; reflexivity. Qed.

Lemma exact_fmax_fmin_valid :
  forall d x y, is_floating d = true -> fvalid d x = true -> fvalid d y = true ->
    fvalid d (fmax d x y) = true /\ fvalid d (fmin d x y) = true.
Proof.
  intros d x y _ Hx Hy; cbn [fmax fmin exact_floats]; unfold xmax, xmin.
  destruct (xisnan x), (xisnan y), (xle x y); split; assumption.
Qed.

Lemma nanmax_nanmin_skip_nan_witness :
  let a := matrix float32 [[SFl (XFin 1); SFl XNaN]; [SFl XNaN; SFl XNaN]] in
  valid_array a /\ is_floating (dtype a) = true
  /\ axis_is_positional (AxisOne (AxInt 1)) = true
  /\ _reduction_dims a (AxisOne (AxInt 1)) = Ok ([1], [DPos 1])
  /\ (forall k, In k [1] -> 1 <= nth k (shape a) 0)
  /\ exists hi lo,
       nanmax a (AxisOne (AxInt 1)) None false None None = Ok hi
       /\ nanmin a (AxisOne (AxInt 1)) None false None None = Ok lo
       /\ dtype hi = float32 /\ dtype lo = float32
       /\ item hi [0] = SFl (XFin 1) /\ item hi [1] = SFl XNaN.
Proof.
  intros a.
  assert (Hv : valid_array a).
  { split; [reflexivity|]; intros idx; cbn [dtype item a matrix].
    destruct (hd 0 idx) as [|[|[|i]]], (hd 0 (tl idx)) as [|[|[|j]]]; reflexivity. }
  assert (Hne : forall k, In k [1] -> 1 <= nth k (shape a) 0)
    by (intros k [<-|[]]; cbn; lia).
  split; [exact Hv|]; split; [reflexivity|]; split; [reflexivity|].
  split; [reflexivity|]; split; [exact Hne|].
  destruct (nanmax_nanmin_skip_nan exact_fmax_lowest exact_fmin_highest
              exact_float_bounds_valid exact_fmax_fmin_valid
              a (AxisOne (AxInt 1)) false [1] [DPos 1] Hv eq_refl eq_refl eq_refl Hne)
    as (hi & lo & Hhi & Hlo & Hdh & Hdl & _ & _ & Hit).
  exists hi, lo; repeat (split; [assumption|]).
  split; [exact (proj1 (Hit [0])) | exact (proj1 (Hit [1]))].
Defined.

Lemma nanmax_nanmin_with_initial_witness :
  let a := vector float32 [SFl XNaN; SFl XNaN] in
  valid_array a /\ is_floating (dtype a) = true
  /\ axis_is_positional AxisNone = true
  /\ _reduction_dims a AxisNone = Ok ([0], [DPos 0])
  /\ has_dtype (dtype a) (convert_item float32 (dtype a) (SFl (XFin 7))) = true
  /\ exists hi lo,
       nanmax a AxisNone None false (Some (scalar_array float32 (SFl (XFin 7)))) None
       = Ok hi
       /\ nanmin a AxisNone None false (Some (scalar_array float32 (SFl (XFin 7)))) None
          = Ok lo
       /\ item hi [] = SFl (XFin 7) /\ item lo [] = SFl (XFin 7).
Proof.
  intros a.
  assert (Hv : valid_array a) by (apply valid_vector; reflexivity).
  split; [exact Hv|]; split; [reflexivity|]; split; [reflexivity|].
  split; [reflexivity|]; split; [reflexivity|].
  destruct (nanmax_nanmin_with_initial exact_fmax_lowest exact_fmin_highest
              exact_float_bounds_valid exact_fmax_fmin_valid
              a AxisNone false [0] [DPos 0] float32 (@SFl exact_floats (XFin 7))
              Hv eq_refl eq_refl eq_refl eq_refl)
    as (hi & lo & Hhi & Hlo & _ & _ & _ & _ & Hit).
  exists hi, lo; split; [exact Hhi|]; split; [exact Hlo|].
  exact (proj2 (proj2 (Hit [])) eq_refl).
Defined.

Lemma cumulative_reductions_flatten_or_keep_shape_witness :
  let a := matrix int32 (map (map SInt) [[1; 2; 3]; [4; 5; 6]]%Z) in
  In nancumsum [cumsum; cumprod; nancumsum; nancumprod]
  /\ exists r, nancumsum a AxisNone None None = Ok r /\ shape r = [6].
Proof.
  intros a.
  assert (H : In nancumsum [cumsum; cumprod; nancumsum; nancumprod])
    by (right; right; left; reflexivity).
  split; [exact H|].
  exact (proj1 (cumulative_reductions_flatten_or_keep_shape nancumsum a None H)).
Defined.

Lemma keepdims_only_reshapes_witness :
  let a := matrix int32 (map (map SInt) [[1; 2; 3]; [4; 5; 6]]%Z) in
  axis_is_positional (AxisOne (AxInt 1)) = true
  /\ _reduction_dims a (AxisOne (AxInt 1)) = Ok ([1], [DPos 1])
  /\ (@None Array = None \/ (exists w, @None Array = Some w /\ shape w = shape a))
  /\ match max a (AxisOne (AxInt 1)) None false None None with
     | Raise e => max a (AxisOne (AxInt 1)) None true None None = Raise e
     | Ok r =>
         exists r',
           max a (AxisOne (AxInt 1)) None true None None = Ok r'
           /\ dtype r' = dtype r
           /\ shape r = reduced_shape false [1] (shape a)
           /\ shape r' = reduced_shape true [1] (shape a)
           /\ broadcast_shapes (shape a) (shape r') = Some (shape a)
           /\ forall idx, item r' idx = item r (reduce_index true (ndim a) [1] idx)
     end.
Proof.
  intros a.
  assert (Hw : @None Array = None \/ (exists w, @None Array = Some w /\ shape w = shape a))
    by (left; reflexivity).
  split; [reflexivity|]; split; [reflexivity|]; split; [exact Hw|].
  exact (proj1 (proj2 (proj2 (keepdims_only_reshapes a (AxisOne (AxInt 1)) None None None
                                None true [1] [DPos 1] eq_refl eq_refl Hw)))).
Defined.


Lemma ptp_is_max_minus_min_witness :
  let a := vector int8 [SInt (-128); SInt 127] in
  axis_is_positional AxisNone = true
  /\ _reduction_dims a AxisNone = Ok ([0], [DPos 0])
  /\ valid_array a /\ is_integer (dtype a) = true
  /\ (forall d, In d [0] -> 1 <= nth d (shape a) 0)
  /\ exists r,
       ptp a AxisNone None false = Ok r
       /\ dtype r = dtype a
       /\ shape r = reduced_shape false [0] (shape a)
       /\ forall idx,
            let slice := reduced_slice a [0] (reduce_index false (ndim a) [0] idx) in
            exists m n,
              is_int_maximum m slice /\ is_int_minimum n slice
              /\ item r idx = SInt (wrap (dtype a) (m - n)).
Proof.
  intros a.
  assert (Hv : valid_array a) by (apply valid_vector; reflexivity).
  assert (Hne : forall d, In d [0] -> 1 <= nth d (shape a) 0)
    by (intros d [<-|[]]; cbn; lia).
  split; [reflexivity|]; split; [reflexivity|]; split; [exact Hv|].
  split; [reflexivity|]; split; [exact Hne|].
  exact (proj1 (ptp_is_max_minus_min a AxisNone false [0] [DPos 0] eq_refl eq_refl)
           Hv eq_refl Hne).
Defined.


Lemma mean_reports_bad_axis_as_index_error_witness :
  let a := vector int32 (map SInt [1; 2; 3]%Z) in
  (1 < - Z.of_nat (ndim a) \/ Z.of_nat (ndim a) <= 1)%Z
  /\ mean a (AxisOne (AxInt 1)) None None false None
     = Raise (IndexError "tuple index out of range").
Proof.
  intros a.
  assert (H : (1 < - Z.of_nat (ndim a) \/ Z.of_nat (ndim a) <= 1)%Z)
    by (right; apply Z.leb_le; reflexivity).
  split; [exact H|].
  exact (proj1 (mean_reports_bad_axis_as_index_error a 1%Z H) None false).
Defined.

Lemma xround_cases (d : DType) (q : Q) :
  xround d q = XNaN \/ xround d q = XFin (Qred q).
Proof.
  unfold xround; destruct d; try (right; reflexivity).
  destruct (Qle_bool _ _); [right | left]; reflexivity.
Qed.

Lemma exact_fsub_of_Z_not_positive :
  forall d n k, (n <= k)%Z ->
    @flt exact_floats (f_of_Z d 0) (fsub d (f_of_Z d n) (f_of_Z d k)) = false.
Proof.
  intros d n k H; cbn [flt fsub f_of_Z exact_floats]; unfold xsub.
  destruct (xround_cases d (inject_Z 0)) as [-> | ->]; [reflexivity|].
  destruct (xround_cases d (inject_Z n)) as [-> | ->]; [reflexivity|].
  destruct (xround_cases d (inject_Z k)) as [-> | ->]; [reflexivity|].
  cbn [xneg xadd].
  destruct (xround_cases d (Qred (inject_Z n) + Qred (- Qred (inject_Z k)))%Q)
    as [-> | ->]; [reflexivity|].
  cbn [xlt xle].
  assert (Hle : Qle_bool (Qred (Qred (inject_Z n) + Qred (- Qred (inject_Z k))))
                  (Qred (inject_Z 0)) = true).
  { apply Qle_bool_iff; rewrite !Qred_correct.
    unfold Qle, Qplus, Qopp, inject_Z; cbn; lia. }
  rewrite Hle; reflexivity.
Qed.


Lemma var_without_degrees_of_freedom_is_nan_witness :
  let a := vector int32 (map SInt [1; 2; 3]%Z) in
  axis_is_positional AxisNone = true
  /\ _reduction_dims a AxisNone = Ok ([0], [DPos 0])
  /\ (Z.of_nat (fold_right Nat.mul 1%nat (map (fun d => nth d (shape a) 0%nat) [0%nat]))
      <= 3)%Z
  /\ exists r,
       var a AxisNone None None (PInt 3) false None None = Ok r
       /\ shape r = []
       /\ dtype r = float32
       /\ forall idx, item r idx = SFl XNaN.
Proof.
  intros a.
  assert (Hk : (Z.of_nat (fold_right Nat.mul 1%nat
                            (map (fun d => nth d (shape a) 0%nat) [0%nat])) <= 3)%Z)
    by (apply Z.leb_le; reflexivity).
  split; [reflexivity|]; split; [reflexivity|]; split; [exact Hk|].
  exact (var_without_degrees_of_freedom_is_nan exact_fsub_of_Z_not_positive
           a AxisNone 3%Z false [0] [DPos 0] eq_refl eq_refl Hk).
Defined.
